(** * Runner scaling and lifecycle controller: a shallow embedding

    The control plane of the self-hosted runner autoscaler (scale-up
    dispatcher, scale-down reaper, pool top-up, retry layer and the lambda
    wrappers) embedded as Rocq functions, with the properties of the
    specification stated and proved over them.

    Conventions.
    - JavaScript numbers that the code only uses as integers are [Z].
    - [undefined] / optional fields are [option].
    - A call that may throw returns a [result]; code that also performs
      calls on the cloud or on the upstream service runs in the monad [M],
      whose state is the log of the calls made so far.  Loggers are not
      modelled.
    - External services are oracles: records of functions that give the
      response of each call. *)

From Stdlib Require Import ZArith List Bool Lia Permutation Sorted Ascii.
From Stdlib Require DecimalString DecimalPos.
From stdpp Require Import base option list strings gmap.
Import ListNotations.

(* ================================================================== *)
(** * Prelude: results, the call monad, arrays and strings            *)
(* ================================================================== *)

(** The outcome of a call: a value or a thrown exception. *)
Inductive result (E A : Type) : Type :=
| Ok (a : A)
| Throw (e : E).
Arguments Ok {E A} a.
Arguments Throw {E A} e.

Definition isOk {E A} (r : result E A) : bool :=
  match r with Ok _ => true | Throw _ => false end.

(** What the control plane throws and catches: the scaling error of
    ScaleError.ts with its [failedInstanceCount], a request error of the
    upstream client with its HTTP status, or any other error. *)
Inductive exn : Type :=
| ScaleError (failedInstanceCount : Z)
| RequestError (status : Z)
| Error (message : string).

(** State and exceptions: the state survives a throw, as the effects of a
    JavaScript function survive the exception that ends it. *)
Definition M (S E A : Type) : Type := S -> result E A * S.

Definition ret {S E A} (a : A) : M S E A := fun s => (Ok a, s).

Definition throw {S E A} (e : E) : M S E A := fun s => (Throw e, s).

Definition bind {S E A B} (m : M S E A) (k : A -> M S E B) : M S E B :=
  fun s => match m s with
           | (Ok a, s') => k a s'
           | (Throw e, s') => (Throw e, s')
           end.

(** [try { m } catch (e) { h e }] *)
Definition tryCatch {S E A} (m : M S E A) (h : E -> M S E A) : M S E A :=
  fun s => match m s with
           | (Ok a, s') => (Ok a, s')
           | (Throw e, s') => h e s'
           end.

Definition liftResult {S E A} (r : result E A) : M S E A := fun s => (r, s).

Definition modify {S E} (f : S -> S) : M S E unit := fun s => (Ok tt, f s).

(** A call on an external service: it is appended to the log, and its
    outcome is what the service answers. *)
Definition call {C E A} (c : C) (r : result E A) : M (list C) E A :=
  fun log => (r, log ++ [c]).

Declare Scope call_scope.
Delimit Scope call_scope with call.
Notation "'let*' x ':=' m 'in' k" := (bind m (fun x => k))
  (at level 10, x name, m at level 100, k at level 200) : call_scope.

(** [for (const x of l) { body x }] *)
Fixpoint forOf {S E A} (l : list A) (body : A -> M S E unit) : M S E unit :=
  match l with
  | [] => ret tt
  | x :: l' => bind (body x) (fun _ => forOf l' body)
  end.

(** A loop that threads a value through its iterations. *)
Fixpoint foldM {S E A B} (f : B -> A -> M S E B) (l : list A) (b : B) : M S E B :=
  match l with
  | [] => ret b
  | x :: l' => bind (f b x) (foldM f l')
  end.

(** [Array.prototype.slice(start, end)] on integer arguments. *)
Definition relIndex (len : nat) (i : Z) : nat :=
  if (i <? 0)%Z then Z.to_nat (Z.max (Z.of_nat len + i) 0)
  else Nat.min (Z.to_nat i) len.

Definition slice {A} (start stop : Z) (l : list A) : list A :=
  let from := relIndex (length l) start in
  let to := relIndex (length l) stop in
  firstn (to - from) (skipn from l).

(** [Array.prototype.splice(0, deleteCount)]: the removed elements and the
    array that is left. *)
Definition splice0 {A} (deleteCount : Z) (l : list A) : list A * list A :=
  let n := Nat.min (Z.to_nat (Z.max 0 deleteCount)) (length l) in
  (firstn n l, skipn n l).

(** [Array.prototype.sort(cmp)]: the sort is stable; [cmp a b > 0] puts
    [a] after [b].  [insertBy] places [x], which stood before every
    element of [l], in front of the first element it need not follow.
    For a comparator that is not consistent (one that answers [1] both
    ways for some pair) the language leaves the order to the engine, and
    [sortBy] is one such order only: what is proved of an order built with
    [sortBy] is proved for consistent comparators. *)
Fixpoint insertBy {A} (cmp : A -> A -> Z) (x : A) (l : list A) : list A :=
  match l with
  | [] => [x]
  | y :: l' => if (cmp x y <=? 0)%Z then x :: y :: l' else y :: insertBy cmp x l'
  end.

Definition sortBy {A} (cmp : A -> A -> Z) (l : list A) : list A :=
  fold_right (insertBy cmp) [] l.

(** [String.prototype.endsWith] *)
Definition endsWith (s suffix : string) : bool :=
  let n := String.length s in
  let k := String.length suffix in
  (k <=? n)%nat && String.eqb (String.substring (n - k) k s) suffix.

(** [String.prototype.startsWith] *)
Definition startsWith (s prefix : string) : bool := String.prefix prefix s.

(** [String.prototype.split(sep)] for a one-character separator. *)
Fixpoint split (sep : ascii) (s : string) : list string :=
  match s with
  | EmptyString => [EmptyString]
  | String c s' =>
      if Ascii.eqb c sep then EmptyString :: split sep s'
      else match split sep s' with
           | [] => [String c EmptyString]
           | h :: t => String c h :: t
           end
  end.

(** [String.prototype.trim] on the ASCII white space: a tab, a line
    feed, a vertical tab, a form feed, a carriage return and a space.  The
    white space of JavaScript beyond code 127 (the no-break space, the
    line separators, the byte order mark) is not modelled: the model is
    that of [trim] on the texts that [isAscii] accepts. *)
Fixpoint isAscii (s : string) : bool :=
  match s with
  | EmptyString => true
  | String c s' => (Ascii.nat_of_ascii c <? 128)%nat && isAscii s'
  end.

Definition isSpace (c : ascii) : bool :=
  let n := Ascii.nat_of_ascii c in
  (n =? 32)%nat || ((9 <=? n)%nat && (n <=? 13)%nat).

Fixpoint trimStart (s : string) : string :=
  match s with
  | EmptyString => EmptyString
  | String c s' => if isSpace c then trimStart s' else s
  end.

Fixpoint trimEnd (s : string) : string :=
  match s with
  | EmptyString => EmptyString
  | String c s' =>
      match trimEnd s' with
      | EmptyString => if isSpace c then EmptyString else String c EmptyString
      | t => String c t
      end
  end.

Definition trim (s : string) : string := trimEnd (trimStart s).

(** [Number.isSafeInteger]: the integers that a JavaScript number holds
    exactly.  On them the arithmetic of the source is that of [Z], and
    [toString] and [parseInt] below are those of JavaScript; beyond them
    JavaScript rounds, which the model does not. *)
Definition isSafeInteger (z : Z) : bool := (Z.abs z <=? 9007199254740991)%Z.

(** [Number.prototype.toString] of a safe integer. *)
Definition toString (z : Z) : string :=
  DecimalString.NilZero.string_of_int (Z.to_int z).

(** [parseInt(s)] without a radix: white space, a sign, the prefix [0x] for
    radix 16, then the longest run of digits; [None] is [NaN].  The value
    is the exact one, which is that of JavaScript when it is a safe
    integer and the text is ASCII. *)
Definition digitOf (radix : Z) (c : ascii) : option Z :=
  let n := Z.of_nat (Ascii.nat_of_ascii c) in
  let v := if (48 <=? n)%Z && (n <=? 57)%Z then (n - 48)%Z
           else if (97 <=? n)%Z && (n <=? 122)%Z then (n - 87)%Z
           else if (65 <=? n)%Z && (n <=? 90)%Z then (n - 55)%Z
           else radix in
  if (v <? radix)%Z then Some v else None.

Fixpoint digitsFrom (radix : Z) (s : string) (acc : option Z) : option Z :=
  match s with
  | EmptyString => acc
  | String c s' =>
      match digitOf radix c with
      | Some d => digitsFrom radix s' (Some (radix * default 0 acc + d))
      | None => acc
      end
  end%Z.

Definition unsignedFrom (s : string) : option Z :=
  match s with
  | String "0" (String "x" s') | String "0" (String "X" s') => digitsFrom 16 s' None
  | _ => digitsFrom 10 s None
  end.

Definition parseInt (s : string) : option Z :=
  match trimStart s with
  | String "-" s' => Z.opp <$> unsignedFrom s'
  | String "+" s' => unsignedFrom s'
  | s' => unsignedFrom s'
  end.

(** JavaScript truthiness of an optional string. *)
Definition truthy (s : option string) : bool :=
  match s with
  | Some s => negb (String.eqb s "")
  | None => false
  end.

(* ================================================================== *)
(** * scale-runners/scale-up.ts                                        *)
(* ================================================================== *)

Module ScaleUp.

Inductive EventType := check_run | workflow_job.

Inductive RunnerType := Org | Repo.

Record ActionRequestMessage := {
  id : Z;
  eventType : EventType;
  repositoryName : string;
  repositoryOwner : string;
  installationId : Z;
  repoOwnerType : string;
  retryCounter : option Z
}.

(** [ActionRequestMessageSQS]: the message with the identifier of its queue
    delivery. *)
Record ActionRequestMessageSQS := {
  payload : ActionRequestMessage;
  messageId : string
}.

Record RunnerGroup := { name : string; group_id : Z }.

Record CreateGitHubRunnerConfig := {
  ephemeral : bool;
  ghesBaseUrl : option string;
  enableJitConfig : bool;
  runnerLabels : string;
  runnerGroup : option string;
  runnerNamePrefix : string;
  runnerOwner : string;
  runnerType : RunnerType;
  disableAutoUpdate : bool;
  ssmTokenPath : string;
  ssmConfigPath : string
}.

Record Ec2InstanceCriteria := {
  instanceTypes : list string;
  targetCapacityType : string;
  maxSpotPrice : option string;
  instanceAllocationStrategy : string
}.

Record CreateEC2RunnerConfig := {
  environment : string;
  subnets : list string;
  launchTemplateName : string;
  ec2instanceCriteria : Ec2InstanceCriteria;
  numberOfRunners : option Z;
  amiIdSsmParameterName : option string;
  tracingEnabled : bool;
  onDemandFailoverOnError : list string
}.

(** The argument of [createRunner]: [{ runnerType, runnerOwner,
    numberOfRunners, ...ec2RunnerConfig }]. *)
Record RunnerInputParameters := {
  rp_runnerType : RunnerType;
  rp_runnerOwner : string;
  rp_numberOfRunners : Z;
  rp_ec2 : CreateEC2RunnerConfig
}.

Record RunnerList := {
  instanceId : string;
  launchTime : option Z
}.

Record JitConfig := { runner_id : Z; encoded_jit_config : string }.

Record Tag := { Key : string; Value : string }.

(** The process environment as [scaleUp] reads it, defaults applied. *)
Record Env := {
  enableOrgLevel : bool;
  maximumRunners : Z;
  env_runnerLabels : string;
  env_runnerGroup : string;
  env_environment : string;
  env_ssmTokenPath : string;
  ephemeralEnabled : bool;
  env_enableJitConfig : bool;
  env_disableAutoUpdate : bool;
  enableJobQueuedCheck : bool;
  env_runnerNamePrefix : string;
  env_ssmConfigPath : string;
  env_ghesBaseUrl : option string;
  env_subnets : list string;
  env_instanceTypes : list string;
  instanceTargetCapacityType : string;
  instanceMaxSpotPrice : option string;
  instanceAllocationStrategy_ : string;
  env_launchTemplateName : string;
  env_amiIdSsmParameterName : option string;
  env_tracingEnabled : bool;
  env_onDemandFailoverOnError : list string;
  PARAMETER_GITHUB_APP_ID_NAME : string
}.

(** The calls [scaleUp] makes, in the order it makes them. *)
Inductive Call :=
| CreateAppClient
| GetOrgInstallation (org : string)
| GetRepoInstallation (owner repo : string)
| CreateInstallationClient (installation : Z)
| GetJobForWorkflowRun (job_id : Z) (owner repo : string)
| ListEC2Runners (environment : string) (runnerType : RunnerType) (runnerOwner : string)
| CreateRunner (p : RunnerInputParameters)
| CreateRegistrationTokenForOrg (org : string)
| CreateRegistrationTokenForRepo (owner : string) (repo : option string)
| ListRunnerGroups (org : string)
| GenerateRunnerJitconfigForOrg (org name : string) (runner_group_id : option Z) (labels : list string)
| GenerateRunnerJitconfigForRepo (owner : string) (repo : option string) (name : string)
    (runner_group_id : option Z) (labels : list string)
| TagInstance (instance : string) (tags : list Tag)
| GetParameter (name : string)
| PutParameter (name value : string) (secure : bool) (tags : list Tag)
| Delay (ms : Z).

(** The answers of the upstream service and of the cloud. *)
Record Services := {
  createAppClient : result exn unit;
  getOrgInstallation : string -> result exn Z;
  getRepoInstallation : string -> string -> result exn Z;
  createInstallationClient : Z -> result exn unit;
  getJobForWorkflowRun : Z -> string -> string -> result exn string;
  listEC2Runners : string -> RunnerType -> string -> result exn (list RunnerList);
  createRunner : RunnerInputParameters -> result exn (list string);
  createRegistrationTokenForOrg : string -> result exn string;
  createRegistrationTokenForRepo : string -> option string -> result exn string;
  listRunnerGroups : string -> result exn (list RunnerGroup);
  generateRunnerJitconfigForOrg :
    string -> string -> option Z -> list string -> result exn JitConfig;
  generateRunnerJitconfigForRepo :
    string -> option string -> string -> option Z -> list string -> result exn JitConfig;
  tag : string -> list Tag -> result exn unit;
  getParameter : string -> result exn string;
  putParameter : string -> string -> bool -> list Tag -> result exn unit
}.

Local Open Scope call_scope.

Definition generateRunnerServiceConfig (c : CreateGitHubRunnerConfig) (token : string)
    : list string :=
  let config :=
    ["--url " +:+ default "https://github.com" (ghesBaseUrl c) +:+ "/" +:+ runnerOwner c;
     "--token " +:+ token] in
  let config :=
    if negb (String.eqb (runnerLabels c) "")
    then config ++ [trim ("--labels " +:+ runnerLabels c)] else config in
  let config :=
    if disableAutoUpdate c then config ++ ["--disableupdate"] else config in
  let config :=
    match runnerType c, runnerGroup c with
    | Org, Some g => config ++ ["--runnergroup " +:+ g]
    | _, _ => config
    end in
  if ephemeral c then config ++ ["--ephemeral"] else config.

(** The configuration as it is logged. *)
Definition removeTokenFromLogging (config : list string) : list string :=
  map (fun e => if startsWith e "--token" then "--token <REDACTED>" else e) config.

Definition ownerPart (c : CreateGitHubRunnerConfig) : string :=
  nth 0 (split "/" (runnerOwner c)) "".

Definition repoPart (c : CreateGitHubRunnerConfig) : option string :=
  nth_error (split "/" (runnerOwner c)) 1.

Definition getGithubRunnerRegistrationToken (env : Env) (w : Services)
    (c : CreateGitHubRunnerConfig) : M (list Call) exn string :=
  let* token :=
    match runnerType c with
    | Org => call (CreateRegistrationTokenForOrg (runnerOwner c))
               (createRegistrationTokenForOrg w (runnerOwner c))
    | Repo => call (CreateRegistrationTokenForRepo (ownerPart c) (repoPart c))
                (createRegistrationTokenForRepo w (ownerPart c) (repoPart c))
    end in
  let* appId := call (GetParameter (PARAMETER_GITHUB_APP_ID_NAME env))
                  (getParameter w (PARAMETER_GITHUB_APP_ID_NAME env)) in
  ret token.

Definition getInstallationId (w : Services) (enableOrgLevel : bool)
    (p : ActionRequestMessage) : M (list Call) exn Z :=
  if negb (installationId p =? 0)%Z then ret (installationId p)
  else if enableOrgLevel
       then call (GetOrgInstallation (repositoryOwner p))
              (getOrgInstallation w (repositoryOwner p))
       else call (GetRepoInstallation (repositoryOwner p) (repositoryName p))
              (getRepoInstallation w (repositoryOwner p) (repositoryName p)).

Definition isJobQueued (w : Services) (p : ActionRequestMessage) : M (list Call) exn bool :=
  match eventType p with
  | workflow_job =>
      let* status :=
        call (GetJobForWorkflowRun (id p) (repositoryOwner p) (repositoryName p))
          (getJobForWorkflowRun w (id p) (repositoryOwner p) (repositoryName p)) in
      ret (String.eqb status "queued")
  | check_run => throw (Error "Event check_run is not supported")
  end.

Definition getRunnerGroupByName (w : Services) (c : CreateGitHubRunnerConfig)
    : M (list Call) exn Z :=
  let* runnerGroups := call (ListRunnerGroups (runnerOwner c))
                         (listRunnerGroups w (runnerOwner c)) in
  match find (fun g => bool_decide (Some (name g) = runnerGroup c)) runnerGroups with
  | Some g => ret (group_id g)
  | None => throw (Error ("Runner group " +:+ default "undefined" (runnerGroup c)
                          +:+ " does not exist"))
  end.

Definition runnerGroupPath (c : CreateGitHubRunnerConfig) (g : string) : string :=
  ssmConfigPath c +:+ "/runner-group/" +:+ g.

(** The id is a JavaScript number: [None] is the [NaN] that [parseInt]
    gives on a stored value that is no number. *)
Definition getRunnerGroupId (w : Services) (c : CreateGitHubRunnerConfig)
    : M (list Call) exn (option Z) :=
  match runnerType c, runnerGroup c with
  | Org, Some g =>
      let* runnerGroup :=
        tryCatch
          (let* v := call (GetParameter (runnerGroupPath c g))
                       (getParameter w (runnerGroupPath c g)) in
           ret (Some v))
          (fun _ => ret None) in
      match runnerGroup with
      | None =>
          let* runnerGroupId := getRunnerGroupByName w c in
          let* _ :=
            call (PutParameter (runnerGroupPath c g) (toString runnerGroupId) false [])
              (putParameter w (runnerGroupPath c g) (toString runnerGroupId) false []) in
          ret (Some runnerGroupId)
      | Some v => ret (parseInt v)
      end
  | _, _ => ret (Some 1%Z)
  end.

Definition ssmParameterStoreMaxThroughput : nat := 40.

Definition isDelay (instances : list string) : bool :=
  (ssmParameterStoreMaxThroughput <=? length instances)%nat.

Definition delayIf (b : bool) : M (list Call) exn unit :=
  if b then call (Delay 25) (Ok tt) else ret tt.

Definition instanceTags (instance : string) : list Tag :=
  [{| Key := "InstanceId"; Value := instance |}].

Definition createRegistrationTokenConfig (env : Env) (w : Services)
    (c : CreateGitHubRunnerConfig) (instances : list string) : M (list Call) exn unit :=
  let* token := getGithubRunnerRegistrationToken env w c in
  let runnerServiceConfig := generateRunnerServiceConfig c token in
  forOf instances (fun instance =>
    let name := ssmTokenPath c +:+ "/" +:+ instance in
    let value := String.concat " " runnerServiceConfig in
    let* _ := call (PutParameter name value true (instanceTags instance))
                (putParameter w name value true (instanceTags instance)) in
    delayIf (isDelay instances)).

(** [tagRunnerId]: a failure of the tag call is caught and logged. *)
Definition tagRunnerId (w : Services) (instanceId runnerId : string)
    : M (list Call) exn unit :=
  let tags := [{| Key := "ghr:github_runner_id"; Value := runnerId |}] in
  tryCatch (call (TagInstance instanceId tags) (tag w instanceId tags))
           (fun _ => ret tt).

Definition generateJit (w : Services) (c : CreateGitHubRunnerConfig)
    (runnerName : string) (runnerGroupId : option Z) (labels : list string)
    : M (list Call) exn JitConfig :=
  match runnerType c with
  | Org =>
      call (GenerateRunnerJitconfigForOrg (runnerOwner c) runnerName runnerGroupId labels)
        (generateRunnerJitconfigForOrg w (runnerOwner c) runnerName runnerGroupId labels)
  | Repo =>
      call (GenerateRunnerJitconfigForRepo (ownerPart c) (repoPart c) runnerName
              runnerGroupId labels)
        (generateRunnerJitconfigForRepo w (ownerPart c) (repoPart c) runnerName
           runnerGroupId labels)
  end.

(** The body of the loop of [createJitConfig], for one instance. *)
Definition jitConfigFor (w : Services) (c : CreateGitHubRunnerConfig)
    (runnerGroupId : option Z) (labels : list string) (delay : bool)
    (instance : string) : M (list Call) exn unit :=
  let runnerName := runnerNamePrefix c +:+ instance in
  let* runnerConfig := generateJit w c runnerName runnerGroupId labels in
  let* _ := tagRunnerId w instance (toString (runner_id runnerConfig)) in
  let name := ssmTokenPath c +:+ "/" +:+ instance in
  let* _ := call (PutParameter name (encoded_jit_config runnerConfig) true
                    (instanceTags instance))
              (putParameter w name (encoded_jit_config runnerConfig) true
                 (instanceTags instance)) in
  delayIf delay.

Definition createJitConfig (w : Services) (c : CreateGitHubRunnerConfig)
    (instances : list string) : M (list Call) exn unit :=
  let* runnerGroupId := getRunnerGroupId w c in
  let runnerLabels := split "," (runnerLabels c) in
  forOf instances (jitConfigFor w c runnerGroupId runnerLabels (isDelay instances)).

Definition createStartRunnerConfig (env : Env) (w : Services)
    (c : CreateGitHubRunnerConfig) (instances : list string) : M (list Call) exn unit :=
  if enableJitConfig c && ephemeral c then createJitConfig w c instances
  else createRegistrationTokenConfig env w c instances.

Definition runnerInput (c : CreateGitHubRunnerConfig) (ec2 : CreateEC2RunnerConfig)
    (n : Z) : RunnerInputParameters :=
  {| rp_runnerType := runnerType c;
     rp_runnerOwner := runnerOwner c;
     rp_numberOfRunners := default n (numberOfRunners ec2);
     rp_ec2 := ec2 |}.

Definition createRunners (env : Env) (w : Services) (c : CreateGitHubRunnerConfig)
    (ec2 : CreateEC2RunnerConfig) (n : Z) : M (list Call) exn (list string) :=
  let* instances := call (CreateRunner (runnerInput c ec2 n))
                      (createRunner w (runnerInput c ec2 n)) in
  let* _ := if negb (length instances =? 0)%nat
            then createStartRunnerConfig env w c instances else ret tt in
  ret instances.

(** [validMessages]: a [Map] from the scope key to the messages of the
    scope, iterated in insertion order.  (The upstream client stored with
    them is the one the services answer for.) *)
Definition MessageMap := list (string * list ActionRequestMessageSQS).

Definition hasKey (key : string) (m : MessageMap) : bool :=
  existsb (fun e => String.eqb (fst e) key) m.

(** [entry.messages.push(payload)], after [validMessages.set(key, entry)]
    for a key not seen before. *)
Fixpoint pushTo (key : string) (p : ActionRequestMessageSQS) (m : MessageMap)
    : MessageMap :=
  match m with
  | [] => [(key, [p])]
  | (k, msgs) :: m' =>
      if String.eqb k key then (k, msgs ++ [p]) :: m'
      else (k, msgs) :: pushTo key p m'
  end.

Definition isValidRepoOwnerTypeIfOrgLevelEnabled (p : ActionRequestMessage)
    (enableOrgLevel : bool) : bool :=
  negb (enableOrgLevel && negb (String.eqb (repoOwnerType p) "Organization")).

Definition scopeKey (env : Env) (p : ActionRequestMessage) : string :=
  if enableOrgLevel env then repositoryOwner p
  else repositoryOwner p +:+ "/" +:+ repositoryName p.

(** The first loop of [scaleUp]: the messages grouped by scope, and the
    identifiers rejected so far. *)
Fixpoint validate (env : Env) (w : Services) (payloads : list ActionRequestMessageSQS)
    (validMessages : MessageMap) (invalidMessages : list string)
    : M (list Call) exn (MessageMap * list string) :=
  match payloads with
  | [] => ret (validMessages, invalidMessages)
  | p :: rest =>
      match ephemeralEnabled env, eventType (payload p) with
      | true, check_run =>
          validate env w rest validMessages (invalidMessages ++ [messageId p])
      | _, _ =>
          if negb (isValidRepoOwnerTypeIfOrgLevelEnabled (payload p) (enableOrgLevel env))
          then validate env w rest validMessages invalidMessages
          else
            let key := scopeKey env (payload p) in
            let* _ :=
              if hasKey key validMessages then ret tt
              else
                let* installationId :=
                  getInstallationId w (enableOrgLevel env) (payload p) in
                call (CreateInstallationClient installationId)
                  (createInstallationClient w installationId) in
            validate env w rest (pushTo key p validMessages) invalidMessages
      end
  end.

(** The inner loop: how many messages of the scope ask for a runner. *)
Fixpoint countQueued (env : Env) (w : Services) (messages : list ActionRequestMessageSQS)
    (scaleUp : Z) : M (list Call) exn Z :=
  match messages with
  | [] => ret scaleUp
  | message :: rest =>
      if enableJobQueuedCheck env then
        let* queued := isJobQueued w (payload message) in
        if queued then countQueued env w rest (scaleUp + 1)%Z
        else countQueued env w rest scaleUp
      else countQueued env w rest (scaleUp + 1)%Z
  end.

Definition runnerTypeOf (env : Env) : RunnerType :=
  if enableOrgLevel env then Org else Repo.

Definition githubRunnerConfig (env : Env) (group : string) : CreateGitHubRunnerConfig :=
  {| ephemeral := ephemeralEnabled env;
     enableJitConfig := env_enableJitConfig env;
     ghesBaseUrl := env_ghesBaseUrl env;
     runnerLabels := env_runnerLabels env;
     runnerGroup := Some (env_runnerGroup env);
     runnerNamePrefix := env_runnerNamePrefix env;
     runnerOwner := group;
     runnerType := runnerTypeOf env;
     disableAutoUpdate := env_disableAutoUpdate env;
     ssmTokenPath := env_ssmTokenPath env;
     ssmConfigPath := env_ssmConfigPath env |}.

(** The second argument of [createRunners] in [scaleUp]: the object has no
    [numberOfRunners] of its own. *)
Definition ec2RunnerConfig (env : Env) : CreateEC2RunnerConfig :=
  {| ec2instanceCriteria :=
       {| instanceTypes := env_instanceTypes env;
          targetCapacityType := instanceTargetCapacityType env;
          maxSpotPrice := instanceMaxSpotPrice env;
          instanceAllocationStrategy := instanceAllocationStrategy_ env |};
     environment := env_environment env;
     launchTemplateName := env_launchTemplateName env;
     subnets := env_subnets env;
     numberOfRunners := None;
     amiIdSsmParameterName := env_amiIdSsmParameterName env;
     tracingEnabled := env_tracingEnabled env;
     onDemandFailoverOnError := env_onDemandFailoverOnError env |}.

Definition currentRunners (env : Env) (w : Services) (group : string)
    : M (list Call) exn Z :=
  if (maximumRunners env =? -1)%Z then ret 0%Z
  else
    let* runners := call (ListEC2Runners (env_environment env) (runnerTypeOf env) group)
                      (listEC2Runners w (env_environment env) (runnerTypeOf env) group) in
    ret (Z.of_nat (length runners)).

Definition newRunners (env : Env) (scaleUp currentRunners : Z) : Z :=
  if (maximumRunners env =? -1)%Z then scaleUp
  else Z.min scaleUp (maximumRunners env - currentRunners).

(** The body of the second loop of [scaleUp], for one scope: the rejected
    identifiers after it. *)
Definition scaleUpGroup (env : Env) (w : Services) (group : string)
    (messages : list ActionRequestMessageSQS) (invalidMessages : list string)
    : M (list Call) exn (list string) :=
  let* scaleUp := countQueued env w messages 0 in
  if (scaleUp =? 0)%Z then ret invalidMessages
  else
    let* currentRunners := currentRunners env w group in
    let newRunners := newRunners env scaleUp currentRunners in
    let missingInstanceCount := Z.max 0 (scaleUp - newRunners) in
    let rejecting := (0 <? missingInstanceCount)%Z && ephemeralEnabled env in
    let invalidMessages :=
      if rejecting
      then invalidMessages ++ map messageId (fst (splice0 missingInstanceCount messages))
      else invalidMessages in
    let messages :=
      if rejecting then snd (splice0 missingInstanceCount messages) else messages in
    if (0 <? missingInstanceCount)%Z && (missingInstanceCount =? scaleUp)%Z
    then ret invalidMessages
    else
      let* instances :=
        createRunners env w (githubRunnerConfig env group) (ec2RunnerConfig env)
          newRunners in
      if negb (Z.of_nat (length instances) =? newRunners)%Z
      then
        let failedInstanceCount := (newRunners - Z.of_nat (length instances))%Z in
        ret (invalidMessages ++ map messageId (slice 0 failedInstanceCount messages))
      else ret invalidMessages.

Fixpoint scaleUpGroups (env : Env) (w : Services) (groups : MessageMap)
    (invalidMessages : list string) : M (list Call) exn (list string) :=
  match groups with
  | [] => ret invalidMessages
  | (group, messages) :: rest =>
      let* invalidMessages := scaleUpGroup env w group messages invalidMessages in
      scaleUpGroups env w rest invalidMessages
  end.

Definition scaleUp (env : Env) (w : Services) (payloads : list ActionRequestMessageSQS)
    : M (list Call) exn (list string) :=
  let* _ := call CreateAppClient (createAppClient w) in
  let* grouped := validate env w payloads [] [] in
  scaleUpGroups env w (fst grouped) (snd grouped).

(** The numbers of instances asked of [createRunner] in a log. *)
Definition requested (log : list Call) : list Z :=
  omap (fun c => match c with
                 | CreateRunner p => Some (rp_numberOfRunners p)
                 | _ => None
                 end) log.

End ScaleUp.

(* ================================================================== *)
(** * lambda.ts and scale-runners/ScaleError.ts: the scale-up intake   *)
(* ================================================================== *)

Module Lambda.
Import ScaleUp.

(** A queue record; [body] is the record's body once [JSON.parse] has
    read it. *)
Record SQSRecord := {
  body : ActionRequestMessage;
  eventSource : string;
  recordMessageId : string
}.

Record SQSBatchItemFailure := { itemIdentifier : string }.

Record SQSBatchResponse := { batchItemFailures : list SQSBatchItemFailure }.

(** [ScaleError.toBatchItemFailures] *)
Definition toBatchItemFailures (failedInstanceCount : Z)
    (messages : list ActionRequestMessageSQS) : list SQSBatchItemFailure :=
  let messagesToRetry :=
    Z.max 0 (Z.min failedInstanceCount (Z.of_nat (length messages))) in
  map (fun m => {| itemIdentifier := messageId m |})
      (slice 0 messagesToRetry messages).

(** [l.retryCounter ?? 0] *)
Definition retryCount (m : ActionRequestMessageSQS) : Z :=
  default 0%Z (retryCounter (payload m)).

Definition byRetryCount (l r : ActionRequestMessageSQS) : Z :=
  (retryCount l - retryCount r)%Z.

(** The records of the event that come from the queue, in event order. *)
Definition collect (records : list SQSRecord) : list ActionRequestMessageSQS :=
  map (fun r => {| payload := body r; messageId := recordMessageId r |})
      (List.filter (fun r => String.eqb (eventSource r) "aws:sqs") records).

(** [sqsMessages] as [scaleUp] receives it: collected, then sorted by retry
    count. *)
Definition sqsMessages (records : list SQSRecord) : list ActionRequestMessageSQS :=
  sortBy byRetryCount (collect records).

(** [scaleUpHandler], with [scaleUp] as the function it awaits. *)
Definition scaleUpHandler
    (scaleUp : list ActionRequestMessageSQS -> result exn (list string))
    (records : list SQSRecord) : SQSBatchResponse :=
  let messages := sqsMessages records in
  match scaleUp messages with
  | Ok rejectedMessageIds =>
      {| batchItemFailures :=
           map (fun i => {| itemIdentifier := i |}) rejectedMessageIds |}
  | Throw (ScaleError n) =>
      {| batchItemFailures := toBatchItemFailures n messages |}
  | Throw _ =>
      {| batchItemFailures := [] |}
  end.

End Lambda.

(* ================================================================== *)
(** * aws/runners.ts: the bulk create call                             *)
(* ================================================================== *)

Module Runners.

Inductive RunnerType := Org | Repo.

Definition runnerTypeName (t : RunnerType) : string :=
  match t with Org => "Org" | Repo => "Repo" end.

(** What [createRunner] throws: [new ScaleError(message)], a plain
    [Error(message)], or the error of a failed call, thrown again. *)
Inductive exn :=
| ScaleError (message : string)
| Error (message : string)
| CallError (message : string).

Record Ec2InstanceCriteria := {
  instanceTypes : list string;
  targetCapacityType : string;
  maxSpotPrice : option string;
  instanceAllocationStrategy : string
}.

Record RunnerInputParameters := {
  runnerServiceConfig : list string;
  environment : string;
  runnerType : RunnerType;
  runnerOwner : string;
  ssmTokenPath : string;
  subnets : list string;
  launchTemplateName : string;
  ec2instanceCriteria : Ec2InstanceCriteria;
  numberOfRunners : option Z;
  amiIdSsmParameterName : option string
}.

Record Tag := { Key : string; Value : string }.

Record FleetLaunchTemplateOverridesRequest := {
  SubnetId : string;
  InstanceType : string;
  ImageId : option string
}.

Record TagSpecification := { ResourceType : string; Tags : list Tag }.

Record CreateFleetCommandInput := {
  LaunchTemplateName : string;
  Version : string;
  Overrides : list FleetLaunchTemplateOverridesRequest;
  MaxTotalPrice : option string;
  AllocationStrategy : string;
  TotalTargetCapacity : Z;
  DefaultTargetCapacityType : string;
  TagSpecifications : list TagSpecification;
  Type_ : string
}.

Record CreateFleetInstance := { InstanceIds : option (list string) }.

Record CreateFleetError := { ErrorCode : option string }.

Record CreateFleetResult := {
  Instances : option (list CreateFleetInstance);
  Errors : option (list CreateFleetError)
}.

Inductive Call :=
| GetParameter (Name : string)
| CreateFleet (input : CreateFleetCommandInput)
| PutParameter (Name Value Type_ : string)
| Delay (ms : Z).

(** The answers of the cloud: the parameter store and the fleet call. *)
Record Cloud := {
  getParameter : string -> result exn (option string);
  send : CreateFleetCommandInput -> result exn CreateFleetResult;
  putParameter : string -> string -> string -> result exn unit
}.

Local Open Scope call_scope.

Definition generateFleetOverrides (subnetIds instancesTypes : list string)
    (amiId : option string) : list FleetLaunchTemplateOverridesRequest :=
  flat_map (fun s =>
    map (fun i => {| SubnetId := s; InstanceType := i; ImageId := amiId |})
        instancesTypes) subnetIds.

(** [runnerParameters.numberOfRunners ? runnerParameters.numberOfRunners : 1] *)
Definition numberOfRunnersOf (p : RunnerInputParameters) : Z :=
  match numberOfRunners p with
  | Some n => if (n =? 0)%Z then 1%Z else n
  | None => 1%Z
  end.

Definition fleetTags (p : RunnerInputParameters) : list Tag :=
  [ {| Key := "ghr:Application"; Value := "github-action-runner" |};
    {| Key := "ghr:created_by";
       Value := if (numberOfRunnersOf p =? 1)%Z then "scale-up-lambda" else "pool-lambda" |};
    {| Key := "Type"; Value := runnerTypeName (runnerType p) |};
    {| Key := "Owner"; Value := runnerOwner p |} ].

Definition createFleetCommand (p : RunnerInputParameters) (amiIdOverride : option string)
    : CreateFleetCommandInput :=
  {| LaunchTemplateName := launchTemplateName p;
     Version := "$Default";
     Overrides := generateFleetOverrides (subnets p)
                    (instanceTypes (ec2instanceCriteria p)) amiIdOverride;
     MaxTotalPrice := maxSpotPrice (ec2instanceCriteria p);
     AllocationStrategy := instanceAllocationStrategy (ec2instanceCriteria p);
     TotalTargetCapacity := numberOfRunnersOf p;
     DefaultTargetCapacityType := targetCapacityType (ec2instanceCriteria p);
     TagSpecifications := [ {| ResourceType := "instance"; Tags := fleetTags p |} ];
     Type_ := "instant" |}.

(** [fleet.Instances?.flatMap((i) => i.InstanceIds?.flatMap((j) => j) || []) || []] *)
Definition instancesOf (fleet : CreateFleetResult) : list string :=
  match Instances fleet with
  | Some l => flat_map (fun i => default [] (InstanceIds i)) l
  | None => []
  end.

(** [fleet.Errors?.flatMap((e) => e.ErrorCode || '') || []] *)
Definition errorsOf (fleet : CreateFleetResult) : list string :=
  match Errors fleet with
  | Some es => map (fun e => default "" (ErrorCode e)) es
  | None => []
  end.

Definition scaleErrors : list string :=
  [ "UnfulfillableCapacity";
    "MaxSpotInstanceCountExceeded";
    "TargetCapacityLimitExceededException";
    "RequestLimitExceeded";
    "ResourceLimitExceeded";
    "MaxSpotInstanceCountExceeded";
    "MaxSpotFleetRequestCountExceeded";
    "InsufficientInstanceCapacity" ].

Definition includes (l : list string) (e : string) : bool :=
  existsb (String.eqb e) l.

(** Lines 206-233: the instances of the fleet, or the error thrown when
    there is none. *)
Definition createdInstances (fleet : CreateFleetResult) : result exn (list string) :=
  let instances := instancesOf fleet in
  if (length instances =? 0)%nat then
    let errors := errorsOf fleet in
    if existsb (includes scaleErrors) errors
    then Throw (ScaleError "Failed to create instance, create fleet failed.")
    else Throw (Error "Create fleet failed, no instance created.")
  else Ok instances.

Definition ssmParameterStoreMaxThroughput : nat := 40.

Definition storeTokens (cloud : Cloud) (p : RunnerInputParameters)
    (instances : list string) : M (list Call) exn unit :=
  let isDelay := (ssmParameterStoreMaxThroughput <=? length instances)%nat in
  forOf instances (fun instance =>
    let name := ssmTokenPath p +:+ "/" +:+ instance in
    let value := String.concat " " (runnerServiceConfig p) in
    let* _ := call (PutParameter name value "SecureString")
                (putParameter cloud name value "SecureString") in
    if isDelay then call (Delay 25) (Ok tt) else ret tt).

(** The AMI override: read from the parameter store when
    [amiIdSsmParameterName] is set. *)
Definition lookupAmiIdOverride (cloud : Cloud) (p : RunnerInputParameters)
    : M (list Call) exn (option string) :=
  match amiIdSsmParameterName p with
  | Some name =>
      if String.eqb name "" then ret None
      else call (GetParameter name) (getParameter cloud name)
  | None => ret None
  end.

Definition createRunner (cloud : Cloud) (p : RunnerInputParameters)
    : M (list Call) exn unit :=
  let* amiIdOverride := lookupAmiIdOverride cloud p in
  let* fleet := call (CreateFleet (createFleetCommand p amiIdOverride))
                  (send cloud (createFleetCommand p amiIdOverride)) in
  let* instances := liftResult (createdInstances fleet) in
  storeTokens cloud p instances.

Definition tagValue (key : string) (tags : list Tag) : option string :=
  Value <$> find (fun t => String.eqb (Key t) key) tags.

(** The fleet commands sent in a log. *)
Definition fleetCommands (log : list Call) : list CreateFleetCommandInput :=
  omap (fun c => match c with CreateFleet i => Some i | _ => None end) log.

End Runners.

(* ================================================================== *)
(** * scale-runners/scale-down.ts                                      *)
(* ================================================================== *)

Module ScaleDown.

(** An instance as [listEC2Runners] projects it ([RunnerList]; a
    [RunnerInfo] is the same object, cast).  [launchTime] is in
    milliseconds. *)
Record RunnerList := {
  instanceId : string;
  launchTime : option Z;
  owner : option string;
  type : option string;
  orphan : bool;
  runnerId : option string
}.

(** An upstream runner, as the list and the per-runner query give it. *)
Record RunnerState := {
  id : Z;
  name : string;
  status : string;
  busy : bool
}.

Record Tag := { Key : string; Value : string }.

Inductive Call :=
| CreateAppClient
| GetOrgInstallation (org : option string)
| GetRepoInstallation (owner : string) (repo : option string)
| CreateInstallationClient (installation : Z)
| GetSelfHostedRunnerForOrg (runner_id : option Z) (org : option string)
| GetSelfHostedRunnerForRepo (runner_id : option Z) (owner : string) (repo : option string)
| ListSelfHostedRunnersForOrg (org : option string)
| ListSelfHostedRunnersForRepo (owner : string) (repo : option string)
| DeleteSelfHostedRunnerFromOrg (runner_id : Z) (org : option string)
| DeleteSelfHostedRunnerFromRepo (runner_id : Z) (owner : string) (repo : option string)
| ListEC2Runners (environment : string) (orphan : option bool)
| TerminateRunner (instance : string)
| TagInstance (instance : string) (tags : list Tag)
| UntagInstance (instance : string) (tags : list Tag).

(** The answers of the upstream service and of the cloud. *)
Record Services := {
  createAppClient : result exn unit;
  getOrgInstallation : option string -> result exn Z;
  getRepoInstallation : string -> option string -> result exn Z;
  createInstallationClient : Z -> result exn unit;
  getSelfHostedRunnerForOrg : option Z -> option string -> result exn RunnerState;
  getSelfHostedRunnerForRepo : option Z -> string -> option string -> result exn RunnerState;
  listSelfHostedRunnersForOrg : option string -> result exn (list RunnerState);
  listSelfHostedRunnersForRepo : string -> option string -> result exn (list RunnerState);
  deleteSelfHostedRunnerFromOrg : Z -> option string -> result exn Z;
  deleteSelfHostedRunnerFromRepo : Z -> string -> option string -> result exn Z;
  listEC2Runners : string -> option bool -> result exn (list RunnerList);
  terminateRunner : string -> result exn unit;
  tag : string -> list Tag -> result exn unit;
  untag : string -> list Tag -> result exn unit
}.

(** The configuration a pass reads: the two thresholds in minutes, the
    clock, and the idle quota and eviction strategy that
    scale-down-config.ts gives for the schedule entry active now. *)
Record Env := {
  environment : string;
  MINIMUM_RUNNING_TIME_IN_MINUTES : Z;
  RUNNER_BOOT_TIME_IN_MINUTES : Z;
  now : Z;
  getIdleRunnerCount : Z;
  getEvictionStrategy : string
}.

(** [githubCache] and the log of the calls made. *)
Record State := {
  clients : gset (option string);
  runners : gmap (option string) (list RunnerState);
  log : list Call
}.

Definition reset : State := {| clients := ∅; runners := ∅; log := [] |}.

Definition Run (A : Type) : Type := M State exn A.

Definition request {A} (c : Call) (r : result exn A) : Run A :=
  fun s => (r, {| clients := clients s; runners := runners s; log := log s ++ [c] |}).

Local Open Scope call_scope.

(** [Promise.all(l.map(async ...))]: every call is made; the outcome is
    the list of the values, or the first failure. *)
Fixpoint promiseAll {A} (l : list (Run A)) : Run (list A) :=
  match l with
  | [] => ret []
  | m :: l' =>
      fun s =>
        let (r, s1) := m s in
        let (rs, s2) := promiseAll l' s1 in
        (match r, rs with
         | Ok a, Ok l'' => Ok (a :: l'')
         | Throw e, _ => Throw e
         | Ok _, Throw e => Throw e
         end, s2)
  end.

(** [owner.split('/')] on an owner that may be undefined. *)
Definition repoScope (owner : option string) : result exn (string * option string) :=
  match owner with
  | Some o => Ok (nth 0 (split "/" o) "", nth_error (split "/" o) 1)
  | None => Throw (Error "Cannot read properties of undefined (reading 'split')")
  end.

Definition isOrg (r : RunnerList) : bool := bool_decide (type r = Some "Org").

Definition getOrCreateOctokit (w : Services) (runner : RunnerList) : Run unit :=
  fun s =>
    if bool_decide (owner runner ∈ clients s) then (Ok tt, s)
    else
      (let* _ := request CreateAppClient (createAppClient w) in
       let* installationId :=
         if isOrg runner
         then request (GetOrgInstallation (owner runner))
                (getOrgInstallation w (owner runner))
         else
           let* scope := liftResult (repoScope (owner runner)) in
           request (GetRepoInstallation (fst scope) (snd scope))
             (getRepoInstallation w (fst scope) (snd scope)) in
       let* _ := request (CreateInstallationClient installationId)
                   (createInstallationClient w installationId) in
       modify (fun s => {| clients := {[ owner runner ]} ∪ clients s;
                           runners := runners s; log := log s |})) s.

(** [None] is [null]: the runner is not found upstream (404). *)
Definition getGitHubSelfHostedRunnerState (w : Services) (ec2runner : RunnerList)
    (runnerId : option Z) : Run (option RunnerState) :=
  tryCatch
    (let* state :=
       if isOrg ec2runner
       then request (GetSelfHostedRunnerForOrg runnerId (owner ec2runner))
              (getSelfHostedRunnerForOrg w runnerId (owner ec2runner))
       else
         let* scope := liftResult (repoScope (owner ec2runner)) in
         request (GetSelfHostedRunnerForRepo runnerId (fst scope) (snd scope))
           (getSelfHostedRunnerForRepo w runnerId (fst scope) (snd scope)) in
     ret (Some state))
    (fun error =>
       match error with
       | RequestError 404 => ret None
       | _ => throw error
       end).

Definition getGitHubRunnerBusyState (w : Services) (ec2runner : RunnerList)
    (runnerId : option Z) : Run bool :=
  let* state := getGitHubSelfHostedRunnerState w ec2runner runnerId in
  match state with
  | None => ret false
  | Some state => ret (busy state)
  end.

Definition listGitHubRunners (w : Services) (runner : RunnerList)
    : Run (list RunnerState) :=
  fun s =>
    match runners s !! owner runner with
    | Some cachedRunners => (Ok cachedRunners, s)
    | None =>
        (let* _ := getOrCreateOctokit w runner in
         let* ghRunners :=
           if isOrg runner
           then request (ListSelfHostedRunnersForOrg (owner runner))
                  (listSelfHostedRunnersForOrg w (owner runner))
           else
             let* scope := liftResult (repoScope (owner runner)) in
             request (ListSelfHostedRunnersForRepo (fst scope) (snd scope))
               (listSelfHostedRunnersForRepo w (fst scope) (snd scope)) in
         let* _ := modify (fun s => {| clients := clients s;
                                       runners := <[ owner runner := ghRunners ]> (runners s);
                                       log := log s |}) in
         ret ghRunners) s
    end.

Definition minutes (m : Z) : Z := (m * 60000)%Z.

(** [moment(undefined)] is the current time. *)
Definition runnerMinimumTimeExceeded (env : Env) (runner : RunnerList) : bool :=
  (default (now env) (launchTime runner) + minutes (MINIMUM_RUNNING_TIME_IN_MINUTES env)
   <? now env)%Z.

Definition bootTimeExceeded (env : Env) (ec2Runner : RunnerList) : bool :=
  (default (now env) (launchTime ec2Runner) + minutes (RUNNER_BOOT_TIME_IN_MINUTES env)
   <? now env)%Z.

Definition deleteSelfHostedRunner (w : Services) (ec2runner : RunnerList)
    (ghRunnerId : Z) : Run Z :=
  if isOrg ec2runner
  then request (DeleteSelfHostedRunnerFromOrg ghRunnerId (owner ec2runner))
         (deleteSelfHostedRunnerFromOrg w ghRunnerId (owner ec2runner))
  else
    let* scope := liftResult (repoScope (owner ec2runner)) in
    request (DeleteSelfHostedRunnerFromRepo ghRunnerId (fst scope) (snd scope))
      (deleteSelfHostedRunnerFromRepo w ghRunnerId (fst scope) (snd scope)).

Definition removeRunner (w : Services) (ec2runner : RunnerList) (ghRunnerIds : list Z)
    : Run unit :=
  let* _ := getOrCreateOctokit w ec2runner in
  tryCatch
    (let* states :=
       promiseAll (map (fun ghRunnerId =>
                          getGitHubRunnerBusyState w ec2runner (Some ghRunnerId))
                       ghRunnerIds) in
     if forallb negb states then
       let* statuses :=
         promiseAll (map (deleteSelfHostedRunner w ec2runner) ghRunnerIds) in
       if forallb (fun status => (status =? 204)%Z) statuses
       then request (TerminateRunner (instanceId ec2runner))
              (terminateRunner w (instanceId ec2runner))
       else ret tt
     else ret tt)
    (fun _ => ret tt).

Definition orphanTag : list Tag := [{| Key := "ghr:orphan"; Value := "true" |}].

Definition markOrphan (w : Services) (instanceId : string) : Run unit :=
  tryCatch (request (TagInstance instanceId orphanTag) (tag w instanceId orphanTag))
           (fun _ => ret tt).

Definition unMarkOrphan (w : Services) (instanceId : string) : Run unit :=
  tryCatch (request (UntagInstance instanceId orphanTag) (untag w instanceId orphanTag))
           (fun _ => ret tt).

(** The upstream runners whose name ends with the instance identifier. *)
Definition matching (ec2Runner : RunnerList) (ghRunners : list RunnerState)
    : list RunnerState :=
  List.filter (fun runner => endsWith (name runner) (instanceId ec2Runner)) ghRunners.

(** The body of the inner loop of [evaluateAndRemoveRunners]: one
    instance, and the idle counter after it. *)
Definition evaluateRunner (env : Env) (w : Services) (idleCounter : Z)
    (ec2Runner : RunnerList) : Run Z :=
  let* ghRunners := listGitHubRunners w ec2Runner in
  let ghRunnersFiltered := matching ec2Runner ghRunners in
  if negb (length ghRunnersFiltered =? 0)%nat then
    if runnerMinimumTimeExceeded env ec2Runner then
      if (0 <? idleCounter)%Z then ret (idleCounter - 1)%Z
      else
        let* _ := removeRunner w ec2Runner (map id ghRunnersFiltered) in
        ret idleCounter
    else ret idleCounter
  else if bootTimeExceeded env ec2Runner then
    let* _ := markOrphan w (instanceId ec2Runner) in
    ret idleCounter
  else ret idleCounter.

Definition oldestFirstStrategy (a b : RunnerList) : Z :=
  match launchTime a, launchTime b with
  | None, _ => 1
  | _, None => 1
  | Some ta, Some tb =>
      if (ta <? tb)%Z then 1 else if (tb <? ta)%Z then -1 else 0
  end%Z.

Definition newestFirstStrategy (a b : RunnerList) : Z :=
  (oldestFirstStrategy a b * -1)%Z.

Definition strategy (env : Env) : RunnerList -> RunnerList -> Z :=
  if String.eqb (getEvictionStrategy env) "oldest_first"
  then oldestFirstStrategy else newestFirstStrategy.

(** [new Set(ec2Runners.map((runner) => runner.owner))], iterated. *)
Fixpoint ownerTags (ec2Runners : list RunnerList) : list (option string) :=
  match ec2Runners with
  | [] => []
  | r :: l =>
      owner r :: List.filter (fun o => negb (bool_decide (owner r = o))) (ownerTags l)
  end.

(** The instances of one owner, sorted for eviction.  The comparators are
    consistent on instances that all have a launch time; with an undefined
    launch time [oldestFirstStrategy] answers [1] both ways and the order
    is the engine's (see [sortBy]). *)
Definition ec2RunnersFiltered (env : Env) (ec2Runners : list RunnerList)
    (ownerTag : option string) : list RunnerList :=
  sortBy (strategy env)
    (List.filter (fun runner => bool_decide (owner runner = ownerTag)) ec2Runners).

(** The two loops of [evaluateAndRemoveRunners], from a given idle
    counter: the counter after them. *)
Definition evaluateFrom (env : Env) (w : Services) (ec2Runners : list RunnerList)
    (idleCounter : Z) : Run Z :=
  foldM (fun idleCounter ownerTag =>
           foldM (evaluateRunner env w) (ec2RunnersFiltered env ec2Runners ownerTag)
             idleCounter)
        (ownerTags ec2Runners) idleCounter.

Definition evaluateAndRemoveRunners (env : Env) (w : Services)
    (ec2Runners : list RunnerList) : Run unit :=
  let* _ := evaluateFrom env w ec2Runners (getIdleRunnerCount env) in
  ret tt.

Definition lastChanceCheckOrphanRunner (w : Services) (runner : RunnerList) : Run bool :=
  let* _ := getOrCreateOctokit w runner in
  let runnerId :=
    parseInt (if truthy (runnerId runner) then default "0" (runnerId runner) else "0") in
  let* state := getGitHubSelfHostedRunnerState w runner runnerId in
  match state with
  | None => ret true
  | Some state => ret (String.eqb (status state) "offline" && busy state)
  end.

(** The body of the loop of [terminateOrphan], for one orphan. *)
Definition terminateOrphanRunner (w : Services) (runner : RunnerList) : Run unit :=
  if truthy (runnerId runner) then
    let* isOrphan := lastChanceCheckOrphanRunner w runner in
    if isOrphan
    then request (TerminateRunner (instanceId runner))
           (terminateRunner w (instanceId runner))
    else unMarkOrphan w (instanceId runner)
  else
    tryCatch (request (TerminateRunner (instanceId runner))
                (terminateRunner w (instanceId runner)))
             (fun _ => ret tt).

Definition terminateOrphan (w : Services) (environment : string) : Run unit :=
  tryCatch
    (let* orphanRunners := request (ListEC2Runners environment (Some true))
                             (listEC2Runners w environment (Some true)) in
     forOf orphanRunners (terminateOrphanRunner w))
    (fun _ => ret tt).

Definition filterRunners (ec2runners : list RunnerList) : list RunnerList :=
  List.filter (fun ec2Runner => truthy (type ec2Runner) && negb (orphan ec2Runner))
    ec2runners.

Definition scaleDown (env : Env) (w : Services) : Run unit :=
  fun _ =>
    (let* _ := terminateOrphan w (environment env) in
     let* ec2Runners := request (ListEC2Runners (environment env) None)
                          (listEC2Runners w (environment env) None) in
     if (length ec2Runners =? 0)%nat then ret tt
     else
       let* _ := evaluateAndRemoveRunners env w (filterRunners ec2Runners) in
       let* _ := request (ListEC2Runners (environment env) None)
                   (listEC2Runners w (environment env) None) in
       ret tt) reset.

(** The instances a log terminates, the upstream runners it de-registers
    and the instances it clears the orphan tag of, in call order. *)
Definition terminated (l : list Call) : list string :=
  omap (fun c => match c with TerminateRunner i => Some i | _ => None end) l.

Definition deregistered (l : list Call) : list Z :=
  omap (fun c => match c with
                 | DeleteSelfHostedRunnerFromOrg i _ => Some i
                 | DeleteSelfHostedRunnerFromRepo i _ _ => Some i
                 | _ => None
                 end) l.

Definition untagged (l : list Call) : list string :=
  omap (fun c => match c with UntagInstance i _ => Some i | _ => None end) l.

Definition lookedUp (l : list Call) : list (option Z) :=
  omap (fun c => match c with
                 | GetSelfHostedRunnerForOrg i _ => Some i
                 | GetSelfHostedRunnerForRepo i _ _ => Some i
                 | _ => None
                 end) l.

End ScaleDown.

(* ================================================================== *)
(** * pool/pool.ts: the pool top-up                                    *)
(* ================================================================== *)

Module Pool.

Record PoolEvent := { poolSize : Z }.

Record RunnerStatus := { busy : bool; status : string }.

(** An upstream runner as the list call gives it. *)
Record GhRunner := { name : string; gh_busy : bool; gh_status : string }.

Record Ec2Runner := { instanceId : string; launchTime : option Z }.

(** What [adjust] hands to [createRunners]. *)
Record GithubRunnerConfig := {
  ephemeral : bool;
  ghesBaseUrl : option string;
  runnerExtraLabels : option string;
  runnerGroup : option string;
  runnerOwner : string;
  runnerType : string;
  disableAutoUpdate : bool
}.

Record Ec2RunnerConfig := {
  instanceTypes : list string;
  targetCapacityType : string;
  maxSpotPrice : option string;
  instanceAllocationStrategy : string;
  environment : string;
  launchTemplateName : string;
  ssmTokenPath : string;
  subnets : list string;
  numberOfRunners : Z;
  amiIdSsmParameterName : option string
}.

(** The process environment as [adjust] reads it, and the clock. *)
Record Env := {
  RUNNER_EXTRA_LABELS : option string;
  RUNNER_GROUP_NAME : option string;
  ENVIRONMENT : string;
  GHES_URL : option string;
  SSM_TOKEN_PATH : string;
  SUBNET_IDS : list string;
  INSTANCE_TYPES : list string;
  INSTANCE_TARGET_CAPACITY_TYPE : string;
  ENABLE_EPHEMERAL_RUNNERS : bool;
  DISABLE_RUNNER_AUTOUPDATE : bool;
  LAUNCH_TEMPLATE_NAME : string;
  INSTANCE_MAX_SPOT_PRICE : option string;
  INSTANCE_ALLOCATION_STRATEGY : string;
  RUNNER_OWNER : string;
  AMI_ID_SSM_PARAMETER_NAME : option string;
  RUNNER_BOOT_TIME_IN_MINUTES : Z;
  now : Z
}.

Inductive Call :=
| CreateAppClient
| GetOrgInstallation (org : string)
| CreateInstallationClient (installation : Z)
| ListSelfHostedRunnersForOrg (org : string)
| ListEC2Runners (environment runnerOwner runnerType : string) (statuses : list string)
| CreateRunners (github : GithubRunnerConfig) (ec2 : Ec2RunnerConfig).

Record Services := {
  createAppClient : result exn unit;
  getOrgInstallation : string -> result exn Z;
  createInstallationClient : Z -> result exn unit;
  listSelfHostedRunnersForOrg : string -> result exn (list GhRunner);
  listEC2Runners : string -> string -> string -> list string -> result exn (list Ec2Runner);
  createRunners : GithubRunnerConfig -> Ec2RunnerConfig -> result exn unit
}.

Local Open Scope call_scope.

Definition getInstallationId (w : Services) (org : string) : M (list Call) exn Z :=
  let* _ := call CreateAppClient (createAppClient w) in
  call (GetOrgInstallation org) (getOrgInstallation w org).

(** The [Map] built by [runnerStatus.set(runner.name, ...)] over the
    upstream runners: a later runner of the same name replaces an earlier
    one. *)
Definition runnerStatusOf (runners : list GhRunner) : gmap string RunnerStatus :=
  fold_left (fun m runner =>
               <[ name runner := {| busy := gh_busy runner; status := gh_status runner |} ]> m)
            runners ∅.

(** aws/runners.ts, [bootTimeExceeded]; [moment(undefined)] is the current
    time. *)
Definition bootTimeExceeded (env : Env) (ec2Runner : Ec2Runner) : bool :=
  (default (now env) (launchTime ec2Runner) + RUNNER_BOOT_TIME_IN_MINUTES env * 60000
   <? now env)%Z.

(** The test of the loop of [adjust]: the instance is counted as part of
    the pool. *)
Definition inPool (env : Env) (runnerStatus : gmap string RunnerStatus)
    (ec2Instance : Ec2Runner) : bool :=
  match runnerStatus !! instanceId ec2Instance with
  | Some s =>
      if negb (busy s) && String.eqb (status s) "online" then true
      else false
  | None =>
      if negb (bootTimeExceeded env ec2Instance) then true else false
  end.

Definition numberOfRunnersInPool (env : Env) (runnerStatus : gmap string RunnerStatus)
    (ec2runners : list Ec2Runner) : Z :=
  fold_left (fun n ec2Instance => if inPool env runnerStatus ec2Instance then (n + 1)%Z else n)
            ec2runners 0%Z.

Definition githubConfig (env : Env) : GithubRunnerConfig :=
  {| ephemeral := ENABLE_EPHEMERAL_RUNNERS env;
     ghesBaseUrl := GHES_URL env;
     runnerExtraLabels := RUNNER_EXTRA_LABELS env;
     runnerGroup := RUNNER_GROUP_NAME env;
     runnerOwner := RUNNER_OWNER env;
     runnerType := "Org";
     disableAutoUpdate := DISABLE_RUNNER_AUTOUPDATE env |}.

Definition ec2Config (env : Env) (topUp : Z) : Ec2RunnerConfig :=
  {| instanceTypes := INSTANCE_TYPES env;
     targetCapacityType := INSTANCE_TARGET_CAPACITY_TYPE env;
     maxSpotPrice := INSTANCE_MAX_SPOT_PRICE env;
     instanceAllocationStrategy := INSTANCE_ALLOCATION_STRATEGY env;
     environment := ENVIRONMENT env;
     launchTemplateName := LAUNCH_TEMPLATE_NAME env;
     ssmTokenPath := SSM_TOKEN_PATH env;
     subnets := SUBNET_IDS env;
     numberOfRunners := topUp;
     amiIdSsmParameterName := AMI_ID_SSM_PARAMETER_NAME env |}.

Definition adjust (env : Env) (w : Services) (event : PoolEvent) : M (list Call) exn unit :=
  let* installationId := getInstallationId w (RUNNER_OWNER env) in
  let* _ := call (CreateInstallationClient installationId)
              (createInstallationClient w installationId) in
  let* runners := call (ListSelfHostedRunnersForOrg (RUNNER_OWNER env))
                    (listSelfHostedRunnersForOrg w (RUNNER_OWNER env)) in
  let runnerStatus := runnerStatusOf runners in
  let* ec2runners :=
    call (ListEC2Runners (ENVIRONMENT env) (RUNNER_OWNER env) "Org" ["running"])
      (listEC2Runners w (ENVIRONMENT env) (RUNNER_OWNER env) "Org" ["running"]) in
  let numberOfRunnersInPool := numberOfRunnersInPool env runnerStatus ec2runners in
  let topUp := (poolSize event - numberOfRunnersInPool)%Z in
  if (0 <? topUp)%Z
  then call (CreateRunners (githubConfig env) (ec2Config env topUp))
         (createRunners w (githubConfig env) (ec2Config env topUp))
  else ret tt.

(** The numbers of runners asked of [createRunners] in a log. *)
Definition provisioned (log : list Call) : list Z :=
  omap (fun c => match c with
                 | CreateRunners _ ec2 => Some (numberOfRunners ec2)
                 | _ => None
                 end) log.

End Pool.

(* ================================================================== *)
(** * scale-runners/job-retry.ts: the retry layer                      *)
(* ================================================================== *)

Module JobRetry.
Import ScaleUp.

(** [maxAttempts] is [None] when the configuration leaves it out. *)
Record JobRetryConfig := {
  enable : bool;
  maxAttempts : option Z;
  delayInSeconds : Z;
  delayBackoff : Z;
  queueUrl : string
}.

Definition maxQueueDelayInSeconds : Z := 900.

(** A call of [publishMessage(JSON.stringify(message), queueUrl, delay)];
    [delay] is [None] when the call has two arguments. *)
Record Published := {
  message : ActionRequestMessage;
  toQueue : string;
  delay : option Z
}.

Definition withRetryCounter (p : ActionRequestMessage) (n : Z) : ActionRequestMessage :=
  {| id := id p;
     eventType := eventType p;
     repositoryName := repositoryName p;
     repositoryOwner := repositoryOwner p;
     installationId := installationId p;
     repoOwnerType := repoOwnerType p;
     retryCounter := Some n |}.

(** [(retryCounter ?? -1) + 1] *)
Definition newRetryCounter (p : ActionRequestMessage) : Z :=
  (default (-1) (retryCounter p) + 1)%Z.

(** Modelled from the spec: the guard on the attempts of section 4.5,
    [retryCounter' < maxAttempts]; a configuration without [maxAttempts]
    never passes it, as the fourth row of the table of job-retry.test.ts
    requires. *)
Definition belowMaxAttempts (c : JobRetryConfig) (n : Z) : bool :=
  match maxAttempts c with
  | Some m => (n <? m)%Z
  | None => false
  end.

(** Modelled from the spec: scale-runners/job-retry.ts is not among the
    sources; only its test is.  The guard ([enable], and the new counter
    below [maxAttempts]), the new counter and the cap of 900 seconds are
    those of section 4.5 of the specification.  The exponent of the
    back-off is the new counter: the table of job-retry.test.ts requires it
    (a counter of 0 with a delay of 10 and a back-off of 2 is published
    with a delay of 20), where the specification writes the counter
    without saying which.  A configuration without [maxAttempts] publishes
    nothing, as the fourth row of the table requires.  [None] is a
    [JOB_RETRY_CONFIG] that is not set.  The function does not ask for
    the status of the job: the test calls it with no answer set for that
    query.  The result is the list of the messages published. *)
Definition publishRetryMessage (config : option JobRetryConfig)
    (payload : ActionRequestMessage) : list Published :=
  match config with
  | Some c =>
      if enable c && belowMaxAttempts c (newRetryCounter payload) then
        [ {| message := withRetryCounter payload (newRetryCounter payload);
             toQueue := queueUrl c;
             delay := Some (Z.min maxQueueDelayInSeconds
                              (delayInSeconds c *
                               delayBackoff c ^ newRetryCounter payload)) |} ]
      else []
  | None => []
  end.

(** The delay as the specification's sentence reads with the counter of
    the message received: kept to compare it with the test's table. *)
Definition delayOfReceivedCounter (c : JobRetryConfig) (k : Z) : Z :=
  Z.min maxQueueDelayInSeconds (delayInSeconds c * delayBackoff c ^ k).

(** Modelled from the spec: [checkAndRetryJob], as the tests of
    job-retry.test.ts ("Test job retry check") show it.  The status of the
    job is asked for ([isQueued] is that query, which may fail); a message
    whose job is still queued is published again as it is, with two
    arguments (no delay), on the queue [JOB_QUEUE_SCALE_UP_URL]; a message
    whose job is not queued is not published.  [JOB_RETRY_CONFIG] is not
    read. *)
Definition checkAndRetryJob (scaleUpQueueUrl : string)
    (isQueued : ActionRequestMessage -> result exn bool)
    (payload : ActionRequestMessage) : result exn (list Published) :=
  match isQueued payload with
  | Ok true => Ok [ {| message := payload; toQueue := scaleUpQueueUrl; delay := None |} ]
  | Ok false => Ok []
  | Throw e => Throw e
  end.

(** lambda.ts, [jobRetryCheck], with [checkAndRetryJob] as the function it
    awaits for every record: a failure on one record is caught and logged,
    and the next records are still processed.  The result is the list of
    the messages published. *)
Definition jobRetryCheck
    (checkAndRetryJob : ActionRequestMessage -> result exn (list Published))
    (records : list ActionRequestMessage) : list Published :=
  flat_map (fun payload =>
              match checkAndRetryJob payload with
              | Ok published => published
              | Throw _ => []
              end) records.

End JobRetry.

(* ================================================================== *)
(** * Scenarios: the inputs of the tests and of the seed scenarios     *)
(* ================================================================== *)

Module Scenarios.
Local Open Scope Z_scope.

(** ** scale-up.test.ts: [TEST_DATA_SINGLE], [createTestMessages] and the
    defaults of the test's environment. *)

Definition testMessage (i : nat) : ScaleUp.ActionRequestMessageSQS :=
  {| ScaleUp.payload :=
       {| ScaleUp.id := Z.of_nat i + 1;
          ScaleUp.eventType := ScaleUp.workflow_job;
          ScaleUp.repositoryName := "hello-world";
          ScaleUp.repositoryOwner := "Codertocat";
          ScaleUp.installationId := 2;
          ScaleUp.repoOwnerType := "Organization";
          ScaleUp.retryCounter := None |};
     ScaleUp.messageId := "message-" +:+ toString (Z.of_nat i) |}.

Definition testMessages (count : nat) : list ScaleUp.ActionRequestMessageSQS :=
  map testMessage (seq 0 count).

Definition testEnv (ephemeral : bool) (maximumRunners : Z) : ScaleUp.Env :=
  {| ScaleUp.enableOrgLevel := true;
     ScaleUp.maximumRunners := maximumRunners;
     ScaleUp.env_runnerLabels := "";
     ScaleUp.env_runnerGroup := "Default";
     ScaleUp.env_environment := "unit-test-environment";
     ScaleUp.env_ssmTokenPath := "/github-action-runners/default/runners/config";
     ScaleUp.ephemeralEnabled := ephemeral;
     ScaleUp.env_enableJitConfig := ephemeral;
     ScaleUp.env_disableAutoUpdate := false;
     ScaleUp.enableJobQueuedCheck := true;
     ScaleUp.env_runnerNamePrefix := "";
     ScaleUp.env_ssmConfigPath := "/github-action-runners/default/runners/config";
     ScaleUp.env_ghesBaseUrl := None;
     ScaleUp.env_subnets := ["subnet-123"];
     ScaleUp.env_instanceTypes := ["m5.large"];
     ScaleUp.instanceTargetCapacityType := "spot";
     ScaleUp.instanceMaxSpotPrice := None;
     ScaleUp.instanceAllocationStrategy_ := "lowest-price";
     ScaleUp.env_launchTemplateName := "lt-1";
     ScaleUp.env_amiIdSsmParameterName := None;
     ScaleUp.env_tracingEnabled := false;
     ScaleUp.env_onDemandFailoverOnError := [];
     ScaleUp.PARAMETER_GITHUB_APP_ID_NAME := "github-app-id" |}.

(** Services that answer as the test's mocks do: every job is queued,
    the inventory of every scope holds [current] instances, the bulk create
    call returns [created], and the tag call answers [tagged]. *)
Definition testServices (current : nat) (created : list string)
    (tagged : result exn unit) : ScaleUp.Services :=
  {| ScaleUp.createAppClient := Ok tt;
     ScaleUp.getOrgInstallation := fun _ => Ok 2;
     ScaleUp.getRepoInstallation := fun _ _ => Ok 2;
     ScaleUp.createInstallationClient := fun _ => Ok tt;
     ScaleUp.getJobForWorkflowRun := fun _ _ _ => Ok "queued";
     ScaleUp.listEC2Runners := fun _ _ _ =>
       Ok (repeat {| ScaleUp.instanceId := "i-existing";
                     ScaleUp.launchTime := Some 0 |} current);
     ScaleUp.createRunner := fun _ => Ok created;
     ScaleUp.createRegistrationTokenForOrg := fun _ => Ok "1234abcd";
     ScaleUp.createRegistrationTokenForRepo := fun _ _ => Ok "1234abcd";
     ScaleUp.listRunnerGroups := fun _ =>
       Ok [ {| ScaleUp.name := "Default"; ScaleUp.group_id := 1 |} ];
     ScaleUp.generateRunnerJitconfigForOrg := fun _ _ _ _ =>
       Ok {| ScaleUp.runner_id := 9876543210;
             ScaleUp.encoded_jit_config := "TEST_JIT_CONFIG_ORG" |};
     ScaleUp.generateRunnerJitconfigForRepo := fun _ _ _ _ _ =>
       Ok {| ScaleUp.runner_id := 9876543210;
             ScaleUp.encoded_jit_config := "TEST_JIT_CONFIG_REPO" |};
     ScaleUp.tag := fun _ _ => tagged;
     ScaleUp.getParameter := fun _ => Ok "1";
     ScaleUp.putParameter := fun _ _ _ _ => Ok tt |}.

(** The same services, with a job status that depends on the job:
    [status] gives it from the job identifier. *)
Definition testServicesWithJobs (status : Z -> string) (current : nat)
    (created : list string) : ScaleUp.Services :=
  let base := testServices current created (Ok tt) in
  {| ScaleUp.createAppClient := ScaleUp.createAppClient base;
     ScaleUp.getOrgInstallation := ScaleUp.getOrgInstallation base;
     ScaleUp.getRepoInstallation := ScaleUp.getRepoInstallation base;
     ScaleUp.createInstallationClient := ScaleUp.createInstallationClient base;
     ScaleUp.getJobForWorkflowRun := fun job_id _ _ => Ok (status job_id);
     ScaleUp.listEC2Runners := ScaleUp.listEC2Runners base;
     ScaleUp.createRunner := ScaleUp.createRunner base;
     ScaleUp.createRegistrationTokenForOrg := ScaleUp.createRegistrationTokenForOrg base;
     ScaleUp.createRegistrationTokenForRepo := ScaleUp.createRegistrationTokenForRepo base;
     ScaleUp.listRunnerGroups := ScaleUp.listRunnerGroups base;
     ScaleUp.generateRunnerJitconfigForOrg := ScaleUp.generateRunnerJitconfigForOrg base;
     ScaleUp.generateRunnerJitconfigForRepo := ScaleUp.generateRunnerJitconfigForRepo base;
     ScaleUp.tag := ScaleUp.tag base;
     ScaleUp.getParameter := ScaleUp.getParameter base;
     ScaleUp.putParameter := ScaleUp.putParameter base |}.

(** The job of the first test message (job 1) is completed, the others
    are queued. *)
Definition firstJobCompleted (job_id : Z) : string :=
  if job_id =? 1 then "completed" else "queued".

(** ** runners.test.ts: [createRunnerConfig] and [createFleetMockWithErrors] *)

Definition runnerConfig (type : Runners.RunnerType) : Runners.RunnerInputParameters :=
  {| Runners.runnerServiceConfig := ["--token foo"; "--url http://github.com"];
     Runners.environment := "unit-test-environment";
     Runners.runnerType := type;
     Runners.runnerOwner := "SomeAwesomeCoder/some-amazing-library";
     Runners.ssmTokenPath := "/github-action-runners/default/runners/tokens";
     Runners.launchTemplateName := "lt-1";
     Runners.ec2instanceCriteria :=
       {| Runners.instanceTypes := ["m5.large"; "c5.large"];
          Runners.targetCapacityType := "spot";
          Runners.maxSpotPrice := None;
          Runners.instanceAllocationStrategy := "capacity-optimized" |};
     Runners.subnets := ["subnet-123"; "subnet-456"];
     Runners.numberOfRunners := None;
     Runners.amiIdSsmParameterName := None |}.

Definition fleetWithErrors (errors : list string) (instances : option (list string))
    : Runners.CreateFleetResult :=
  {| Runners.Errors :=
       Some (map (fun e => {| Runners.ErrorCode := Some e |}) errors);
     Runners.Instances :=
       (fun i => [ {| Runners.InstanceIds := Some i |} ]) <$> instances |}.

Definition cloudAnswering (fleet : Runners.CreateFleetResult) : Runners.Cloud :=
  {| Runners.getParameter := fun _ => Ok None;
     Runners.send := fun _ => Ok fleet;
     Runners.putParameter := fun _ _ _ => Ok tt |}.

(** ** Seed scenario 6 of the specification: four instances of one owner,
    launched a minute apart, all registered upstream, all idle, all older
    than the minimum running time; an idle quota of 2 and the strategy
    [oldest_first]. *)

Definition instance (n : Z) : ScaleDown.RunnerList :=
  {| ScaleDown.instanceId := "i-" +:+ toString n;
     ScaleDown.launchTime := Some (n * 60000);
     ScaleDown.owner := Some "Codertocat";
     ScaleDown.type := Some "Org";
     ScaleDown.orphan := false;
     ScaleDown.runnerId := None |}.

Definition fourInstances : list ScaleDown.RunnerList :=
  [instance 1; instance 2; instance 3; instance 4].

Definition upstreamRunner (n : Z) : ScaleDown.RunnerState :=
  {| ScaleDown.id := 100 + n;
     ScaleDown.name := "i-" +:+ toString n;
     ScaleDown.status := "online";
     ScaleDown.busy := false |}.

Definition fourUpstream : list ScaleDown.RunnerState :=
  [upstreamRunner 1; upstreamRunner 2; upstreamRunner 3; upstreamRunner 4].

Definition upstreamById (runner_id : option Z) : result exn ScaleDown.RunnerState :=
  match runner_id with
  | Some i =>
      match find (fun g => (ScaleDown.id g =? i)) fourUpstream with
      | Some g => Ok g
      | None => Throw (RequestError 404)
      end
  | None => Throw (RequestError 404)
  end.

(** Services for the scenario; [deleted] is the status every
    de-registration answers. *)
Definition reaperServices (deleted : Z) : ScaleDown.Services :=
  {| ScaleDown.createAppClient := Ok tt;
     ScaleDown.getOrgInstallation := fun _ => Ok 2;
     ScaleDown.getRepoInstallation := fun _ _ => Ok 2;
     ScaleDown.createInstallationClient := fun _ => Ok tt;
     ScaleDown.getSelfHostedRunnerForOrg := fun i _ => upstreamById i;
     ScaleDown.getSelfHostedRunnerForRepo := fun i _ _ => upstreamById i;
     ScaleDown.listSelfHostedRunnersForOrg := fun _ => Ok fourUpstream;
     ScaleDown.listSelfHostedRunnersForRepo := fun _ _ => Ok fourUpstream;
     ScaleDown.deleteSelfHostedRunnerFromOrg := fun _ _ => Ok deleted;
     ScaleDown.deleteSelfHostedRunnerFromRepo := fun _ _ _ => Ok deleted;
     ScaleDown.listEC2Runners := fun _ _ => Ok fourInstances;
     ScaleDown.terminateRunner := fun _ => Ok tt;
     ScaleDown.tag := fun _ _ => Ok tt;
     ScaleDown.untag := fun _ _ => Ok tt |}.

Definition reaperEnv (idleCount : Z) (evictionStrategy : string) : ScaleDown.Env :=
  {| ScaleDown.environment := "unit-test-environment";
     ScaleDown.MINIMUM_RUNNING_TIME_IN_MINUTES := 5;
     ScaleDown.RUNNER_BOOT_TIME_IN_MINUTES := 5;
     ScaleDown.now := 100 * 60000;
     ScaleDown.getIdleRunnerCount := idleCount;
     ScaleDown.getEvictionStrategy := evictionStrategy |}.

(** The services of seed scenario 6, but the direct query of a runner
    answers 404: the runners are in the upstream list and gone when asked
    for one by one. *)
Definition vanishedServices : ScaleDown.Services :=
  {| ScaleDown.createAppClient := Ok tt;
     ScaleDown.getOrgInstallation := fun _ => Ok 2;
     ScaleDown.getRepoInstallation := fun _ _ => Ok 2;
     ScaleDown.createInstallationClient := fun _ => Ok tt;
     ScaleDown.getSelfHostedRunnerForOrg := fun _ _ => Throw (RequestError 404);
     ScaleDown.getSelfHostedRunnerForRepo := fun _ _ _ => Throw (RequestError 404);
     ScaleDown.listSelfHostedRunnersForOrg := fun _ => Ok fourUpstream;
     ScaleDown.listSelfHostedRunnersForRepo := fun _ _ => Ok fourUpstream;
     ScaleDown.deleteSelfHostedRunnerFromOrg := fun _ _ => Ok 204;
     ScaleDown.deleteSelfHostedRunnerFromRepo := fun _ _ _ => Ok 204;
     ScaleDown.listEC2Runners := fun _ _ => Ok fourInstances;
     ScaleDown.terminateRunner := fun _ => Ok tt;
     ScaleDown.tag := fun _ _ => Ok tt;
     ScaleDown.untag := fun _ _ => Ok tt |}.

(** ** Phase 1: three instances that carry the orphan tag.  The first has
    no upstream runner id; the second has the id of a runner that is
    online and idle upstream; the third has an id upstream does not know. *)

Definition orphanInstance (n : Z) (runnerId : option string) : ScaleDown.RunnerList :=
  {| ScaleDown.instanceId := "i-" +:+ toString n;
     ScaleDown.launchTime := Some (n * 60000);
     ScaleDown.owner := Some "Codertocat";
     ScaleDown.type := Some "Org";
     ScaleDown.orphan := true;
     ScaleDown.runnerId := runnerId |}.

Definition threeOrphans : list ScaleDown.RunnerList :=
  [orphanInstance 5 None; orphanInstance 6 (Some "101"); orphanInstance 7 (Some "999")].

(** The services of the scenario above, with an inventory that holds the
    three orphans. *)
Definition orphanServices : ScaleDown.Services :=
  {| ScaleDown.createAppClient := Ok tt;
     ScaleDown.getOrgInstallation := fun _ => Ok 2;
     ScaleDown.getRepoInstallation := fun _ _ => Ok 2;
     ScaleDown.createInstallationClient := fun _ => Ok tt;
     ScaleDown.getSelfHostedRunnerForOrg := fun i _ => upstreamById i;
     ScaleDown.getSelfHostedRunnerForRepo := fun i _ _ => upstreamById i;
     ScaleDown.listSelfHostedRunnersForOrg := fun _ => Ok fourUpstream;
     ScaleDown.listSelfHostedRunnersForRepo := fun _ _ => Ok fourUpstream;
     ScaleDown.deleteSelfHostedRunnerFromOrg := fun _ _ => Ok 204;
     ScaleDown.deleteSelfHostedRunnerFromRepo := fun _ _ _ => Ok 204;
     ScaleDown.listEC2Runners := fun _ orphan =>
       match orphan with
       | Some true => Ok threeOrphans
       | _ => Ok (fourInstances ++ threeOrphans)
       end;
     ScaleDown.terminateRunner := fun _ => Ok tt;
     ScaleDown.tag := fun _ _ => Ok tt;
     ScaleDown.untag := fun _ _ => Ok tt |}.

(** ** A pool of one organisation: four running instances, of which "i-1"
    is online and idle upstream, "i-2" is busy, "i-3" is not registered
    yet and still booting, and "i-4" is not registered and past its boot
    time. *)

Definition poolEnv : Pool.Env :=
  {| Pool.RUNNER_EXTRA_LABELS := None;
     Pool.RUNNER_GROUP_NAME := None;
     Pool.ENVIRONMENT := "unit-test-environment";
     Pool.GHES_URL := None;
     Pool.SSM_TOKEN_PATH := "/github-action-runners/default/runners/tokens";
     Pool.SUBNET_IDS := ["subnet-123"];
     Pool.INSTANCE_TYPES := ["m5.large"];
     Pool.INSTANCE_TARGET_CAPACITY_TYPE := "spot";
     Pool.ENABLE_EPHEMERAL_RUNNERS := false;
     Pool.DISABLE_RUNNER_AUTOUPDATE := false;
     Pool.LAUNCH_TEMPLATE_NAME := "lt-1";
     Pool.INSTANCE_MAX_SPOT_PRICE := None;
     Pool.INSTANCE_ALLOCATION_STRATEGY := "lowest-price";
     Pool.RUNNER_OWNER := "my-org";
     Pool.AMI_ID_SSM_PARAMETER_NAME := None;
     Pool.RUNNER_BOOT_TIME_IN_MINUTES := 5;
     Pool.now := 100 * 60000 |}.

Definition poolUpstream : list Pool.GhRunner :=
  [ {| Pool.name := "i-1"; Pool.gh_busy := false; Pool.gh_status := "online" |};
    {| Pool.name := "i-2"; Pool.gh_busy := true; Pool.gh_status := "online" |} ].

Definition poolInstances : list Pool.Ec2Runner :=
  [ {| Pool.instanceId := "i-1"; Pool.launchTime := Some (10 * 60000) |};
    {| Pool.instanceId := "i-2"; Pool.launchTime := Some (10 * 60000) |};
    {| Pool.instanceId := "i-3"; Pool.launchTime := Some (99 * 60000) |};
    {| Pool.instanceId := "i-4"; Pool.launchTime := Some (10 * 60000) |} ].

Definition poolServices : Pool.Services :=
  {| Pool.createAppClient := Ok tt;
     Pool.getOrgInstallation := fun _ => Ok 2;
     Pool.createInstallationClient := fun _ => Ok tt;
     Pool.listSelfHostedRunnersForOrg := fun _ => Ok poolUpstream;
     Pool.listEC2Runners := fun _ _ _ _ => Ok poolInstances;
     Pool.createRunners := fun _ _ => Ok tt |}.

(** ** job-retry.test.ts: the message and the configuration of the table *)

Definition retryMessage (retryCounter : option Z) : ScaleUp.ActionRequestMessage :=
  {| ScaleUp.id := 0;
     ScaleUp.eventType := ScaleUp.workflow_job;
     ScaleUp.repositoryName := "test";
     ScaleUp.repositoryOwner := "github-aws-runners";
     ScaleUp.installationId := 0;
     ScaleUp.repoOwnerType := "Organization";
     ScaleUp.retryCounter := retryCounter |}.

(** job-retry.test.ts, [createSQSRecord]: the records of the handler's
    tests, told apart here by their job identifier. *)
Definition retryJob (n : Z) : ScaleUp.ActionRequestMessage :=
  {| ScaleUp.id := n;
     ScaleUp.eventType := ScaleUp.workflow_job;
     ScaleUp.repositoryName := "test-repo";
     ScaleUp.repositoryOwner := "test-owner";
     ScaleUp.installationId := 456;
     ScaleUp.repoOwnerType := "Organization";
     ScaleUp.retryCounter := Some 0 |}.

Definition retryQueue : string :=
  "https://sqs.eu-west-1.amazonaws.com/123456789/webhook_events_workflow_job_queue".

Definition jobRetryConfig (enable : bool) (maxAttempts : option Z) (delayInSeconds : Z)
    : JobRetry.JobRetryConfig :=
  {| JobRetry.enable := enable;
     JobRetry.maxAttempts := maxAttempts;
     JobRetry.delayInSeconds := delayInSeconds;
     JobRetry.delayBackoff := 2;
     JobRetry.queueUrl := retryQueue |}.

(** ** lambda.test.ts: [createMultipleRecords] *)

Definition testRecord (i : nat) : Lambda.SQSRecord :=
  {| Lambda.body :=
       {| ScaleUp.id := Z.of_nat i + 1;
          ScaleUp.eventType := ScaleUp.workflow_job;
          ScaleUp.repositoryName := "name";
          ScaleUp.repositoryOwner := "owner";
          ScaleUp.installationId := 1;
          ScaleUp.repoOwnerType := "Organization";
          ScaleUp.retryCounter := None |};
     Lambda.eventSource := "aws:sqs";
     Lambda.recordMessageId := "message-" +:+ toString (Z.of_nat i) |}.

Definition testRecords (count : nat) : list Lambda.SQSRecord :=
  map testRecord (seq 0 count).

(** The services of seed scenario 6, but the runner of "i-2" answers busy
    when it is asked for directly. *)
Definition busyById (runner_id : option Z) : result exn ScaleDown.RunnerState :=
  match upstreamById runner_id with
  | Ok g => Ok {| ScaleDown.id := ScaleDown.id g;
                  ScaleDown.name := ScaleDown.name g;
                  ScaleDown.status := ScaleDown.status g;
                  ScaleDown.busy := (ScaleDown.id g =? 102) |}
  | Throw e => Throw e
  end.

Definition busyServices : ScaleDown.Services :=
  {| ScaleDown.createAppClient := Ok tt;
     ScaleDown.getOrgInstallation := fun _ => Ok 2;
     ScaleDown.getRepoInstallation := fun _ _ => Ok 2;
     ScaleDown.createInstallationClient := fun _ => Ok tt;
     ScaleDown.getSelfHostedRunnerForOrg := fun i _ => busyById i;
     ScaleDown.getSelfHostedRunnerForRepo := fun i _ _ => busyById i;
     ScaleDown.listSelfHostedRunnersForOrg := fun _ => Ok fourUpstream;
     ScaleDown.listSelfHostedRunnersForRepo := fun _ _ => Ok fourUpstream;
     ScaleDown.deleteSelfHostedRunnerFromOrg := fun _ _ => Ok 204;
     ScaleDown.deleteSelfHostedRunnerFromRepo := fun _ _ _ => Ok 204;
     ScaleDown.listEC2Runners := fun _ _ => Ok fourInstances;
     ScaleDown.terminateRunner := fun _ => Ok tt;
     ScaleDown.tag := fun _ _ => Ok tt;
     ScaleDown.untag := fun _ _ => Ok tt |}.

(** runners.test.ts, the tests of the AMI override: the configuration
    names the parameter that holds the image, and the store answers
    [ami]. *)
Definition runnerConfigWithAmi : Runners.RunnerInputParameters :=
  {| Runners.runnerServiceConfig := ["--token foo"; "--url http://github.com"];
     Runners.environment := "unit-test-environment";
     Runners.runnerType := Runners.Org;
     Runners.runnerOwner := "SomeAwesomeCoder/some-amazing-library";
     Runners.ssmTokenPath := "/github-action-runners/default/runners/tokens";
     Runners.launchTemplateName := "lt-1";
     Runners.ec2instanceCriteria :=
       {| Runners.instanceTypes := ["m5.large"; "c5.large"];
          Runners.targetCapacityType := "spot";
          Runners.maxSpotPrice := None;
          Runners.instanceAllocationStrategy := "capacity-optimized" |};
     Runners.subnets := ["subnet-123"; "subnet-456"];
     Runners.numberOfRunners := None;
     Runners.amiIdSsmParameterName := Some "my-ami-id-param" |}.

Definition cloudWithAmi (ami : result Runners.exn (option string)) : Runners.Cloud :=
  {| Runners.getParameter := fun _ => ami;
     Runners.send := fun _ => Ok (fleetWithErrors [] (Some ["i-1234"]));
     Runners.putParameter := fun _ _ _ => Ok tt |}.

End Scenarios.

(* ================================================================== *)
(** * Properties                                                       *)
(* ================================================================== *)

(** ** The array helpers *)

Section Sorting.
Context {A : Type} (cmp : A -> A -> Z).

Lemma insertBy_perm (x : A) (l : list A) : Permutation (x :: l) (insertBy cmp x l).
Proof.
  induction l as [|y l IH]; simpl; [reflexivity| ].
  destruct (cmp x y <=? 0)%Z; [reflexivity| ].
  rewrite perm_swap. now apply perm_skip.
Qed.

Lemma sortBy_perm (l : list A) : Permutation l (sortBy cmp l).
Proof.
  induction l as [|x l IH]; simpl; [reflexivity| ].
  rewrite <- insertBy_perm. now apply perm_skip.
Qed.

Lemma sortBy_length (l : list A) : length (sortBy cmp l) = length l.
Proof. symmetry. apply Permutation_length, sortBy_perm. Qed.

(** On a list whose elements the comparator orders totally and
    transitively, the result is sorted. *)
Definition before (a b : A) : Prop := (cmp a b <= 0)%Z.

Definition ordersList (l : list A) : Prop :=
  (forall a b, In a l -> In b l -> before a b \/ before b a) /\
  (forall a b c, In a l -> In b l -> In c l -> before a b -> before b c -> before a c).

Lemma insertBy_sorted (x : A) (l : list A) :
  ordersList (x :: l) -> StronglySorted before l -> StronglySorted before (insertBy cmp x l).
Proof.
  intros [Htot Htrans] Hs. induction Hs as [|y l Hs IH Hy]; simpl.
  - repeat constructor.
  - destruct (Z.leb_spec (cmp x y) 0) as [Hle|Hgt].
    + apply SSorted_cons; [apply SSorted_cons; assumption| ].
      constructor; [exact Hle | ].
      rewrite List.Forall_forall in Hy |- *. intros z Hz.
      apply (Htrans x y z); simpl; auto.
    + assert (Hyx : before y x).
      { destruct (Htot x y) as [H|H]; simpl; auto. unfold before in H. lia. }
      apply SSorted_cons.
      * apply IH.
        -- intros a b Ha Hb. apply Htot; simpl in *; tauto.
        -- intros a b c Ha Hb Hc. apply Htrans; simpl in *; tauto.
      * rewrite List.Forall_forall in Hy |- *. intros z Hz.
        apply (Permutation_in _ (Permutation_sym (insertBy_perm x l))) in Hz.
        destruct Hz as [<-|Hz]; auto.
Qed.

Lemma ordersList_perm (l l' : list A) :
  Permutation l l' -> ordersList l -> ordersList l'.
Proof.
  intros Hp [Htot Htrans]. apply Permutation_sym in Hp. split.
  - intros a b Ha Hb. apply Htot; eapply Permutation_in; eauto.
  - intros a b c Ha Hb Hc. apply Htrans; eapply Permutation_in; eauto.
Qed.

Lemma sortBy_sorted (l : list A) : ordersList l -> StronglySorted before (sortBy cmp l).
Proof.
  induction l as [|x l IH]; intros Ho; simpl; [constructor| ].
  apply insertBy_sorted.
  - eapply ordersList_perm; [|exact Ho]. apply perm_skip, sortBy_perm.
  - apply IH. destruct Ho as [Htot Htrans]. split.
    + intros a b Ha Hb. apply Htot; simpl; auto.
    + intros a b c Ha Hb Hc. apply Htrans; simpl; auto.
Qed.
End Sorting.

Lemma StronglySorted_weaken {A} (R R' : A -> A -> Prop) (l : list A) :
  (forall a b, R a b -> R' a b) -> StronglySorted R l -> StronglySorted R' l.
Proof.
  intros HR Hs. induction Hs as [|x l Hs IH Hx]; constructor; [exact IH | ].
  eapply List.Forall_impl; [|exact Hx]. intros b. apply HR.
Qed.

Lemma slice_0_firstn {A} (k : Z) (l : list A) :
  (0 <= k <= Z.of_nat (length l))%Z -> slice 0 k l = firstn (Z.to_nat k) l.
Proof.
  intros Hk. unfold slice, relIndex. simpl.
  destruct (Z.ltb_spec k 0); [lia| ].
  rewrite Nat.min_l by lia. now rewrite Nat.sub_0_r.
Qed.

(** ** The scale-up intake (lambda.ts, ScaleError.ts) *)

Section LambdaProperties.
Import ScaleUp Lambda.

Lemma byRetryCount_orders (l : list ActionRequestMessageSQS) :
  ordersList byRetryCount l.
Proof.
  split; unfold before, byRetryCount; intros; lia.
Qed.

Lemma toBatchItemFailures_firstn (n : Z) (messages : list ActionRequestMessageSQS) :
  toBatchItemFailures n messages =
  map (fun m => {| itemIdentifier := messageId m |})
      (firstn (Z.to_nat (Z.min (Z.max 0 n) (Z.of_nat (length messages)))) messages).
Proof.
  unfold toBatchItemFailures. rewrite slice_0_firstn by lia.
  do 2 f_equal. lia.
Qed.
End LambdaProperties.

(** C3.  The scale-up intake hands [scaleUp] the queue's messages sorted by
    retry count.  When [scaleUp] throws the scaling error with
    [failedInstanceCount = N], the handler answers with batch item failures
    for exactly the first [min (max 0 N) (batch size)] messages in that
    order; when it throws any other error, the handler answers with no
    batch item failure. *)
Theorem scaleUpHandler_failure_report :
  forall (scaleUp : list ScaleUp.ActionRequestMessageSQS -> result exn (list string))
         (records : list Lambda.SQSRecord),
    let messages := Lambda.sqsMessages records in
    Permutation (Lambda.collect records) messages /\
    StronglySorted (fun l r => (Lambda.retryCount l <= Lambda.retryCount r)%Z) messages /\
    (forall N, scaleUp messages = Throw (ScaleError N) ->
       Lambda.batchItemFailures (Lambda.scaleUpHandler scaleUp records) =
       map (fun m => {| Lambda.itemIdentifier := ScaleUp.messageId m |})
           (firstn (Z.to_nat (Z.min (Z.max 0 N) (Z.of_nat (length messages)))) messages)) /\
    (forall e, scaleUp messages = Throw e -> (forall N, e <> ScaleError N) ->
       Lambda.batchItemFailures (Lambda.scaleUpHandler scaleUp records) = []).
Proof.
  intros scaleUp records messages. repeat split.
  - apply sortBy_perm.
  - eapply StronglySorted_weaken; [|apply sortBy_sorted, byRetryCount_orders].
    unfold before, Lambda.byRetryCount. intros; lia.
  - intros N HN. unfold Lambda.scaleUpHandler. fold messages. rewrite HN.
    simpl. apply toBatchItemFailures_firstn.
  - intros e He Hne. unfold Lambda.scaleUpHandler. fold messages. rewrite He.
    destruct e; try reflexivity. now destruct (Hne failedInstanceCount).
Qed.

(** ** Running a computation *)

Lemma bind_ok {S E A B} (m : M S E A) (k : A -> M S E B) s a s' :
  m s = (Ok a, s') -> bind m k s = k a s'.
Proof. intros H. unfold bind. now rewrite H. Qed.

Lemma bind_throw {S E A B} (m : M S E A) (k : A -> M S E B) s e s' :
  m s = (Throw e, s') -> bind m k s = (Throw e, s').
Proof. intros H. unfold bind. now rewrite H. Qed.

(** ** Calls only extend the log *)

Section Emits.
Context {S C E : Type} (logOf : S -> list C) (P : C -> Prop).

(** [emits m]: whatever [m] does, the log after it is the log before it
    followed by calls that satisfy [P]. *)
Definition emits {A} (m : M S E A) : Prop :=
  forall s, exists new, logOf (snd (m s)) = logOf s ++ new /\ Forall P new.

Lemma emits_ret {A} (a : A) : emits (ret a).
Proof. intros s. exists []. simpl. now rewrite app_nil_r. Qed.

Lemma emits_throw {A} (e : E) : emits (@throw S E A e).
Proof. intros s. exists []. simpl. now rewrite app_nil_r. Qed.

Lemma emits_liftResult {A} (r : result E A) : emits (liftResult r).
Proof. intros s. exists []. simpl. now rewrite app_nil_r. Qed.

Lemma emits_bind {A B} (m : M S E A) (k : A -> M S E B) :
  emits m -> (forall a, emits (k a)) -> emits (bind m k).
Proof.
  intros Hm Hk s. unfold bind. destruct (Hm s) as (n1 & E1 & F1).
  destruct (m s) as [[a|e] s1]; simpl in *.
  - destruct (Hk a s1) as (n2 & E2 & F2). exists (n1 ++ n2).
    rewrite E2, E1, app_assoc. split; [reflexivity | now apply Forall_app].
  - now exists n1.
Qed.

Lemma emits_tryCatch {A} (m : M S E A) (h : E -> M S E A) :
  emits m -> (forall e, emits (h e)) -> emits (tryCatch m h).
Proof.
  intros Hm Hh s. unfold tryCatch. destruct (Hm s) as (n1 & E1 & F1).
  destruct (m s) as [[a|e] s1]; simpl in *.
  - now exists n1.
  - destruct (Hh e s1) as (n2 & E2 & F2). exists (n1 ++ n2).
    rewrite E2, E1, app_assoc. split; [reflexivity | now apply Forall_app].
Qed.

Lemma emits_forOf {A} (l : list A) (body : A -> M S E unit) :
  (forall a, emits (body a)) -> emits (forOf l body).
Proof.
  intros Hb. induction l as [|x l IH]; simpl.
  - apply emits_ret.
  - apply emits_bind; [apply Hb | intros _; exact IH].
Qed.

Lemma emits_foldM {A B} (f : B -> A -> M S E B) (l : list A) (b : B) :
  (forall b a, emits (f b a)) -> emits (foldM f l b).
Proof.
  intros Hf. revert b. induction l as [|x l IH]; intros b; simpl.
  - apply emits_ret.
  - apply emits_bind; [apply Hf | exact IH].
Qed.
End Emits.

Lemma emits_call {C E A} (P : C -> Prop) (c : C) (r : result E A) :
  P c -> emits (fun l => l) P (call c r).
Proof.
  intros Hc s. exists [c]. split; [reflexivity | now constructor].
Qed.

Create HintDb emits.
#[local] Hint Resolve emits_ret emits_throw emits_liftResult emits_bind emits_tryCatch
  emits_forOf emits_foldM emits_call : emits.

(** Breaks the conditionals of a computation, and leaves what the hints
    do not settle. *)
Ltac emits_step :=
  match goal with
  | |- emits _ _ (if ?b then _ else _) => destruct b
  | |- emits _ _ (match ?x with _ => _ end) => destruct x
  | |- emits _ _ (bind _ _) => apply emits_bind; [ | intros ? ]
  | |- emits _ _ (tryCatch _ _) => apply emits_tryCatch; [ | intros ? ]
  | |- emits _ _ (forOf _ _) => apply emits_forOf; intros ?
  | |- emits _ _ (ret _) => apply emits_ret
  | |- emits _ _ (throw _) => apply emits_throw
  | |- emits _ _ (liftResult _) => apply emits_liftResult
  | |- emits _ _ (call _ _) => apply emits_call
  end.

Ltac emits_auto := repeat emits_step; try (simpl; tauto); eauto with emits.

(** ** The scale-up dispatcher (scale-up.ts) *)

Section ScaleUpProperties.
Import ScaleUp.
Local Open Scope Z_scope.

Definition notCreateRunner (c : Call) : Prop :=
  match c with CreateRunner _ => False | _ => True end.

Abbreviation quiet := (emits (fun l : list Call => l) notCreateRunner).

Lemma requested_quiet (new : list Call) : Forall notCreateRunner new -> requested new = [].
Proof.
  induction 1 as [|c new Hc _ IH]; [reflexivity | ].
  destruct c; simpl in *; try exact IH. contradiction.
Qed.

Lemma quiet_requested {A} (m : M (list Call) exn A) (s : list Call) :
  quiet m -> requested (snd (m s)) = requested s.
Proof.
  intros Hm. destruct (Hm s) as (new & -> & Hnew).
  unfold requested. rewrite omap_app. fold (requested new).
  rewrite (requested_quiet new Hnew). apply app_nil_r.
Qed.

Lemma createStartRunnerConfig_quiet env w c instances :
  quiet (createStartRunnerConfig env w c instances).
Proof.
  unfold createStartRunnerConfig, createJitConfig, createRegistrationTokenConfig,
    getRunnerGroupId, getRunnerGroupByName, getGithubRunnerRegistrationToken,
    jitConfigFor, generateJit, tagRunnerId, delayIf.
  emits_auto.
Qed.

Lemma countQueued_quiet env w messages n : quiet (countQueued env w messages n).
Proof.
  revert n. induction messages as [|m messages IH]; intros n; simpl.
  - apply emits_ret.
  - unfold isJobQueued. emits_auto.
Qed.

Lemma countQueued_bounds env w messages n s want s' :
  countQueued env w messages n s = (Ok want, s') ->
  n <= want <= n + Z.of_nat (length messages).
Proof.
  revert n s. induction messages as [|m messages IH]; intros n s H; simpl in H.
  - inversion H. simpl. lia.
  - simpl length. rewrite Nat2Z.inj_succ.
    destruct (enableJobQueuedCheck env).
    + unfold bind in H. destruct (isJobQueued w (payload m) s) as [[[|]|e] s1];
        try discriminate; apply IH in H; lia.
    + apply IH in H. lia.
Qed.

Lemma createRunners_requested env w c n s :
  requested (snd (createRunners env w c (ec2RunnerConfig env) n s)) = requested s ++ [n].
Proof.
  unfold createRunners, bind at 1, call.
  destruct (createRunner w _) as [instances|e]; simpl.
  - rewrite quiet_requested.
    + unfold requested. now rewrite omap_app.
    + destruct (negb _); [ | emits_auto ].
      apply emits_bind; [apply createStartRunnerConfig_quiet | intros; apply emits_ret ].
  - unfold requested. now rewrite omap_app.
Qed.

Lemma firstn_min {A} (k : nat) (l : list A) :
  firstn (Nat.min k (length l)) l = firstn k l.
Proof.
  destruct (Nat.le_ge_cases k (length l)) as [H|H].
  - now rewrite Nat.min_l.
  - rewrite Nat.min_r by exact H. now rewrite firstn_all, firstn_all2.
Qed.

Lemma skipn_min {A} (k : nat) (l : list A) :
  skipn (Nat.min k (length l)) l = skipn k l.
Proof.
  destruct (Nat.le_ge_cases k (length l)) as [H|H].
  - now rewrite Nat.min_l.
  - rewrite Nat.min_r by exact H. now rewrite skipn_all, skipn_all2.
Qed.

Lemma slice_0_firstn_any {A} (k : Z) (l : list A) :
  0 <= k -> slice 0 k l = firstn (Z.to_nat k) l.
Proof.
  intros Hk. unfold slice, relIndex. simpl.
  destruct (Z.ltb_spec k 0); [lia | ].
  rewrite Nat.sub_0_r. apply firstn_min.
Qed.

(** C1 (as amended).  For a scope whose messages are counted without an
    error ([want] of them ask for a runner), with a cap [maximumRunners]
    that is not -1 and an inventory of [current] instances that does not
    exceed the cap: let [newCount = min want (max 0 (maximumRunners -
    current))].  The bulk create call is made only when [newCount] is
    positive, and it then asks for exactly [newCount] instances.  With
    ephemeral runners enabled the cap rejects the first [want - newCount]
    messages of the scope's group; without them the cap rejects nothing.
    When [newCount = 0] the scope ends there, with exactly that reject
    list.  When [newCount] is positive and the creation returns
    [created <= newCount] instances, the reject list is exactly the
    identifiers rejected before, those the cap rejects, and the first
    [newCount - created] messages of what is left of the group: so with
    every instance created the scope rejects what the cap rejects, and
    nothing without ephemeral runners.  ([messages] is the group as the
    validation pass built it: it still holds the messages whose job the
    queued check found not queued, and the cap takes its messages from
    the front of it.) *)
Theorem scaleUpGroup_cap env w group messages invalid want log1 runners :
  maximumRunners env <> -1 ->
  countQueued env w messages 0 [] = (Ok want, log1) ->
  listEC2Runners w (env_environment env) (runnerTypeOf env) group = Ok runners ->
  Z.of_nat (length runners) <= maximumRunners env ->
  let newCount := Z.min want (Z.max 0 (maximumRunners env - Z.of_nat (length runners))) in
  let capped :=
    if ephemeralEnabled env
    then map messageId (firstn (Z.to_nat (want - newCount)) messages) else [] in
  let left :=
    if ephemeralEnabled env
    then skipn (Z.to_nat (want - newCount)) messages else messages in
  let run := scaleUpGroup env w group messages invalid [] in
  requested (snd run) = (if 0 <? newCount then [newCount] else []) /\
  (newCount = 0 -> fst run = Ok (invalid ++ capped)) /\
  (forall rejected, fst run = Ok rejected ->
     exists rest, rejected = invalid ++ capped ++ rest) /\
  (0 < newCount ->
   forall instances log2,
     createRunners env w (githubRunnerConfig env group) (ec2RunnerConfig env) newCount
       (log1 ++ [ListEC2Runners (env_environment env) (runnerTypeOf env) group]) =
       (Ok instances, log2) ->
     Z.of_nat (length instances) <= newCount ->
     run =
     (Ok (invalid ++ capped ++
          map messageId
            (firstn (Z.to_nat (newCount - Z.of_nat (length instances))) left)),
      log2)).
Proof.
  intros Hmax Hcount Hlist Hle newCount capped left run.
  pose proof (countQueued_bounds _ _ _ _ _ _ _ Hcount) as Hwant.
  pose proof (quiet_requested _ [] (countQueued_quiet env w messages 0)) as Hq.
  rewrite Hcount in Hq. simpl in Hq.
  subst run. unfold scaleUpGroup. rewrite (bind_ok _ _ _ _ _ Hcount).
  destruct (Z.eqb_spec want 0) as [H0|H0].
  - assert (Hn : newCount = 0) by (subst newCount; lia).
    assert (capped = []) as -> .
    { subst capped. destruct (ephemeralEnabled env); [ | reflexivity ].
      replace (want - newCount) with 0 by lia. reflexivity. }
    simpl. rewrite Hq, Hn. simpl. rewrite app_nil_r.
    split; [reflexivity | split; [reflexivity | split; [ | lia ] ] ].
    intros rejected [= <-]. exists []. now rewrite app_nil_r.
  - assert (Hcur : currentRunners env w group log1 =
              (Ok (Z.of_nat (length runners)),
               log1 ++ [ListEC2Runners (env_environment env) (runnerTypeOf env) group])).
    { unfold currentRunners. destruct (Z.eqb_spec (maximumRunners env) (-1)) as [?|_];
        [contradiction | ].
      unfold bind, call. now rewrite Hlist. }
    rewrite (bind_ok _ _ _ _ _ Hcur).
    unfold newRunners. destruct (Z.eqb_spec (maximumRunners env) (-1)) as [?|_];
      [contradiction | ].
    replace (Z.min want (maximumRunners env - Z.of_nat (length runners)))
      with newCount by (subst newCount; lia).
    replace (Z.max 0 (want - newCount)) with (want - newCount) by (subst newCount; lia).
    assert (Hcap :
      (if (0 <? want - newCount) && ephemeralEnabled env
       then invalid ++ map messageId (fst (splice0 (want - newCount) messages))
       else invalid) = invalid ++ capped).
    { subst capped. destruct (Z.ltb_spec 0 (want - newCount)) as [Hm|Hm]; simpl.
      - destruct (ephemeralEnabled env); [ | now rewrite app_nil_r ].
        unfold splice0. simpl. rewrite firstn_min.
        now replace (Z.max 0 (want - newCount)) with (want - newCount) by lia.
      - replace (want - newCount) with 0 by (subst newCount; lia).
        destruct (ephemeralEnabled env); simpl; now rewrite app_nil_r. }
    assert (Hleft :
      (if (0 <? want - newCount) && ephemeralEnabled env
       then snd (splice0 (want - newCount) messages)
       else messages) = left).
    { subst left. destruct (Z.ltb_spec 0 (want - newCount)) as [Hm|Hm]; simpl.
      - destruct (ephemeralEnabled env); [ | reflexivity ].
        unfold splice0. simpl. rewrite skipn_min.
        now replace (Z.max 0 (want - newCount)) with (want - newCount) by lia.
      - replace (want - newCount) with 0 by (subst newCount; lia).
        now destruct (ephemeralEnabled env). }
    rewrite Hcap, Hleft.
    destruct (Z.ltb_spec 0 newCount) as [Hpos|Hzero].
    + replace ((0 <? want - newCount) && (want - newCount =? want)) with false
        by (symmetry; apply andb_false_iff; right; apply Z.eqb_neq; lia).
      pose proof (createRunners_requested env w (githubRunnerConfig env group) newCount
                    (log1 ++ [ListEC2Runners (env_environment env) (runnerTypeOf env) group]))
        as Hreq.
      unfold bind.
      destruct (createRunners env w (githubRunnerConfig env group) (ec2RunnerConfig env)
                  newCount
                  (log1 ++ [ListEC2Runners (env_environment env) (runnerTypeOf env) group]))
        as [[instances|e] s2] eqn:Hcr; simpl in Hreq.
      * assert (Hs2 : requested s2 = [newCount]).
        { rewrite Hreq. unfold requested. rewrite omap_app. fold (requested log1).
          now rewrite Hq. }
        destruct (Z.eqb_spec (Z.of_nat (length instances)) newCount) as [Hall | Hsome];
          simpl; (split; [exact Hs2 | ]); (split; [lia | ]); split.
        -- intros rejected [= <-]. exists []. now rewrite app_nil_r.
        -- intros _ instances' log2 [= <- <-] _. unfold ret.
           rewrite Hall, Z.sub_diag. simpl. now rewrite !app_nil_r.
        -- intros rejected [= <-]. eexists. now rewrite <- app_assoc.
        -- intros _ instances' log2 [= <- <-] Hfew. unfold ret.
           rewrite slice_0_firstn_any by lia. now rewrite <- app_assoc.
      * simpl. split; [ | split; [lia | split; [discriminate | ] ] ].
        -- rewrite Hreq. unfold requested. rewrite omap_app. fold (requested log1).
           now rewrite Hq.
        -- intros _ instances' log2 [=].
    + assert (newCount = 0) as Hn by (subst newCount; lia).
      replace ((0 <? want - newCount) && (want - newCount =? want)) with true
        by (symmetry; apply andb_true_iff; split; [apply Z.ltb_lt | apply Z.eqb_eq]; lia).
      simpl. unfold requested. rewrite omap_app. fold (requested log1). rewrite Hq.
      simpl. split; [reflexivity | split; [reflexivity | split; [ | lia ] ] ].
      intros rejected [= <-]. exists []. now rewrite app_nil_r.
Qed.
End ScaleUpProperties.

(** C3, on the batch of two records of lambda.test.ts: a scaling error for
    two instances fails both messages, any other error fails none. *)
Lemma scaleUpHandler_failure_report_witness :
  Lambda.batchItemFailures
    (Lambda.scaleUpHandler (fun _ => Throw (ScaleError 2)) (Scenarios.testRecords 2)) =
    [ {| Lambda.itemIdentifier := "message-0" |}; {| Lambda.itemIdentifier := "message-1" |} ] /\
  Lambda.batchItemFailures
    (Lambda.scaleUpHandler (fun _ => Throw (Error "Generic error")) (Scenarios.testRecords 2)) =
    [].
Proof.
  split.
  - destruct (scaleUpHandler_failure_report (fun _ => Throw (ScaleError 2))
                (Scenarios.testRecords 2)) as (_ & _ & H & _).
    rewrite (H 2%Z eq_refl). reflexivity.
  - destruct (scaleUpHandler_failure_report (fun _ => Throw (Error "Generic error"))
                (Scenarios.testRecords 2)) as (_ & _ & _ & H).
    apply (H _ eq_refl). discriminate.
Defined.

(** C1, on seed scenario 2 with ephemeral runners: three messages of one
    scope, a cap of 1 and one instance already there.  No bulk create call
    is made and the three messages are rejected.  And without ephemeral
    runners, with a cap of 3, one instance there and the two instances
    asked for created: nothing is rejected. *)
Lemma scaleUpGroup_cap_witness :
  ScaleUp.maximumRunners (Scenarios.testEnv true 1) <> (-1)%Z /\
  fst (ScaleUp.countQueued (Scenarios.testEnv true 1) (Scenarios.testServices 1 [] (Ok tt))
         (Scenarios.testMessages 3) 0 []) = Ok 3%Z /\
  ScaleUp.requested
    (snd (ScaleUp.scaleUpGroup (Scenarios.testEnv true 1)
            (Scenarios.testServices 1 [] (Ok tt)) "Codertocat"
            (Scenarios.testMessages 3) [] [])) = [] /\
  fst (ScaleUp.scaleUpGroup (Scenarios.testEnv true 1)
         (Scenarios.testServices 1 [] (Ok tt)) "Codertocat"
         (Scenarios.testMessages 3) [] []) =
    Ok ["message-0"; "message-1"; "message-2"] /\
  fst (ScaleUp.scaleUpGroup (Scenarios.testEnv false 3)
         (Scenarios.testServices 1 ["i-1"; "i-2"] (Ok tt)) "Codertocat"
         (Scenarios.testMessages 3) [] []) = Ok [].
Proof.
  split; [discriminate | ]. split; [reflexivity | ].
  destruct (scaleUpGroup_cap (Scenarios.testEnv true 1)
              (Scenarios.testServices 1 [] (Ok tt)) "Codertocat"
              (Scenarios.testMessages 3) [] 3%Z
              (snd (ScaleUp.countQueued (Scenarios.testEnv true 1)
                      (Scenarios.testServices 1 [] (Ok tt))
                      (Scenarios.testMessages 3) 0 []))
              [ {| ScaleUp.instanceId := "i-existing"; ScaleUp.launchTime := Some 0%Z |} ])
    as (Hreq & Hzero & _).
  - discriminate.
  - reflexivity.
  - reflexivity.
  - simpl. lia.
  - split; [exact Hreq | ]. split; [rewrite Hzero; reflexivity | ].
    destruct (scaleUpGroup_cap (Scenarios.testEnv false 3)
                (Scenarios.testServices 1 ["i-1"; "i-2"] (Ok tt)) "Codertocat"
                (Scenarios.testMessages 3) [] 3%Z
                (snd (ScaleUp.countQueued (Scenarios.testEnv false 3)
                        (Scenarios.testServices 1 ["i-1"; "i-2"] (Ok tt))
                        (Scenarios.testMessages 3) 0 []))
                [ {| ScaleUp.instanceId := "i-existing"; ScaleUp.launchTime := Some 0%Z |} ])
      as (_ & _ & _ & Hcreated).
    + discriminate.
    + reflexivity.
    + reflexivity.
    + simpl. lia.
    + rewrite (Hcreated eq_refl ["i-1"; "i-2"]
                 (snd (ScaleUp.scaleUpGroup (Scenarios.testEnv false 3)
                         (Scenarios.testServices 1 ["i-1"; "i-2"] (Ok tt)) "Codertocat"
                         (Scenarios.testMessages 3) [] [])));
        [reflexivity | vm_compute; reflexivity | simpl; lia].
Defined.

(** C1 as stated fails in two ways.  Without ephemeral runners the cap
    rejects nothing: on seed scenario 2 (three messages of one scope, all
    queued, a cap of 1, one instance already there) no bulk create call is
    made and the reject list is empty, where the claim has the three
    messages rejected.  And with ephemeral runners the cap takes its
    messages from the front of the group, surviving or not: with the job
    of "message-0" completed and the two others queued, a cap of 1 and no
    instance there, two messages survive, one instance is asked for and
    created, and the message rejected is "message-0", where the claim has
    the first surviving message, "message-1". *)
Lemma scaleUp_cap_reject_list_differs :
  (fst (ScaleUp.countQueued (Scenarios.testEnv false 1)
          (Scenarios.testServices 1 [] (Ok tt)) (Scenarios.testMessages 3) 0 []) = Ok 3%Z /\
   ScaleUp.requested
     (snd (ScaleUp.scaleUp (Scenarios.testEnv false 1) (Scenarios.testServices 1 [] (Ok tt))
             (Scenarios.testMessages 3) [])) = [] /\
   fst (ScaleUp.scaleUp (Scenarios.testEnv false 1) (Scenarios.testServices 1 [] (Ok tt))
          (Scenarios.testMessages 3) []) = Ok []) /\
  (map (fun m => ScaleUp.getJobForWorkflowRun
                   (Scenarios.testServicesWithJobs Scenarios.firstJobCompleted 0 ["i-1"])
                   (ScaleUp.id (ScaleUp.payload m)) "Codertocat" "hello-world")
     (Scenarios.testMessages 3) = [Ok "completed"; Ok "queued"; Ok "queued"] /\
   fst (ScaleUp.countQueued (Scenarios.testEnv true 1)
          (Scenarios.testServicesWithJobs Scenarios.firstJobCompleted 0 ["i-1"])
          (Scenarios.testMessages 3) 0 []) = Ok 2%Z /\
   ScaleUp.requested
     (snd (ScaleUp.scaleUp (Scenarios.testEnv true 1)
             (Scenarios.testServicesWithJobs Scenarios.firstJobCompleted 0 ["i-1"])
             (Scenarios.testMessages 3) [])) = [1%Z] /\
   fst (ScaleUp.scaleUp (Scenarios.testEnv true 1)
          (Scenarios.testServicesWithJobs Scenarios.firstJobCompleted 0 ["i-1"])
          (Scenarios.testMessages 3) []) = Ok ["message-0"]).
Proof. repeat split; vm_compute; reflexivity. Qed.

(** ** The bulk create call (aws/runners.ts) *)

Section RunnersProperties.
Import Runners.

Definition notCreateFleet (c : Call) : Prop :=
  match c with CreateFleet _ => False | _ => True end.

Lemma fleetCommands_none (new : list Call) :
  Forall notCreateFleet new -> fleetCommands new = [].
Proof.
  induction 1 as [|c new Hc _ IH]; [reflexivity | ].
  destruct c; simpl in *; try exact IH. contradiction.
Qed.

Lemma storeTokens_no_fleet cloud p instances :
  emits (fun l => l) notCreateFleet (storeTokens cloud p instances).
Proof. unfold storeTokens. emits_auto. Qed.

Lemma lookupAmiIdOverride_no_fleet cloud p :
  emits (fun l => l) notCreateFleet (lookupAmiIdOverride cloud p).
Proof. unfold lookupAmiIdOverride. emits_auto. Qed.

Lemma storeTokens_ok cloud p instances s :
  (forall name value type, putParameter cloud name value type = Ok tt) ->
  fst (storeTokens cloud p instances s) = Ok tt.
Proof.
  intros Hput. unfold storeTokens.
  generalize (ssmParameterStoreMaxThroughput <=? length instances)%nat as isDelay.
  intros isDelay. revert s.
  induction instances as [|i instances IH]; intros s; [reflexivity | ].
  simpl. unfold bind at 1, bind at 1, call at 1. rewrite Hput.
  destruct isDelay; simpl; apply IH.
Qed.

Lemma createdInstances_some fleet :
  instancesOf fleet <> [] -> createdInstances fleet = Ok (instancesOf fleet).
Proof.
  intros H. unfold createdInstances. destruct (instancesOf fleet); [contradiction | reflexivity].
Qed.

Lemma retriable_some errors :
  (exists e, In e errors /\ In e scaleErrors) ->
  existsb (includes scaleErrors) errors = true.
Proof.
  intros (e & He & Hs). apply existsb_exists. exists e. split; [exact He | ].
  apply existsb_exists. exists e. split; [exact Hs | apply String.eqb_refl].
Qed.

Lemma retriable_none errors :
  (forall e, In e errors -> ~ In e scaleErrors) ->
  existsb (includes scaleErrors) errors = false.
Proof.
  intros H. apply not_true_is_false. intros Hex.
  apply existsb_exists in Hex as (e & He & Hs).
  apply existsb_exists in Hs as (e' & He' & Heq).
  apply String.eqb_eq in Heq. subst e'. exact (H e He He').
Qed.

(** What [createRunner] does once the fleet call has answered. *)
Lemma createRunner_after_fleet cloud p ami log0 fleet :
  lookupAmiIdOverride cloud p [] = (Ok ami, log0) ->
  send cloud (createFleetCommand p ami) = Ok fleet ->
  createRunner cloud p [] =
  bind (liftResult (createdInstances fleet)) (storeTokens cloud p)
       (log0 ++ [CreateFleet (createFleetCommand p ami)]).
Proof.
  intros Hami Hsend. unfold createRunner. rewrite (bind_ok _ _ _ _ _ Hami).
  unfold bind at 1, call. now rewrite Hsend.
Qed.
End RunnersProperties.

(** C2.  Once the fleet call has answered: with no instance and an error
    code of the retriable set, [createRunner] throws the scaling error;
    with no instance and no such error code, it throws the plain error;
    with one instance or more it throws neither, whatever the error codes:
    it goes on to store the tokens, and ends normally when the parameter
    store accepts them. *)
Theorem createRunner_fleet_outcome :
  forall (cloud : Runners.Cloud) (p : Runners.RunnerInputParameters)
         (ami : option string) (log0 : list Runners.Call)
         (fleet : Runners.CreateFleetResult),
    Runners.lookupAmiIdOverride cloud p [] = (Ok ami, log0) ->
    Runners.send cloud (Runners.createFleetCommand p ami) = Ok fleet ->
    (Runners.instancesOf fleet = [] ->
     (exists e, In e (Runners.errorsOf fleet) /\ In e Runners.scaleErrors) ->
     fst (Runners.createRunner cloud p []) =
       Throw (Runners.ScaleError "Failed to create instance, create fleet failed.")) /\
    (Runners.instancesOf fleet = [] ->
     (forall e, In e (Runners.errorsOf fleet) -> ~ In e Runners.scaleErrors) ->
     fst (Runners.createRunner cloud p []) =
       Throw (Runners.Error "Create fleet failed, no instance created.")) /\
    (Runners.instancesOf fleet <> [] ->
     Runners.createRunner cloud p [] =
       Runners.storeTokens cloud p (Runners.instancesOf fleet)
         (log0 ++ [Runners.CreateFleet (Runners.createFleetCommand p ami)]) /\
     ((forall name value type, Runners.putParameter cloud name value type = Ok tt) ->
      fst (Runners.createRunner cloud p []) = Ok tt)).
Proof.
  intros cloud p ami log0 fleet Hami Hsend.
  rewrite (createRunner_after_fleet _ _ _ _ _ Hami Hsend).
  unfold bind, liftResult, Runners.createdInstances. repeat split.
  - intros -> Hsome. simpl. now rewrite retriable_some.
  - intros -> Hnone. simpl. now rewrite retriable_none.
  - destruct (Runners.instancesOf fleet); [contradiction | reflexivity].
  - intros Hput. destruct (Runners.instancesOf fleet) as [|i l] eqn:Hi; [contradiction | ].
    simpl. now apply storeTokens_ok.
Qed.

(** C2, on the three fleet answers of runners.test.ts: a retriable code
    among the errors and no instance, an unknown code and no instance, an
    unknown code and one instance. *)
Lemma createRunner_fleet_outcome_witness :
  fst (Runners.createRunner
         (Scenarios.cloudAnswering
            (Scenarios.fleetWithErrors ["UnfulfillableCapacity"; "SomeError"] None))
         (Scenarios.runnerConfig Runners.Repo) []) =
    Throw (Runners.ScaleError "Failed to create instance, create fleet failed.") /\
  fst (Runners.createRunner
         (Scenarios.cloudAnswering (Scenarios.fleetWithErrors ["NonMappedError"] None))
         (Scenarios.runnerConfig Runners.Repo) []) =
    Throw (Runners.Error "Create fleet failed, no instance created.") /\
  fst (Runners.createRunner
         (Scenarios.cloudAnswering
            (Scenarios.fleetWithErrors ["NonMappedError"] (Some ["i-123"])))
         (Scenarios.runnerConfig Runners.Repo) []) = Ok tt.
Proof.
  split; [ | split ].
  - refine (proj1 (createRunner_fleet_outcome
                     (Scenarios.cloudAnswering
                        (Scenarios.fleetWithErrors ["UnfulfillableCapacity"; "SomeError"] None))
                     (Scenarios.runnerConfig Runners.Repo) None []
                     (Scenarios.fleetWithErrors ["UnfulfillableCapacity"; "SomeError"] None)
                     eq_refl eq_refl) eq_refl _).
    exists "UnfulfillableCapacity". split; simpl; auto.
  - refine (proj1 (proj2 (createRunner_fleet_outcome
                            (Scenarios.cloudAnswering
                               (Scenarios.fleetWithErrors ["NonMappedError"] None))
                            (Scenarios.runnerConfig Runners.Repo) None []
                            (Scenarios.fleetWithErrors ["NonMappedError"] None)
                            eq_refl eq_refl)) eq_refl _).
    intros e [<-|[]]. simpl. intuition discriminate.
  - refine (proj2 (proj2 (proj2 (createRunner_fleet_outcome
                                   (Scenarios.cloudAnswering
                                      (Scenarios.fleetWithErrors ["NonMappedError"]
                                         (Some ["i-123"])))
                                   (Scenarios.runnerConfig Runners.Repo) None []
                                   (Scenarios.fleetWithErrors ["NonMappedError"]
                                      (Some ["i-123"]))
                                   eq_refl eq_refl)) _) _).
    + discriminate.
    + reflexivity.
Defined.

Section RunnersTags.
Import Runners.

Lemma createRunner_fleetCommands cloud p :
  fleetCommands (snd (createRunner cloud p [])) = [] \/
  exists ami, fleetCommands (snd (createRunner cloud p [])) = [createFleetCommand p ami].
Proof.
  destruct (lookupAmiIdOverride_no_fleet cloud p []) as (n0 & E0 & F0).
  destruct (lookupAmiIdOverride cloud p []) as [[ami|e] log0] eqn:Hlk;
    simpl in E0; subst log0.
  - right. exists ami. unfold createRunner. rewrite (bind_ok _ _ _ _ _ Hlk).
    unfold bind, call, liftResult.
    destruct (send cloud (createFleetCommand p ami)) as [fleet|e]; simpl.
    + destruct (createdInstances fleet) as [instances|e]; simpl.
      * destruct (storeTokens_no_fleet cloud p instances
                    (n0 ++ [CreateFleet (createFleetCommand p ami)])) as (n1 & -> & F1).
        unfold fleetCommands. rewrite !omap_app. fold (fleetCommands n0) (fleetCommands n1).
        now rewrite (fleetCommands_none n0 F0), (fleetCommands_none n1 F1).
      * unfold fleetCommands. rewrite omap_app. fold (fleetCommands n0).
        now rewrite (fleetCommands_none n0 F0).
    + unfold fleetCommands. rewrite omap_app. fold (fleetCommands n0).
      now rewrite (fleetCommands_none n0 F0).
  - left. unfold createRunner. rewrite (bind_throw _ _ _ _ _ Hlk).
    simpl. now apply fleetCommands_none.
Qed.
End RunnersTags.

(** C7 (as amended).  Every fleet command that [createRunner] sends carries
    one tag specification, for the instances, with exactly four tags: the
    application marker, the creator, the category ([Type]) and the owner.
    The environment tag is not among them. *)
Theorem createRunner_tag_specification :
  forall (cloud : Runners.Cloud) (p : Runners.RunnerInputParameters),
    Forall (fun c => Runners.TagSpecifications c =
                     [ {| Runners.ResourceType := "instance";
                          Runners.Tags := Runners.fleetTags p |} ])
           (Runners.fleetCommands (snd (Runners.createRunner cloud p []))) /\
    map Runners.Key (Runners.fleetTags p) =
      ["ghr:Application"; "ghr:created_by"; "Type"; "Owner"] /\
    Runners.tagValue "ghr:Application" (Runners.fleetTags p) = Some "github-action-runner" /\
    (Runners.tagValue "ghr:created_by" (Runners.fleetTags p) = Some "scale-up-lambda" \/
     Runners.tagValue "ghr:created_by" (Runners.fleetTags p) = Some "pool-lambda") /\
    Runners.tagValue "Type" (Runners.fleetTags p) =
      Some (Runners.runnerTypeName (Runners.runnerType p)) /\
    Runners.tagValue "Owner" (Runners.fleetTags p) = Some (Runners.runnerOwner p) /\
    Runners.tagValue "ghr:environment" (Runners.fleetTags p) = None.
Proof.
  intros cloud p. split.
  - destruct (createRunner_fleetCommands cloud p) as [-> | (ami & ->)];
      repeat constructor.
  - repeat split.
    unfold Runners.tagValue, Runners.fleetTags. simpl.
    destruct (Runners.numberOfRunnersOf p =? 1)%Z; auto.
Qed.

(** C7 as stated fails on the configuration of runners.test.ts: the fleet
    command is sent, and its tag specification has no environment tag. *)
Lemma createRunner_sends_no_environment_tag :
  Runners.fleetCommands
    (snd (Runners.createRunner
            (Scenarios.cloudAnswering (Scenarios.fleetWithErrors [] (Some ["i-1234"])))
            (Scenarios.runnerConfig Runners.Org) [])) =
    [ Runners.createFleetCommand (Scenarios.runnerConfig Runners.Org) None ] /\
  map (fun s => map Runners.Key (Runners.Tags s))
      (Runners.TagSpecifications
         (Runners.createFleetCommand (Scenarios.runnerConfig Runners.Org) None)) =
    [ ["ghr:Application"; "ghr:created_by"; "Type"; "Owner"] ] /\
  existsb (String.eqb "ghr:environment")
          ["ghr:Application"; "ghr:created_by"; "Type"; "Owner"] = false.
Proof. repeat split. Qed.

(** ** The scale-down reaper (scale-down.ts) *)

Section ScaleDownAnswers.
Import ScaleDown.

(** What the upstream service answers to the calls of one instance, apart
    from the log: proof devices, read off the functions of the model. *)
Definition stateAnswer (w : Services) (r : RunnerList) (runnerId : option Z)
    : result exn (option RunnerState) :=
  let answer :=
    if isOrg r then getSelfHostedRunnerForOrg w runnerId (owner r)
    else match repoScope (owner r) with
         | Ok scope => getSelfHostedRunnerForRepo w runnerId (fst scope) (snd scope)
         | Throw e => Throw e
         end in
  match answer with
  | Ok state => Ok (Some state)
  | Throw (RequestError 404) => Ok None
  | Throw e => Throw e
  end.

Definition busyAnswer (w : Services) (r : RunnerList) (runnerId : option Z)
    : result exn bool :=
  match stateAnswer w r runnerId with
  | Ok None => Ok false
  | Ok (Some state) => Ok (busy state)
  | Throw e => Throw e
  end.

Definition deleteAnswer (w : Services) (r : RunnerList) (ghRunnerId : Z) : result exn Z :=
  if isOrg r then deleteSelfHostedRunnerFromOrg w ghRunnerId (owner r)
  else match repoScope (owner r) with
       | Ok scope => deleteSelfHostedRunnerFromRepo w ghRunnerId (fst scope) (snd scope)
       | Throw e => Throw e
       end.

Definition clientAnswer (w : Services) (r : RunnerList) : result exn unit :=
  match createAppClient w with
  | Ok _ =>
      match (if isOrg r then getOrgInstallation w (owner r)
             else match repoScope (owner r) with
                  | Ok scope => getRepoInstallation w (fst scope) (snd scope)
                  | Throw e => Throw e
                  end) with
      | Ok installationId => createInstallationClient w installationId
      | Throw e => Throw e
      end
  | Throw e => Throw e
  end.

Definition listAnswer (w : Services) (r : RunnerList) : result exn (list RunnerState) :=
  if isOrg r then listSelfHostedRunnersForOrg w (owner r)
  else match repoScope (owner r) with
       | Ok scope => listSelfHostedRunnersForRepo w (fst scope) (snd scope)
       | Throw e => Throw e
       end.

(** The values of a list of answers, or the first failure. *)
Fixpoint allOk {A} (l : list (result exn A)) : result exn (list A) :=
  match l with
  | [] => Ok []
  | r :: l' =>
      match r, allOk l' with
      | Ok a, Ok l'' => Ok (a :: l'')
      | Throw e, _ => Throw e
      | Ok _, Throw e => Throw e
      end
  end.

Lemma getGitHubSelfHostedRunnerState_answer w r runnerId s :
  fst (getGitHubSelfHostedRunnerState w r runnerId s) = stateAnswer w r runnerId.
Proof.
  unfold getGitHubSelfHostedRunnerState, stateAnswer, tryCatch, bind, request, liftResult.
  destruct (isOrg r).
  - destruct (getSelfHostedRunnerForOrg w runnerId (owner r)) as [st|e]; simpl; [reflexivity | ].
    destruct e as [n|status|m]; try reflexivity.
    destruct status as [|q|q]; try reflexivity.
    repeat (destruct q as [q|q|]; try reflexivity).
  - destruct (repoScope (owner r)) as [scope|e]; simpl.
    + destruct (getSelfHostedRunnerForRepo w runnerId _ _) as [st|e]; simpl; [reflexivity | ].
      destruct e as [n|status|m]; try reflexivity.
      destruct status as [|q|q]; try reflexivity.
      repeat (destruct q as [q|q|]; try reflexivity).
    + destruct e as [n|status|m]; try reflexivity.
      destruct status as [|q|q]; try reflexivity.
      repeat (destruct q as [q|q|]; try reflexivity).
Qed.

Lemma getGitHubRunnerBusyState_answer w r runnerId s :
  fst (getGitHubRunnerBusyState w r runnerId s) = busyAnswer w r runnerId.
Proof.
  unfold getGitHubRunnerBusyState, busyAnswer, bind.
  rewrite <- (getGitHubSelfHostedRunnerState_answer w r runnerId s).
  destruct (getGitHubSelfHostedRunnerState w r runnerId s) as [[[st|]|e] s1]; reflexivity.
Qed.

Lemma deleteSelfHostedRunner_answer w r ghRunnerId s :
  fst (deleteSelfHostedRunner w r ghRunnerId s) = deleteAnswer w r ghRunnerId.
Proof.
  unfold deleteSelfHostedRunner, deleteAnswer, bind, request, liftResult.
  destruct (isOrg r); [reflexivity | ].
  destruct (repoScope (owner r)); reflexivity.
Qed.

Lemma promiseAll_answers {A B} (f : A -> Run B) (answer : A -> result exn B) (l : list A) s :
  (forall a s, fst (f a s) = answer a) ->
  fst (promiseAll (map f l) s) = allOk (map answer l).
Proof.
  intros Hf. revert s. induction l as [|a l IH]; intros s; [reflexivity | ].
  simpl. specialize (Hf a s). destruct (f a s) as [r s1]. simpl in Hf. subst r.
  specialize (IH s1). destruct (promiseAll (map f l) s1) as [rs s2]. simpl in IH. subst rs.
  reflexivity.
Qed.

Lemma allOk_forallb {A B} (answer : A -> result exn B) (p : B -> bool) (l : list A) vs :
  allOk (map answer l) = Ok vs ->
  forallb p vs =
  forallb (fun a => match answer a with Ok v => p v | Throw _ => false end) l.
Proof.
  revert vs. induction l as [|a l IH]; intros vs H; simpl in H.
  - now inversion H.
  - destruct (answer a) as [v|e] eqn:Ha; [ | discriminate ].
    destruct (allOk (map answer l)) as [vs'|e]; [ | discriminate ].
    inversion H; subst vs. simpl. rewrite Ha. f_equal. now apply IH.
Qed.

Lemma allOk_throw_forallb {A B} (answer : A -> result exn B) (p : B -> bool) (l : list A) e :
  allOk (map answer l) = Throw e ->
  forallb (fun a => match answer a with Ok v => p v | Throw _ => false end) l = false.
Proof.
  induction l as [|a l IH]; intros H; simpl in H; [discriminate | ].
  simpl. destruct (answer a) as [v|e']; [ | reflexivity ].
  destruct (allOk (map answer l)) as [vs'|e'']; [discriminate | ].
  rewrite (IH H). apply andb_false_r.
Qed.
End ScaleDownAnswers.

Section ScaleDownLog.
Import ScaleDown.

Definition withLog (s : State) (l : list Call) : State :=
  {| clients := clients s; runners := runners s; log := l |}.

(** [steady P m]: [m] leaves the caches as they are, and appends to the log
    calls that satisfy [P]. *)
Definition steady {A} (P : Call -> Prop) (m : Run A) : Prop :=
  forall s, exists new, snd (m s) = withLog s (log s ++ new) /\ Forall P new.

Lemma withLog_withLog s l l' : withLog (withLog s l) l' = withLog s l'.
Proof. reflexivity. Qed.

Lemma withLog_id s : withLog s (log s) = s.
Proof. now destruct s. Qed.

Lemma steady_ret {A} P (a : A) : steady P (ret a).
Proof. intros s. exists []. simpl. now rewrite app_nil_r, withLog_id. Qed.

Lemma steady_throw {A} P e : steady P (@throw State exn A e).
Proof. intros s. exists []. simpl. now rewrite app_nil_r, withLog_id. Qed.

Lemma steady_liftResult {A} P (r : result exn A) : steady P (liftResult r).
Proof. intros s. exists []. simpl. now rewrite app_nil_r, withLog_id. Qed.

Lemma steady_request {A} (P : Call -> Prop) c (r : result exn A) : P c -> steady P (request c r).
Proof. intros Hc s. exists [c]. split; [reflexivity | now constructor]. Qed.

Lemma steady_bind {A B} P (m : Run A) (k : A -> Run B) :
  steady P m -> (forall a, steady P (k a)) -> steady P (bind m k).
Proof.
  intros Hm Hk s. unfold bind. destruct (Hm s) as (n1 & E1 & F1).
  destruct (m s) as [[a|e] s1]; simpl in *.
  - destruct (Hk a s1) as (n2 & E2 & F2). exists (n1 ++ n2).
    rewrite E2, E1. simpl. rewrite app_assoc. split; [reflexivity | now apply Forall_app].
  - now exists n1.
Qed.

Lemma steady_tryCatch {A} P (m : Run A) (h : exn -> Run A) :
  steady P m -> (forall e, steady P (h e)) -> steady P (tryCatch m h).
Proof.
  intros Hm Hh s. unfold tryCatch. destruct (Hm s) as (n1 & E1 & F1).
  destruct (m s) as [[a|e] s1]; simpl in *.
  - now exists n1.
  - destruct (Hh e s1) as (n2 & E2 & F2). exists (n1 ++ n2).
    rewrite E2, E1. simpl. rewrite app_assoc. split; [reflexivity | now apply Forall_app].
Qed.

Lemma steady_promiseAll {A} P (l : list (Run A)) :
  (forall m, In m l -> steady P m) -> steady P (promiseAll l).
Proof.
  induction l as [|m l IH]; intros Hl s.
  - exists []. simpl. now rewrite app_nil_r, withLog_id.
  - simpl. destruct (Hl m (or_introl eq_refl) s) as (n1 & E1 & F1).
    destruct (m s) as [r s1]. simpl in E1.
    destruct (IH (fun m' H => Hl m' (or_intror H)) s1) as (n2 & E2 & F2).
    destruct (promiseAll l s1) as [rs s2]. simpl in *.
    exists (n1 ++ n2). rewrite E2, E1. simpl. rewrite app_assoc.
    split; [reflexivity | now apply Forall_app].
Qed.

Lemma steady_weaken {A} (P Q : Call -> Prop) (m : Run A) :
  (forall c, P c -> Q c) -> steady P m -> steady Q m.
Proof.
  intros HPQ Hm s. destruct (Hm s) as (new & E & F). exists new. split; [exact E | ].
  eapply List.Forall_impl; eauto.
Qed.

Lemma steady_emits {A} P (m : Run A) : steady P m -> emits log P m.
Proof.
  intros Hm s. destruct (Hm s) as (new & E & F). exists new. now rewrite E.
Qed.

(** The calls that neither terminate an instance, nor de-register a
    runner, nor clear a tag. *)
Definition silent (c : Call) : Prop :=
  match c with
  | TerminateRunner _ | DeleteSelfHostedRunnerFromOrg _ _
  | DeleteSelfHostedRunnerFromRepo _ _ _ | UntagInstance _ _ => False
  | _ => True
  end.

Definition notTerminate (c : Call) : Prop :=
  match c with TerminateRunner _ => False | _ => True end.

Lemma silent_notTerminate c : silent c -> notTerminate c.
Proof. now destruct c. Qed.

Lemma terminated_app l l' : terminated (l ++ l') = terminated l ++ terminated l'.
Proof. apply omap_app. Qed.

Lemma deregistered_app l l' : deregistered (l ++ l') = deregistered l ++ deregistered l'.
Proof. apply omap_app. Qed.

Lemma untagged_app l l' : untagged (l ++ l') = untagged l ++ untagged l'.
Proof. apply omap_app. Qed.

Lemma terminated_none new : Forall notTerminate new -> terminated new = [].
Proof.
  induction 1 as [|c new Hc _ IH]; [reflexivity | ].
  destruct c; simpl in *; try exact IH. contradiction.
Qed.

Lemma silent_none new :
  Forall silent new -> terminated new = [] /\ deregistered new = [] /\ untagged new = [].
Proof.
  induction 1 as [|c new Hc _ (IH1 & IH2 & IH3)]; [repeat split | ].
  destruct c; simpl in *; try contradiction; repeat split; assumption.
Qed.

Lemma steady_getGitHubSelfHostedRunnerState w r runnerId :
  steady silent (getGitHubSelfHostedRunnerState w r runnerId).
Proof.
  unfold getGitHubSelfHostedRunnerState.
  apply steady_tryCatch.
  - apply steady_bind; [ | intros; apply steady_ret ].
    destruct (isOrg r); [now apply steady_request | ].
    apply steady_bind; [apply steady_liftResult | intros; now apply steady_request ].
  - intros e. destruct e as [n|status|m]; try apply steady_throw.
    destruct (decide (status = 404%Z)) as [->|Hne]; [apply steady_ret | ].
    destruct status as [|q|q]; try apply steady_throw.
    repeat (destruct q as [q|q|]; try apply steady_throw). contradiction.
Qed.

Lemma steady_getGitHubRunnerBusyState w r runnerId :
  steady silent (getGitHubRunnerBusyState w r runnerId).
Proof.
  unfold getGitHubRunnerBusyState.
  apply steady_bind; [apply steady_getGitHubSelfHostedRunnerState | ].
  intros [st|]; apply steady_ret.
Qed.

Lemma steady_deleteSelfHostedRunner w r ghRunnerId :
  steady notTerminate (deleteSelfHostedRunner w r ghRunnerId).
Proof.
  unfold deleteSelfHostedRunner. destruct (isOrg r); [now apply steady_request | ].
  apply steady_bind; [apply steady_liftResult | intros; now apply steady_request ].
Qed.

Lemma steady_markOrphan w i : steady silent (markOrphan w i).
Proof.
  unfold markOrphan. apply steady_tryCatch; [now apply steady_request | ].
  intros; apply steady_ret.
Qed.

Lemma emits_getOrCreateOctokit w r : emits log silent (getOrCreateOctokit w r).
Proof.
  intros s. unfold getOrCreateOctokit. destruct (bool_decide _).
  - exists []. simpl. now rewrite app_nil_r.
  - revert s. apply emits_bind; [apply steady_emits; now apply steady_request | intros _].
    apply emits_bind.
    + destruct (isOrg r); [apply steady_emits; now apply steady_request | ].
      apply steady_emits, steady_bind; [apply steady_liftResult | ].
      intros; now apply steady_request.
    + intros i. apply emits_bind; [apply steady_emits; now apply steady_request | intros _].
      intros s. exists []. simpl. now rewrite app_nil_r.
Qed.

Lemma emits_listGitHubRunners w r : emits log silent (listGitHubRunners w r).
Proof.
  intros s. unfold listGitHubRunners. destruct (runners s !! owner r).
  - exists []. simpl. now rewrite app_nil_r.
  - revert s. apply emits_bind; [apply emits_getOrCreateOctokit | intros _].
    apply emits_bind.
    + destruct (isOrg r); [apply steady_emits; now apply steady_request | ].
      apply steady_emits, steady_bind; [apply steady_liftResult | ].
      intros; now apply steady_request.
    + intros gh. apply emits_bind; [ | intros; apply emits_ret ].
      intros s. exists []. simpl. now rewrite app_nil_r.
Qed.
End ScaleDownLog.

Section ScaleDownReaper.
Import ScaleDown.

Lemma promiseAll_run {A B} (P : Call -> Prop) (f : A -> Run B) (answer : A -> result exn B)
    (l : list A) s :
  (forall a, steady P (f a)) ->
  (forall a s, fst (f a s) = answer a) ->
  exists new,
    promiseAll (map f l) s = (allOk (map answer l), withLog s (log s ++ new)) /\
    Forall P new.
Proof.
  intros Hs Ha.
  destruct (steady_promiseAll P (map f l)) with (s := s) as (new & E & F).
  { intros m Hm. apply in_map_iff in Hm as (a & <- & _). apply Hs. }
  exists new. split; [ | exact F ].
  rewrite <- E, <- (promiseAll_answers f answer l s Ha).
  now destruct (promiseAll (map f l) s).
Qed.

(** Every matched runner is idle on the direct query, and every
    de-registration answers 204. *)
Definition allIdle (w : Services) (r : RunnerList) (ids : list Z) : bool :=
  forallb (fun i => match busyAnswer w r (Some i) with
                    | Ok b => negb b
                    | Throw _ => false
                    end) ids.

Definition allDeleted (w : Services) (r : RunnerList) (ids : list Z) : bool :=
  forallb (fun i => match deleteAnswer w r i with
                    | Ok status => (status =? 204)%Z
                    | Throw _ => false
                    end) ids.

(** The body of the [try] of [removeRunner]: it ends in a state whose
    log has gained the termination of the instance exactly when every
    runner is idle and every de-registration answered 204. *)
Lemma removeRunner_body w r ids s :
  exists new,
    snd (tryCatch
           (bind (promiseAll (map (fun i => getGitHubRunnerBusyState w r (Some i)) ids))
              (fun states =>
                 if forallb negb states then
                   bind (promiseAll (map (deleteSelfHostedRunner w r) ids))
                     (fun statuses =>
                        if forallb (fun status => (status =? 204)%Z) statuses
                        then request (TerminateRunner (instanceId r))
                               (terminateRunner w (instanceId r))
                        else ret tt)
                 else ret tt))
           (fun _ => ret tt) s) =
    withLog s (log s ++ new ++
               if allIdle w r ids && allDeleted w r ids
               then [TerminateRunner (instanceId r)] else []) /\
    Forall notTerminate new.
Proof.
  destruct (promiseAll_run silent (fun i => getGitHubRunnerBusyState w r (Some i))
              (fun i => busyAnswer w r (Some i)) ids s) as (n1 & E1 & F1).
  { intros; apply steady_getGitHubRunnerBusyState. }
  { intros; apply getGitHubRunnerBusyState_answer. }
  apply (List.Forall_impl _ silent_notTerminate) in F1.
  unfold tryCatch, bind at 1. rewrite E1.
  destruct (allOk (map (fun i => busyAnswer w r (Some i)) ids)) as [states|e] eqn:Hstates.
  - rewrite (allOk_forallb _ negb ids states Hstates). fold (allIdle w r ids).
    destruct (allIdle w r ids); simpl.
    + destruct (promiseAll_run notTerminate (deleteSelfHostedRunner w r) (deleteAnswer w r) ids
                  (withLog s (log s ++ n1))) as (n2 & E2 & F2).
      { intros; apply steady_deleteSelfHostedRunner. }
      { intros; apply deleteSelfHostedRunner_answer. }
      unfold bind. rewrite E2.
      destruct (allOk (map (deleteAnswer w r) ids)) as [statuses|e] eqn:Hstatuses.
      * rewrite (allOk_forallb _ (fun status => (status =? 204)%Z) ids statuses Hstatuses).
        fold (allDeleted w r ids). exists (n1 ++ n2).
        split; [ | now apply Forall_app ].
        destruct (allDeleted w r ids); simpl.
        -- unfold request. destruct (terminateRunner w (instanceId r)); simpl;
             unfold withLog; simpl; now rewrite <- !app_assoc.
        -- unfold withLog; simpl. now rewrite app_nil_r, <- app_assoc.
      * exists (n1 ++ n2). split; [ | now apply Forall_app ].
        unfold allDeleted.
        rewrite (allOk_throw_forallb _ (fun status => (status =? 204)%Z) ids e Hstatuses).
        simpl. unfold withLog; simpl. now rewrite app_nil_r, <- app_assoc.
    + exists n1. split; [ | exact F1 ]. now rewrite app_nil_r.
  - exists n1. split; [ | exact F1 ]. unfold allIdle.
    rewrite (allOk_throw_forallb _ negb ids e Hstates). simpl. now rewrite app_nil_r.
Qed.

Lemma removeRunner_terminated w r ids s :
  terminated (log (snd (removeRunner w r ids s))) =
  terminated (log s) ++
  (if isOk (fst (getOrCreateOctokit w r s)) && allIdle w r ids && allDeleted w r ids
   then [instanceId r] else []).
Proof.
  unfold removeRunner, bind at 1.
  destruct (emits_getOrCreateOctokit w r s) as (n0 & E0 & F0).
  apply (List.Forall_impl _ silent_notTerminate) in F0.
  destruct (getOrCreateOctokit w r s) as [[[]|e] s1]; simpl in *.
  - destruct (removeRunner_body w r ids s1) as (new & -> & F). simpl.
    rewrite E0, !terminated_app, (terminated_none n0 F0), (terminated_none new F).
    rewrite app_nil_r. simpl. now destruct (allIdle w r ids && allDeleted w r ids).
  - rewrite E0, terminated_app, (terminated_none n0 F0). reflexivity.
Qed.
Lemma bind_ret_snd {S E A B} (m : M S E A) (b : B) s :
  snd (bind m (fun _ => ret b) s) = snd (m s).
Proof. unfold bind. now destruct (m s) as [[a|e] s1]. Qed.

(** The decision of one iteration of the loop: the instance is matched,
    old enough, reached with no idle quota left, the upstream client is
    there, every matched runner is idle on the direct query and every
    de-registration answers 204. *)
Definition removes (env : Env) (w : Services) (idleCounter : Z) (r : RunnerList)
    (s : State) : bool :=
  match listGitHubRunners w r s with
  | (Ok ghRunners, s1) =>
      negb (length (matching r ghRunners) =? 0)%nat
      && runnerMinimumTimeExceeded env r
      && negb (0 <? idleCounter)%Z
      && isOk (fst (getOrCreateOctokit w r s1))
      && allIdle w r (map id (matching r ghRunners))
      && allDeleted w r (map id (matching r ghRunners))
  | (Throw _, _) => false
  end.

Lemma evaluateRunner_terminated env w c r s :
  terminated (log (snd (evaluateRunner env w c r s))) =
  terminated (log s) ++ (if removes env w c r s then [instanceId r] else []).
Proof.
  unfold evaluateRunner, removes, bind at 1.
  destruct (emits_listGitHubRunners w r s) as (n0 & E0 & F0).
  apply (List.Forall_impl _ silent_notTerminate) in F0.
  destruct (listGitHubRunners w r s) as [[gh|e] s1]; simpl in E0.
  - destruct (negb (length (matching r gh) =? 0)%nat); simpl.
    + destruct (runnerMinimumTimeExceeded env r); simpl.
      * destruct (0 <? c)%Z; simpl.
        -- rewrite E0, terminated_app, (terminated_none n0 F0); now rewrite ?app_nil_r.
        -- rewrite bind_ret_snd, removeRunner_terminated.
           rewrite E0, terminated_app, (terminated_none n0 F0), app_nil_r.
           now rewrite <- !andb_assoc.
      * rewrite E0, terminated_app, (terminated_none n0 F0); now rewrite ?app_nil_r.
    + destruct (bootTimeExceeded env r); simpl.
      * rewrite bind_ret_snd.
        destruct (steady_markOrphan w (instanceId r) s1) as (n1 & -> & F1).
        apply (List.Forall_impl _ silent_notTerminate) in F1. simpl.
        rewrite E0, !terminated_app, (terminated_none n0 F0), (terminated_none n1 F1);
          now rewrite ?app_nil_r.
      * rewrite E0, terminated_app, (terminated_none n0 F0); now rewrite ?app_nil_r.
  - simpl. rewrite E0, terminated_app, (terminated_none n0 F0); now rewrite ?app_nil_r.
Qed.

(** The instances in the order the two loops of
    [evaluateAndRemoveRunners] reach them. *)
Definition evictionOrder (env : Env) (ec2Runners : list RunnerList) : list RunnerList :=
  concat (map (ec2RunnersFiltered env ec2Runners) (ownerTags ec2Runners)).

Lemma foldM_app {S E A B} (f : B -> A -> M S E B) (l1 l2 : list A) (b : B) s :
  foldM f (l1 ++ l2) b s = bind (foldM f l1 b) (foldM f l2) s.
Proof.
  revert b s. induction l1 as [|x l1 IH]; intros b s; simpl; [reflexivity | ].
  unfold bind. destruct (f b x s) as [[b'|e] s1]; [apply IH | reflexivity].
Qed.

Lemma evaluateFrom_flat env w ec2Runners c s :
  evaluateFrom env w ec2Runners c s =
  foldM (evaluateRunner env w) (evictionOrder env ec2Runners) c s.
Proof.
  unfold evaluateFrom, evictionOrder.
  generalize (ownerTags ec2Runners) as tags. intros tags. revert c s.
  induction tags as [|t tags IH]; intros c s; simpl; [reflexivity | ].
  rewrite foldM_app. unfold bind.
  destruct (foldM (evaluateRunner env w) (ec2RunnersFiltered env ec2Runners t) c s)
    as [[c'|e] s1]; [apply IH | reflexivity].
Qed.

Lemma foldM_terminated env w l c s i :
  In i (terminated (log (snd (foldM (evaluateRunner env w) l c s)))) ->
  In i (terminated (log s)) \/
  exists before r after c1 s1,
    l = before ++ r :: after /\ instanceId r = i /\
    foldM (evaluateRunner env w) before c s = (Ok c1, s1) /\
    removes env w c1 r s1 = true.
Proof.
  revert c s. induction l as [|x l IH]; intros c s Hi; [now left | ].
  simpl in Hi. unfold bind in Hi.
  pose proof (evaluateRunner_terminated env w c x s) as Hx.
  destruct (evaluateRunner env w c x s) as [[c'|e] sx] eqn:Hstep; simpl in Hx.
  - apply IH in Hi as [Hi | (before & r & after & c1 & s1 & -> & Hr & Hrun & Hrem)].
    + rewrite Hx in Hi. apply in_app_or in Hi as [Hi | Hi]; [now left | ].
      destruct (removes env w c x s) eqn:Hrem; [ | contradiction ].
      destruct Hi as [<- | []]. right. exists [], x, l, c, s. repeat split. exact Hrem.
    + right. exists (x :: before), r, after, c1, s1. repeat split; [exact Hr | | exact Hrem].
      simpl. now rewrite (bind_ok _ _ _ _ _ Hstep).
  - simpl in Hi. rewrite Hx in Hi. apply in_app_or in Hi as [Hi | Hi]; [now left | ].
    destruct (removes env w c x s) eqn:Hrem; [ | contradiction ].
    destruct Hi as [<- | []]. right. exists [], x, l, c, s. repeat split. exact Hrem.
Qed.
End ScaleDownReaper.

Section ScaleDownConditions.
Import ScaleDown.

Lemma allIdle_spec w r ids :
  allIdle w r ids = true ->
  forall i, In i ids -> forall s0, fst (getGitHubRunnerBusyState w r (Some i) s0) = Ok false.
Proof.
  intros H i Hi s0. rewrite getGitHubRunnerBusyState_answer.
  unfold allIdle in H. rewrite forallb_forall in H. specialize (H i Hi).
  destruct (busyAnswer w r (Some i)) as [[|]|e]; simpl in H; congruence.
Qed.

Lemma allDeleted_spec w r ids :
  allDeleted w r ids = true ->
  forall i, In i ids -> forall s0, fst (deleteSelfHostedRunner w r i s0) = Ok 204%Z.
Proof.
  intros H i Hi s0. rewrite deleteSelfHostedRunner_answer.
  unfold allDeleted in H. rewrite forallb_forall in H. specialize (H i Hi).
  destruct (deleteAnswer w r i) as [status|e]; [ | discriminate ].
  apply Z.eqb_eq in H. now subst.
Qed.

Lemma removes_spec env w c r s :
  removes env w c r s = true ->
  exists ghRunners s',
    listGitHubRunners w r s = (Ok ghRunners, s') /\
    matching r ghRunners <> [] /\
    runnerMinimumTimeExceeded env r = true /\
    (c <= 0)%Z /\
    (forall g, In g (matching r ghRunners) ->
       forall s0, fst (getGitHubRunnerBusyState w r (Some (id g)) s0) = Ok false) /\
    (forall g, In g (matching r ghRunners) ->
       forall s0, fst (deleteSelfHostedRunner w r (id g) s0) = Ok 204%Z).
Proof.
  unfold removes. destruct (listGitHubRunners w r s) as [[gh|e] s1]; [ | discriminate ].
  intros H. repeat (apply andb_prop in H as [H ?]).
  exists gh, s1. repeat split.
  - intros Hnil. rewrite Hnil in H. discriminate.
  - assumption.
  - apply negb_true_iff, Z.ltb_ge in H3. exact H3.
  - intros g Hg. apply (allIdle_spec w r _ H1). now apply in_map.
  - intros g Hg. apply (allDeleted_spec w r _ H0). now apply in_map.
Qed.

Lemma removes_not_deleted env w c r s ghRunners s' g status :
  listGitHubRunners w r s = (Ok ghRunners, s') ->
  In g (matching r ghRunners) ->
  fst (deleteSelfHostedRunner w r (id g) s') = Ok status ->
  status <> 204%Z ->
  removes env w c r s = false.
Proof.
  intros Hl Hg Hd Hs. unfold removes. rewrite Hl.
  rewrite deleteSelfHostedRunner_answer in Hd.
  replace (allDeleted w r (map id (matching r ghRunners))) with false;
    [apply andb_false_r | ].
  symmetry. apply not_true_is_false. intros Hall.
  unfold allDeleted in Hall. rewrite forallb_forall in Hall.
  specialize (Hall (id g) (in_map id _ _ Hg)). rewrite Hd in Hall.
  apply Z.eqb_eq in Hall. contradiction.
Qed.
End ScaleDownConditions.

Lemma notBusy_on_query w r runnerId s :
  fst (ScaleDown.getGitHubRunnerBusyState w r runnerId s) = Ok false ->
  fst (ScaleDown.getGitHubSelfHostedRunnerState w r runnerId s) = Ok None \/
  exists state,
    fst (ScaleDown.getGitHubSelfHostedRunnerState w r runnerId s) = Ok (Some state) /\
    ScaleDown.busy state = false.
Proof.
  unfold ScaleDown.getGitHubRunnerBusyState, bind.
  destruct (ScaleDown.getGitHubSelfHostedRunnerState w r runnerId s) as [[[state| ]|e] s1];
    simpl; intros H.
  - right. exists state. split; [reflexivity | congruence].
  - now left.
  - discriminate.
Qed.

(** C4 (as amended).  The loop of Phase 2, over the instances in whatever
    order and from whatever state of the caches and of the log: every
    instance it terminates is one it reached in a state where upstream
    runners match it, its minimum running time has elapsed, the idle
    counter is exhausted, every matched runner, asked for directly, is
    either not busy or not found (a 404, which the code reads as not
    busy), and every de-registration of a matched runner answers 204.
    So it is for a whole pass, whose order is the eviction order when
    every instance has a launch time.  And an instance with a
    de-registration that answers another status is not terminated by its
    iteration. *)
Theorem evaluateAndRemoveRunners_terminates_only_idle :
  forall (env : ScaleDown.Env) (w : ScaleDown.Services),
    (forall (order : list ScaleDown.RunnerList) (c : Z) (s : ScaleDown.State) i,
       In i (ScaleDown.terminated
               (ScaleDown.log (snd (foldM (ScaleDown.evaluateRunner env w) order c s)))) ->
       In i (ScaleDown.terminated (ScaleDown.log s)) \/
       exists before r after idleCounter s1 ghRunners s',
         order = before ++ r :: after /\
         ScaleDown.instanceId r = i /\
         foldM (ScaleDown.evaluateRunner env w) before c s = (Ok idleCounter, s1) /\
         ScaleDown.listGitHubRunners w r s1 = (Ok ghRunners, s') /\
         ScaleDown.matching r ghRunners <> [] /\
         ScaleDown.runnerMinimumTimeExceeded env r = true /\
         (idleCounter <= 0)%Z /\
         (forall g, In g (ScaleDown.matching r ghRunners) ->
            forall s0,
              fst (ScaleDown.getGitHubSelfHostedRunnerState w r
                     (Some (ScaleDown.id g)) s0) = Ok None \/
              exists state,
                fst (ScaleDown.getGitHubSelfHostedRunnerState w r
                       (Some (ScaleDown.id g)) s0) = Ok (Some state) /\
                ScaleDown.busy state = false) /\
         (forall g, In g (ScaleDown.matching r ghRunners) ->
            forall s0, fst (ScaleDown.deleteSelfHostedRunner w r (ScaleDown.id g) s0) =
                       Ok 204%Z)) /\
    (forall (ec2Runners : list ScaleDown.RunnerList) (s : ScaleDown.State),
       (forall r, In r ec2Runners -> ScaleDown.launchTime r <> None) ->
       snd (ScaleDown.evaluateAndRemoveRunners env w ec2Runners s) =
       snd (foldM (ScaleDown.evaluateRunner env w) (evictionOrder env ec2Runners)
              (ScaleDown.getIdleRunnerCount env) s)) /\
    (forall idleCounter r s ghRunners s' g status,
       ScaleDown.listGitHubRunners w r s = (Ok ghRunners, s') ->
       In g (ScaleDown.matching r ghRunners) ->
       fst (ScaleDown.deleteSelfHostedRunner w r (ScaleDown.id g) s') = Ok status ->
       status <> 204%Z ->
       ScaleDown.terminated
         (ScaleDown.log (snd (ScaleDown.evaluateRunner env w idleCounter r s))) =
       ScaleDown.terminated (ScaleDown.log s)).
Proof.
  intros env w. split; [ | split ].
  - intros order c s i Hi.
    apply foldM_terminated in Hi
      as [Hi | (before & r & after & c1 & s1 & Ho & Hr & Hrun & Hrem)]; [now left | right].
    apply removes_spec in Hrem as (gh & s' & Hl & Hm & Ht & Hc & Hb & Hd).
    exists before, r, after, c1, s1, gh, s'.
    split; [exact Ho | ]. split; [exact Hr | ]. split; [exact Hrun | ].
    split; [exact Hl | ]. split; [exact Hm | ]. split; [exact Ht | ].
    split; [exact Hc | ]. split; [ | exact Hd ].
    intros g Hg s0. apply notBusy_on_query, (Hb g Hg s0).
  - intros ec2Runners s _. unfold ScaleDown.evaluateAndRemoveRunners.
    now rewrite bind_ret_snd, evaluateFrom_flat.
  - intros c r s gh s' g status Hl Hg Hd Hs.
    rewrite evaluateRunner_terminated.
    rewrite (removes_not_deleted env w c r s gh s' g status Hl Hg Hd Hs).
    apply app_nil_r.
Qed.

(** C4 (as amended), on seed scenario 6 with no idle quota: "i-1" is
    terminated, and it was reached old enough and with the idle counter
    exhausted; and when the de-registrations answer 500 the iteration on
    "i-1" terminates nothing. *)
Lemma evaluateAndRemoveRunners_terminates_only_idle_witness :
  In "i-1"
    (ScaleDown.terminated
       (ScaleDown.log
          (snd (ScaleDown.evaluateAndRemoveRunners (Scenarios.reaperEnv 0 "oldest_first")
                  (Scenarios.reaperServices 204) Scenarios.fourInstances ScaleDown.reset)))) /\
  (exists r idleCounter,
     ScaleDown.instanceId r = "i-1" /\
     ScaleDown.runnerMinimumTimeExceeded (Scenarios.reaperEnv 0 "oldest_first") r = true /\
     (idleCounter <= 0)%Z) /\
  ScaleDown.terminated
    (ScaleDown.log
       (snd (ScaleDown.evaluateRunner (Scenarios.reaperEnv 0 "oldest_first")
               (Scenarios.reaperServices 500) 0 (Scenarios.instance 1) ScaleDown.reset))) =
    [].
Proof.
  assert (Hin : In "i-1"
                  (ScaleDown.terminated
                     (ScaleDown.log
                        (snd (ScaleDown.evaluateAndRemoveRunners
                                (Scenarios.reaperEnv 0 "oldest_first")
                                (Scenarios.reaperServices 204) Scenarios.fourInstances
                                ScaleDown.reset)))))
    by (vm_compute; auto 6).
  split; [exact Hin | ]. split.
  - destruct (evaluateAndRemoveRunners_terminates_only_idle
                (Scenarios.reaperEnv 0 "oldest_first") (Scenarios.reaperServices 204))
      as (Honly & Hpass & _).
    rewrite (Hpass Scenarios.fourInstances ScaleDown.reset) in Hin;
      [ | intros r Hr; simpl in Hr; decompose [or] Hr; try contradiction; subst;
          discriminate ].
    destruct (Honly _ _ _ _ Hin)
      as [[] | (before & r & after & idleCounter & s & ghRunners & s' & _ & Hi & _ & _ & _
                & Hold & Hquota & _)].
    exists r, idleCounter. split; [exact Hi | split; [exact Hold | exact Hquota] ].
  - destruct (evaluateAndRemoveRunners_terminates_only_idle
                (Scenarios.reaperEnv 0 "oldest_first") (Scenarios.reaperServices 500))
      as (_ & _ & Hnot).
    apply (Hnot 0%Z (Scenarios.instance 1) ScaleDown.reset Scenarios.fourUpstream
             (snd (ScaleDown.listGitHubRunners (Scenarios.reaperServices 500)
                     (Scenarios.instance 1) ScaleDown.reset))
             (Scenarios.upstreamRunner 1) 500%Z).
    + vm_compute. reflexivity.
    + vm_compute. auto.
    + rewrite deleteSelfHostedRunner_answer. vm_compute. reflexivity.
    + discriminate.
Defined.

(** C4 as stated fails when a matched runner is gone on the direct query:
    with no idle quota, "i-1" old enough and registered upstream as runner
    101, a direct query of runner 101 that answers 404 and a
    de-registration that answers 204, "i-1" is terminated although no
    runner reported busy = false: the direct query found none. *)
Lemma evaluateAndRemoveRunners_terminates_on_404 :
  ScaleDown.getSelfHostedRunnerForOrg Scenarios.vanishedServices (Some 101%Z)
    (Some "Codertocat") = Throw (RequestError 404) /\
  map ScaleDown.id (ScaleDown.matching (Scenarios.instance 1) Scenarios.fourUpstream) =
    [101%Z] /\
  fst (ScaleDown.getGitHubSelfHostedRunnerState Scenarios.vanishedServices
         (Scenarios.instance 1) (Some 101%Z) ScaleDown.reset) = Ok None /\
  ScaleDown.terminated
    (ScaleDown.log
       (snd (ScaleDown.evaluateAndRemoveRunners (Scenarios.reaperEnv 0 "oldest_first")
               Scenarios.vanishedServices [Scenarios.instance 1] ScaleDown.reset))) =
    ["i-1"].
Proof. repeat split; vm_compute; reflexivity. Qed.

(** ** The eviction order *)

Lemma sorted_perm_unique {A} (R : A -> A -> Prop) (l1 l2 : list A) :
  StronglySorted R l1 -> StronglySorted R l2 -> Permutation l1 l2 ->
  (forall a b, In a l1 -> In b l1 -> R a b -> R b a -> a = b) ->
  l1 = l2.
Proof.
  intros H1. revert l2. induction H1 as [|a l1 H1 IH Ha]; intros l2 H2 Hp Hanti.
  - apply Permutation_nil in Hp. now subst.
  - destruct H2 as [|b l2 H2 Hb].
    + apply Permutation_sym, Permutation_nil in Hp. discriminate.
    + assert (a = b) as ->.
      { assert (Hin_a : In a (b :: l2)) by (eapply Permutation_in; [exact Hp | now left]).
        assert (Hin_b : In b (a :: l1))
          by (eapply Permutation_in; [apply Permutation_sym; exact Hp | now left]).
        destruct Hin_a as [Hab | Hin_a]; [now subst | ].
        destruct Hin_b as [Hab | Hin_b]; [now subst | ].
        rewrite List.Forall_forall in Ha, Hb.
        apply Hanti; simpl; auto. }
      f_equal. apply IH; [exact H2 | eapply Permutation_cons_inv; exact Hp | ].
      intros x y Hx Hy. apply Hanti; simpl; auto.
Qed.

Section EvictionOrder.
Import ScaleDown.
Local Open Scope Z_scope.

Lemma oldestFirst_before a b ta tb :
  launchTime a = Some ta -> launchTime b = Some tb ->
  (before oldestFirstStrategy a b <-> tb <= ta).
Proof.
  intros Ha Hb. unfold before, oldestFirstStrategy. rewrite Ha, Hb.
  destruct (Z.ltb_spec ta tb); [lia | ].
  destruct (Z.ltb_spec tb ta); lia.
Qed.

Lemma oldestFirst_orders (l : list RunnerList) :
  (forall r, In r l -> exists t, launchTime r = Some t) ->
  ordersList oldestFirstStrategy l.
Proof.
  intros Ht. split.
  - intros a b Ha Hb. destruct (Ht a Ha) as (ta & Hta), (Ht b Hb) as (tb & Htb).
    rewrite (oldestFirst_before a b ta tb Hta Htb), (oldestFirst_before b a tb ta Htb Hta). lia.
  - intros a b c Ha Hb Hc.
    destruct (Ht a Ha) as (ta & Hta), (Ht b Hb) as (tb & Htb), (Ht c Hc) as (tc & Htc).
    rewrite (oldestFirst_before a b ta tb Hta Htb), (oldestFirst_before b c tb tc Htb Htc),
      (oldestFirst_before a c ta tc Hta Htc). lia.
Qed.

(** Four instances launched at four different times are sorted newest
    first, whatever their order in the input. *)
Lemma sortBy_oldestFirst_four (l : list RunnerList) r1 r2 r3 r4 t1 t2 t3 t4 :
  Permutation l [r1; r2; r3; r4] ->
  launchTime r1 = Some t1 -> launchTime r2 = Some t2 ->
  launchTime r3 = Some t3 -> launchTime r4 = Some t4 ->
  t1 < t2 -> t2 < t3 -> t3 < t4 ->
  sortBy oldestFirstStrategy l = [r4; r3; r2; r1].
Proof.
  intros Hp H1 H2 H3 H4 L12 L23 L34.
  assert (Hin : forall r, In r l -> r = r1 \/ r = r2 \/ r = r3 \/ r = r4).
  { intros r Hr. apply (Permutation_in _ Hp) in Hr. simpl in Hr. intuition auto. }
  assert (Hdef : forall r, In r l -> exists t, launchTime r = Some t).
  { intros r Hr. destruct (Hin r Hr) as [-> | [-> | [-> | ->]]]; eauto. }
  apply (sorted_perm_unique (before oldestFirstStrategy)).
  - apply sortBy_sorted, oldestFirst_orders, Hdef.
  - repeat (apply SSorted_cons || apply SSorted_nil || apply List.Forall_cons
            || apply List.Forall_nil);
      (eapply (fun ta tb Ha Hb => proj2 (oldestFirst_before _ _ ta tb Ha Hb));
       [eassumption | eassumption | lia]).
  - rewrite <- (sortBy_perm oldestFirstStrategy l), Hp.
    change [r4; r3; r2; r1] with (rev [r1; r2; r3; r4]). apply Permutation_rev.
  - intros a b Ha Hb Hab Hba.
    apply (Permutation_in _ (Permutation_sym (sortBy_perm oldestFirstStrategy l))) in Ha, Hb.
    destruct (Hin a Ha) as [-> | [-> | [-> | ->]]], (Hin b Hb) as [-> | [-> | [-> | ->]]];
      try reflexivity; exfalso;
      (eapply (fun ta tb Ha Hb => proj1 (oldestFirst_before _ _ ta tb Ha Hb)) in Hab;
       [ | eassumption | eassumption ]);
      (eapply (fun ta tb Ha Hb => proj1 (oldestFirst_before _ _ ta tb Ha Hb)) in Hba;
       [ | eassumption | eassumption ]); lia.
Qed.

Lemma ownerTags_same (l : list RunnerList) o :
  l <> [] -> (forall r, In r l -> owner r = o) -> ownerTags l = [o].
Proof.
  induction l as [|r l IH]; intros Hne Ho; [contradiction | ].
  simpl. rewrite (Ho r (or_introl eq_refl)). f_equal.
  destruct l as [|r' l']; [reflexivity | ].
  rewrite IH; [ | discriminate | intros x Hx; apply Ho; now right ].
  simpl. now rewrite bool_decide_eq_true_2.
Qed.

Lemma filter_same_owner (l : list RunnerList) o :
  (forall r, In r l -> owner r = o) ->
  List.filter (fun runner => bool_decide (owner runner = o)) l = l.
Proof.
  induction l as [|r l IH]; intros Ho; [reflexivity | ].
  simpl. rewrite bool_decide_eq_true_2 by (apply Ho; now left).
  f_equal. apply IH. intros x Hx. apply Ho. now right.
Qed.

Lemma evictionOrder_four env (l : list RunnerList) o r1 r2 r3 r4 t1 t2 t3 t4 :
  getEvictionStrategy env = "oldest_first" ->
  Permutation l [r1; r2; r3; r4] ->
  (forall r, In r [r1; r2; r3; r4] -> owner r = o) ->
  launchTime r1 = Some t1 -> launchTime r2 = Some t2 ->
  launchTime r3 = Some t3 -> launchTime r4 = Some t4 ->
  t1 < t2 -> t2 < t3 -> t3 < t4 ->
  evictionOrder env l = [r4; r3; r2; r1].
Proof.
  intros Hs Hp Ho H1 H2 H3 H4 L12 L23 L34.
  assert (Ho' : forall r, In r l -> owner r = o).
  { intros r Hr. apply Ho. eapply Permutation_in; eauto. }
  unfold evictionOrder. rewrite (ownerTags_same l o); [ | | exact Ho' ].
  - simpl. rewrite app_nil_r. unfold ec2RunnersFiltered, strategy. rewrite Hs. simpl.
    rewrite filter_same_owner by exact Ho'.
    eapply sortBy_oldestFirst_four; eauto.
  - intros ->. apply Permutation_nil in Hp. discriminate.
Qed.
End EvictionOrder.

(** ** The caches of a pass *)

Section ScaleDownCaches.
Import ScaleDown.
Local Open Scope Z_scope.

(** The upstream runners of the scope [o] are cached, with the client. *)
Definition warm (o : option string) (gh : list RunnerState) (s : State) : Prop :=
  runners s !! o = Some gh /\ o ∈ clients s.

(** Nothing is cached for the scope [o]. *)
Definition cold (o : option string) (s : State) : Prop :=
  runners s !! o = None /\ o ∉ clients s.

Lemma cold_reset o : cold o reset.
Proof. split; [apply lookup_empty | apply not_elem_of_empty]. Qed.

Lemma getOrCreateOctokit_hit w r s :
  owner r ∈ clients s -> getOrCreateOctokit w r s = (Ok tt, s).
Proof. intros H. unfold getOrCreateOctokit. now rewrite bool_decide_eq_true_2. Qed.

Lemma getOrCreateOctokit_miss w r s :
  owner r ∉ clients s ->
  exists new,
    Forall silent new /\
    getOrCreateOctokit w r s =
    (clientAnswer w r,
     match clientAnswer w r with
     | Ok _ => {| clients := {[ owner r ]} ∪ clients s; runners := runners s;
                  log := log s ++ new |}
     | Throw _ => withLog s (log s ++ new)
     end).
Proof.
  intros H. unfold getOrCreateOctokit. rewrite bool_decide_eq_false_2 by exact H.
  unfold clientAnswer, bind, request, liftResult, modify.
  destruct (createAppClient w) as [[]|e]; simpl.
  - destruct (isOrg r).
    + destruct (getOrgInstallation w (owner r)) as [i|e]; simpl.
      * destruct (createInstallationClient w i) as [[]|e]; simpl; eexists;
          (split; [ | unfold withLog; simpl; rewrite <- ?app_assoc; reflexivity ]);
          repeat constructor.
      * eexists. split; [ | unfold withLog; simpl; rewrite <- ?app_assoc; reflexivity ].
        repeat constructor.
    + destruct (repoScope (owner r)) as [scope|e]; simpl.
      * destruct (getRepoInstallation w scope.1 scope.2) as [i|e]; simpl.
        -- destruct (createInstallationClient w i) as [[]|e]; simpl; eexists;
             (split; [ | unfold withLog; simpl; rewrite <- ?app_assoc; reflexivity ]);
             repeat constructor.
        -- eexists. split; [ | unfold withLog; simpl; rewrite <- ?app_assoc; reflexivity ].
           repeat constructor.
      * eexists. split; [ | unfold withLog; simpl; reflexivity ]. repeat constructor.
  - eexists. split; [ | unfold withLog; simpl; reflexivity ]. repeat constructor.
Qed.

Lemma listGitHubRunners_hit w r s gh :
  runners s !! owner r = Some gh -> listGitHubRunners w r s = (Ok gh, s).
Proof. intros H. unfold listGitHubRunners. now rewrite H. Qed.

Lemma listGitHubRunners_cold w r s :
  cold (owner r) s ->
  exists new,
    Forall silent new /\
    listGitHubRunners w r s =
    match clientAnswer w r, listAnswer w r with
    | Ok _, Ok gh =>
        (Ok gh, {| clients := {[ owner r ]} ∪ clients s;
                   runners := <[ owner r := gh ]> (runners s);
                   log := log s ++ new |})
    | Ok _, Throw e =>
        (Throw e, {| clients := {[ owner r ]} ∪ clients s; runners := runners s;
                     log := log s ++ new |})
    | Throw e, _ => (Throw e, withLog s (log s ++ new))
    end.
Proof.
  intros [Hr Hc]. unfold listGitHubRunners. rewrite Hr.
  destruct (getOrCreateOctokit_miss w r s Hc) as (n0 & F0 & E0).
  unfold bind at 1. rewrite E0.
  destruct (clientAnswer w r) as [[]|e]; [ | now exists n0 ].
  unfold listAnswer, bind, request, liftResult, modify, ret.
  destruct (isOrg r); simpl.
  - destruct (listSelfHostedRunnersForOrg w (owner r)) as [gh|e]; simpl; eexists;
      (split; [ | rewrite <- ?app_assoc; reflexivity ]);
      (apply Forall_app; split; [exact F0 | repeat constructor]).
  - destruct (repoScope (owner r)) as [scope|e]; simpl.
    + destruct (listSelfHostedRunnersForRepo w scope.1 scope.2) as [gh|e]; simpl; eexists;
        (split; [ | rewrite <- ?app_assoc; reflexivity ]);
        (apply Forall_app; split; [exact F0 | repeat constructor]).
    + exists n0. split; [exact F0 | reflexivity].
Qed.

(** What a list fetched on empty caches tells of the answers. *)
Lemma listGitHubRunners_reset w r gh :
  fst (listGitHubRunners w r reset) = Ok gh ->
  clientAnswer w r = Ok tt /\ listAnswer w r = Ok gh.
Proof.
  destruct (listGitHubRunners_cold w r reset (cold_reset _)) as (new & _ & E).
  rewrite E. destruct (clientAnswer w r) as [[]|e]; [ | discriminate ].
  destruct (listAnswer w r) as [gh'|e]; [ | discriminate ].
  simpl. intros [= ->]. now split.
Qed.

(** From a state that is cold or warm for the scope, the list is the
    upstream answer, the state after it is warm, and nothing was
    terminated, de-registered or untagged. *)
Lemma listGitHubRunners_ready w r s gh :
  clientAnswer w r = Ok tt -> listAnswer w r = Ok gh ->
  warm (owner r) gh s \/ cold (owner r) s ->
  exists s' new,
    listGitHubRunners w r s = (Ok gh, s') /\ warm (owner r) gh s' /\
    log s' = log s ++ new /\ Forall silent new.
Proof.
  intros Hc Hl [[Hr Ho] | Hcold].
  - exists s, []. rewrite (listGitHubRunners_hit w r s gh Hr).
    repeat split; auto. now rewrite app_nil_r.
  - destruct (listGitHubRunners_cold w r s Hcold) as (new & F & E).
    rewrite Hc, Hl in E. eexists _, new. split; [exact E | ].
    repeat split; simpl; auto.
    + apply lookup_insert_eq.
    + apply elem_of_union_l, elem_of_singleton. reflexivity.
Qed.
End ScaleDownCaches.

Section ScaleDownQuota.
Import ScaleDown.
Local Open Scope Z_scope.

Lemma deleteSelfHostedRunner_run w r i s :
  isOk (deleteAnswer w r i) = true ->
  exists c,
    snd (deleteSelfHostedRunner w r i s) = withLog s (log s ++ [c]) /\
    deregistered [c] = [i] /\ terminated [c] = [].
Proof.
  unfold deleteAnswer, deleteSelfHostedRunner, bind, request, liftResult.
  destruct (isOrg r); [intros _; eexists; repeat split | ].
  destruct (repoScope (owner r)) as [scope|e]; [ | discriminate ].
  intros _. eexists. repeat split.
Qed.

Lemma promiseAll_delete_run w r ids s :
  (forall i, In i ids -> isOk (deleteAnswer w r i) = true) ->
  exists new,
    snd (promiseAll (map (deleteSelfHostedRunner w r) ids) s) = withLog s (log s ++ new) /\
    deregistered new = ids /\ terminated new = [].
Proof.
  revert s. induction ids as [|i ids IH]; intros s Hok.
  - exists []. simpl. now rewrite app_nil_r, withLog_id.
  - simpl. destruct (deleteSelfHostedRunner_run w r i s (Hok i (or_introl eq_refl)))
      as (c & E1 & D1 & T1).
    destruct (deleteSelfHostedRunner w r i s) as [r1 s1]. simpl in E1. subst s1.
    destruct (IH (withLog s (log s ++ [c])) (fun j Hj => Hok j (or_intror Hj)))
      as (n2 & E2 & D2 & T2).
    destruct (promiseAll _ _) as [rs s2]. simpl in E2. subst s2.
    exists ([c] ++ n2). split; [ | split ].
    + unfold withLog. simpl. now rewrite <- app_assoc.
    + now rewrite deregistered_app, D1, D2.
    + now rewrite terminated_app, T1, T2.
Qed.

Lemma forallb_allOk {A B} (answer : A -> result exn B) (p : B -> bool) (l : list A) :
  forallb (fun a => match answer a with Ok v => p v | Throw _ => false end) l = true ->
  exists vs, allOk (map answer l) = Ok vs /\ forallb p vs = true.
Proof.
  intros H. destruct (allOk (map answer l)) as [vs|e] eqn:Hall.
  - exists vs. split; [reflexivity | ]. now rewrite (allOk_forallb answer p l vs Hall).
  - rewrite (allOk_throw_forallb answer p l e Hall) in H. discriminate.
Qed.

(** [removeRunner] on an instance whose client is cached, whose runners
    are all idle and whose de-registrations all answer 204: the runners
    are de-registered and the instance is terminated. *)
Lemma removeRunner_run w r ids s :
  owner r ∈ clients s -> allIdle w r ids = true -> allDeleted w r ids = true ->
  exists new,
    removeRunner w r ids s = (Ok tt, withLog s (log s ++ new)) /\
    terminated new = [instanceId r] /\ deregistered new = ids.
Proof.
  intros Hc Hidle Hdel. unfold removeRunner.
  rewrite (bind_ok _ _ _ _ _ (getOrCreateOctokit_hit w r s Hc)).
  destruct (promiseAll_run silent (fun i => getGitHubRunnerBusyState w r (Some i))
              (fun i => busyAnswer w r (Some i)) ids s) as (n1 & E1 & F1).
  { intros; apply steady_getGitHubRunnerBusyState. }
  { intros; apply getGitHubRunnerBusyState_answer. }
  destruct (silent_none n1 F1) as (T1 & D1 & _).
  destruct (forallb_allOk _ negb ids Hidle) as (states & Hstates & Hneg).
  destruct (forallb_allOk _ (fun status => status =? 204) ids Hdel) as (statuses & Hst & H204).
  destruct (promiseAll_delete_run w r ids (withLog s (log s ++ n1))) as (n2 & E2 & D2 & T2).
  { intros i Hi. unfold allDeleted in Hdel. rewrite forallb_forall in Hdel.
    specialize (Hdel i Hi). now destruct (deleteAnswer w r i). }
  pose proof (promiseAll_answers (deleteSelfHostedRunner w r) (deleteAnswer w r) ids
                (withLog s (log s ++ n1)) (deleteSelfHostedRunner_answer w r)) as A2.
  unfold tryCatch, bind at 1. rewrite E1, Hstates, Hneg. unfold bind.
  destruct (promiseAll (map (deleteSelfHostedRunner w r) ids) (withLog s (log s ++ n1)))
    as [rs s2]. simpl in E2, A2. subst s2. rewrite A2, Hst, H204.
  exists (n1 ++ n2 ++ [TerminateRunner (instanceId r)]).
  unfold request. split.
  - destruct (terminateRunner w (instanceId r)) as [[]|e]; simpl; unfold withLog; simpl;
      now rewrite <- !app_assoc.
  - rewrite !terminated_app, !deregistered_app, T1, D1, T2, D2. simpl.
    now rewrite app_nil_r.
Qed.

(** An instance that is registered upstream, past its minimum running
    time and idle, and whose de-registrations succeed: [ghRunners] is the
    upstream list of its scope. *)
Definition idleMatched (env : Env) (w : Services) (ghRunners : list RunnerState)
    (r : RunnerList) : Prop :=
  fst (listGitHubRunners w r reset) = Ok ghRunners /\
  matching r ghRunners <> [] /\
  runnerMinimumTimeExceeded env r = true /\
  (forall g, In g (matching r ghRunners) ->
     forall s0, fst (getGitHubRunnerBusyState w r (Some (id g)) s0) = Ok false) /\
  (forall g, In g (matching r ghRunners) ->
     forall s0, fst (deleteSelfHostedRunner w r (id g) s0) = Ok 204).

Lemma idleMatched_answers env w gh r :
  idleMatched env w gh r ->
  allIdle w r (map id (matching r gh)) = true /\
  allDeleted w r (map id (matching r gh)) = true.
Proof.
  intros (_ & _ & _ & Hb & Hd). split; apply forallb_forall; intros i Hi;
    apply in_map_iff in Hi as (g & <- & Hg).
  - specialize (Hb g Hg reset). rewrite getGitHubRunnerBusyState_answer in Hb.
    now rewrite Hb.
  - specialize (Hd g Hg reset). rewrite deleteSelfHostedRunner_answer in Hd.
    now rewrite Hd.
Qed.

(** One iteration on such an instance: with quota left the instance is
    kept and the quota decremented; without, its runners are de-registered
    and it is terminated. *)
Lemma evaluateRunner_idleMatched env w gh r c s :
  idleMatched env w gh r ->
  warm (owner r) gh s \/ cold (owner r) s ->
  exists s',
    evaluateRunner env w c r s = (Ok (if 0 <? c then c - 1 else c), s') /\
    warm (owner r) gh s' /\
    terminated (log s') = terminated (log s) ++ (if 0 <? c then [] else [instanceId r]) /\
    deregistered (log s') =
      deregistered (log s) ++ (if 0 <? c then [] else map id (matching r gh)).
Proof.
  intros Him Hready. destruct (idleMatched_answers env w gh r Him) as (Hidle & Hdel).
  destruct Him as (Hlist & Hm & Ht & _ & _).
  destruct (listGitHubRunners_reset w r gh Hlist) as (Hca & Hla).
  destruct (listGitHubRunners_ready w r s gh Hca Hla Hready) as (s1 & n0 & E0 & W1 & L1 & F0).
  destruct (silent_none n0 F0) as (T0 & D0 & _).
  unfold evaluateRunner. rewrite (bind_ok _ _ _ _ _ E0).
  replace (negb (length (matching r gh) =? 0)%nat) with true
    by (destruct (matching r gh); [contradiction | reflexivity]).
  rewrite Ht. destruct (0 <? c).
  - exists s1. repeat split; try apply W1.
    + now rewrite L1, terminated_app, T0.
    + now rewrite L1, deregistered_app, D0.
  - destruct (removeRunner_run w r (map id (matching r gh)) s1 (proj2 W1) Hidle Hdel)
      as (n1 & E1 & T1 & D1).
    rewrite (bind_ok _ _ _ _ _ E1). eexists. split; [reflexivity | ].
    repeat split; simpl; try apply W1.
    + now rewrite L1, !terminated_app, T0, T1, app_nil_r.
    + now rewrite L1, !deregistered_app, D0, D1, app_nil_r.
Qed.
End ScaleDownQuota.

(** C6 (as amended).  A Phase 2 pass, from empty caches, over four
    instances of one owner, launched at four different times, all
    registered upstream, all past the minimum running time, all idle, with
    de-registrations that succeed; an idle quota of 2 and the strategy
    [oldest_first].  Whatever the order of the instances in the inventory,
    the two newest (latest launch times) are kept and use up the quota, and
    the two oldest are de-registered and terminated, the newer of the two
    first. *)
Theorem oldest_first_evicts_the_oldest :
  forall (env : ScaleDown.Env) (w : ScaleDown.Services)
         (ec2Runners : list ScaleDown.RunnerList) (o : option string)
         (ghRunners : list ScaleDown.RunnerState)
         (r1 r2 r3 r4 : ScaleDown.RunnerList) (t1 t2 t3 t4 : Z),
    Permutation ec2Runners [r1; r2; r3; r4] ->
    ScaleDown.launchTime r1 = Some t1 -> ScaleDown.launchTime r2 = Some t2 ->
    ScaleDown.launchTime r3 = Some t3 -> ScaleDown.launchTime r4 = Some t4 ->
    (t1 < t2)%Z -> (t2 < t3)%Z -> (t3 < t4)%Z ->
    (forall r, In r [r1; r2; r3; r4] ->
       ScaleDown.owner r = o /\ idleMatched env w ghRunners r) ->
    ScaleDown.getIdleRunnerCount env = 2%Z ->
    ScaleDown.getEvictionStrategy env = "oldest_first" ->
    fst (ScaleDown.evaluateAndRemoveRunners env w ec2Runners ScaleDown.reset) = Ok tt /\
    ScaleDown.terminated
      (ScaleDown.log (snd (ScaleDown.evaluateAndRemoveRunners env w ec2Runners
                             ScaleDown.reset))) =
      [ScaleDown.instanceId r2; ScaleDown.instanceId r1] /\
    ScaleDown.deregistered
      (ScaleDown.log (snd (ScaleDown.evaluateAndRemoveRunners env w ec2Runners
                             ScaleDown.reset))) =
      map ScaleDown.id (ScaleDown.matching r2 ghRunners) ++
      map ScaleDown.id (ScaleDown.matching r1 ghRunners).
Proof.
  intros env w ec2Runners o gh r1 r2 r3 r4 t1 t2 t3 t4 Hp H1 H2 H3 H4 L12 L23 L34 Hall
    Hquota Hstrategy.
  assert (Ho : forall r, In r [r1; r2; r3; r4] -> ScaleDown.owner r = o)
    by (intros r Hr; apply (Hall r Hr)).
  destruct (Hall r1) as (O1 & I1); [simpl; auto | ].
  destruct (Hall r2) as (O2 & I2); [simpl; auto | ].
  destruct (Hall r3) as (O3 & I3); [simpl; auto | ].
  destruct (Hall r4) as (O4 & I4); [simpl; auto | ].
  destruct (evaluateRunner_idleMatched env w gh r4 2 ScaleDown.reset I4
              (or_intror (cold_reset _))) as (s4 & E4 & W4 & T4 & D4).
  rewrite O4, <- O3 in W4.
  destruct (evaluateRunner_idleMatched env w gh r3 1 s4 I3 (or_introl W4))
    as (s3 & E3 & W3 & T3 & D3).
  rewrite O3, <- O2 in W3.
  destruct (evaluateRunner_idleMatched env w gh r2 0 s3 I2 (or_introl W3))
    as (s2 & E2 & W2 & T2 & D2).
  rewrite O2, <- O1 in W2.
  destruct (evaluateRunner_idleMatched env w gh r1 0 s2 I1 (or_introl W2))
    as (s1 & E1 & W1 & T1 & D1).
  simpl in E4, E3, E2, E1, T4, T3, T2, T1, D4, D3, D2, D1.
  assert (Hrun : ScaleDown.evaluateAndRemoveRunners env w ec2Runners ScaleDown.reset =
                 (Ok tt, s1)).
  { unfold ScaleDown.evaluateAndRemoveRunners.
    assert (Hfold : ScaleDown.evaluateFrom env w ec2Runners (ScaleDown.getIdleRunnerCount env)
                      ScaleDown.reset = (Ok 0%Z, s1)).
    { rewrite evaluateFrom_flat, Hquota.
      rewrite (evictionOrder_four env ec2Runners o r1 r2 r3 r4 t1 t2 t3 t4); auto.
      simpl. rewrite (bind_ok _ _ _ _ _ E4), (bind_ok _ _ _ _ _ E3),
        (bind_ok _ _ _ _ _ E2), (bind_ok _ _ _ _ _ E1). reflexivity. }
    now rewrite (bind_ok _ _ _ _ _ Hfold). }
  rewrite Hrun. simpl. repeat split.
  - rewrite T1, T2, T3, T4. simpl. now rewrite ?app_nil_r.
  - rewrite D1, D2, D3, D4. simpl. rewrite ?app_nil_r, <- ?app_assoc. reflexivity.
Qed.

(** The instances of seed scenario 6 are registered upstream, old enough
    and idle, and their de-registrations answer 204. *)
Lemma fourInstances_idleMatched (r : ScaleDown.RunnerList) :
  In r Scenarios.fourInstances ->
  ScaleDown.owner r = Some "Codertocat" /\
  idleMatched (Scenarios.reaperEnv 2 "oldest_first") (Scenarios.reaperServices 204)
    Scenarios.fourUpstream r.
Proof.
  intros Hr. simpl in Hr. decompose [or] Hr; try contradiction; subst r;
    (split; [reflexivity | ]);
    match goal with
    | |- idleMatched _ _ _ (Scenarios.instance ?k) =>
        assert (Hm : ScaleDown.matching (Scenarios.instance k) Scenarios.fourUpstream =
                     [Scenarios.upstreamRunner k]) by (vm_compute; reflexivity)
    end;
    unfold idleMatched; rewrite Hm;
    (split; [ | split; [ | split; [ | split ] ] ];
    [ vm_compute; reflexivity
    | discriminate
    | vm_compute; reflexivity
    | intros g [<- | []] s0; rewrite getGitHubRunnerBusyState_answer; vm_compute; reflexivity
    | intros g [<- | []] s0; rewrite deleteSelfHostedRunner_answer; vm_compute; reflexivity ]).
Qed.

(** C6 (as amended), on seed scenario 6: the instances launched third and
    fourth are kept, the second and the first are de-registered and
    terminated. *)
Lemma oldest_first_evicts_the_oldest_witness :
  map ScaleDown.launchTime Scenarios.fourInstances =
    [Some 60000%Z; Some 120000%Z; Some 180000%Z; Some 240000%Z] /\
  ScaleDown.getIdleRunnerCount (Scenarios.reaperEnv 2 "oldest_first") = 2%Z /\
  ScaleDown.terminated
    (ScaleDown.log
       (snd (ScaleDown.evaluateAndRemoveRunners (Scenarios.reaperEnv 2 "oldest_first")
               (Scenarios.reaperServices 204) Scenarios.fourInstances ScaleDown.reset))) =
    ["i-2"; "i-1"] /\
  ScaleDown.deregistered
    (ScaleDown.log
       (snd (ScaleDown.evaluateAndRemoveRunners (Scenarios.reaperEnv 2 "oldest_first")
               (Scenarios.reaperServices 204) Scenarios.fourInstances ScaleDown.reset))) =
    [102%Z; 101%Z].
Proof.
  split; [reflexivity | ]. split; [reflexivity | ].
  destruct (oldest_first_evicts_the_oldest
              (Scenarios.reaperEnv 2 "oldest_first") (Scenarios.reaperServices 204)
              Scenarios.fourInstances (Some "Codertocat") Scenarios.fourUpstream
              (Scenarios.instance 1) (Scenarios.instance 2)
              (Scenarios.instance 3) (Scenarios.instance 4)
              60000%Z 120000%Z 180000%Z 240000%Z)
    as (_ & Ht & Hd).
  - reflexivity.
  - reflexivity.
  - reflexivity.
  - reflexivity.
  - reflexivity.
  - lia.
  - lia.
  - lia.
  - exact fourInstances_idleMatched.
  - reflexivity.
  - reflexivity.
  - split; [exact Ht | exact Hd].
Defined.

(** C6 as stated fails on seed scenario 6: with an idle quota of 2 and the
    strategy [oldest_first], the pass over the four idle instances
    terminates the two with the earliest launch times, "i-2" and "i-1",
    and keeps the two newest, "i-3" and "i-4", where the claim has the two
    oldest kept and the two newest terminated. *)
Lemma oldest_first_terminates_the_two_oldest :
  map (fun r => (ScaleDown.instanceId r, ScaleDown.launchTime r)) Scenarios.fourInstances =
    [("i-1", Some 60000%Z); ("i-2", Some 120000%Z);
     ("i-3", Some 180000%Z); ("i-4", Some 240000%Z)] /\
  ScaleDown.getIdleRunnerCount (Scenarios.reaperEnv 2 "oldest_first") = 2%Z /\
  ScaleDown.getEvictionStrategy (Scenarios.reaperEnv 2 "oldest_first") = "oldest_first" /\
  fst (ScaleDown.evaluateAndRemoveRunners (Scenarios.reaperEnv 2 "oldest_first")
         (Scenarios.reaperServices 204) Scenarios.fourInstances ScaleDown.reset) = Ok tt /\
  ScaleDown.terminated
    (ScaleDown.log
       (snd (ScaleDown.evaluateAndRemoveRunners (Scenarios.reaperEnv 2 "oldest_first")
               (Scenarios.reaperServices 204) Scenarios.fourInstances ScaleDown.reset))) =
    ["i-2"; "i-1"] /\
  ScaleDown.terminated
    (ScaleDown.log
       (snd (ScaleDown.evaluateAndRemoveRunners (Scenarios.reaperEnv 2 "oldest_first")
               (Scenarios.reaperServices 204) Scenarios.fourInstances ScaleDown.reset))) <>
    ["i-4"; "i-3"] /\
  ScaleDown.terminated
    (ScaleDown.log
       (snd (ScaleDown.evaluateAndRemoveRunners (Scenarios.reaperEnv 2 "oldest_first")
               (Scenarios.reaperServices 204) Scenarios.fourInstances ScaleDown.reset))) <>
    ["i-3"; "i-4"].
Proof. repeat split; try (vm_compute; reflexivity); vm_compute; discriminate. Qed.

(** ** Phase 1: the orphans *)

Section ScaleDownOrphans.
Import ScaleDown.

(** The runner id the last-chance lookup asks for:
    [parseInt(runner.runnerId || '0')]. *)
Definition lastChanceId (r : RunnerList) : option Z :=
  parseInt (if truthy (runnerId r) then default "0" (runnerId r) else "0").

(** The verdict of [lastChanceCheckOrphanRunner] on the state the lookup
    returned; [None] is the 404 answer. *)
Definition judgedOrphan (answer : option RunnerState) : bool :=
  match answer with
  | None => true
  | Some state => String.eqb (status state) "offline" && busy state
  end.

Lemma request_run {A} (c : Call) (r : result exn A) s :
  request c r s = (r, withLog s (log s ++ [c])).
Proof. reflexivity. Qed.

Lemma lastChanceCheckOrphanRunner_run w r s answer :
  fst (getOrCreateOctokit w r s) = Ok tt ->
  fst (getGitHubSelfHostedRunnerState w r (lastChanceId r)
         (snd (getOrCreateOctokit w r s))) = Ok answer ->
  exists s' new,
    lastChanceCheckOrphanRunner w r s = (Ok (judgedOrphan answer), s') /\
    log s' = log s ++ new /\ Forall silent new.
Proof.
  intros Hc Ha. unfold lastChanceCheckOrphanRunner. fold (lastChanceId r).
  destruct (emits_getOrCreateOctokit w r s) as (n1 & L1 & F1).
  destruct (getOrCreateOctokit w r s) as [[[]|e] s1] eqn:E1; simpl in Hc, Ha, L1;
    [ | discriminate ].
  rewrite (bind_ok _ _ _ _ _ E1).
  destruct (steady_getGitHubSelfHostedRunnerState w r (lastChanceId r) s1)
    as (n2 & L2 & F2).
  destruct (getGitHubSelfHostedRunnerState w r (lastChanceId r) s1) as [[a|e] s2] eqn:E2;
    simpl in Ha, L2; [ | discriminate ].
  injection Ha as ->. rewrite (bind_ok _ _ _ _ _ E2).
  exists s2, (n1 ++ n2). split; [now destruct answer | ]. split.
  - rewrite L2. simpl. now rewrite L1, app_assoc.
  - now apply Forall_app.
Qed.

Lemma unMarkOrphan_run w i s :
  unMarkOrphan w i s = (Ok tt, withLog s (log s ++ [UntagInstance i orphanTag])).
Proof.
  unfold unMarkOrphan, tryCatch. rewrite request_run.
  now destruct (untag w i orphanTag) as [[]|e].
Qed.

(** One iteration of the loop of [terminateOrphan] on an orphan whose
    client, lookup and termination do not fail. *)
Lemma terminateOrphanRunner_run w r s answer :
  (truthy (runnerId r) = true ->
   (forall s0, fst (getOrCreateOctokit w r s0) = Ok tt) /\
   (forall s0, fst (getGitHubSelfHostedRunnerState w r (lastChanceId r) s0) = Ok answer) /\
   (judgedOrphan answer = true -> terminateRunner w (instanceId r) = Ok tt)) ->
  exists s',
    terminateOrphanRunner w r s = (Ok tt, s') /\
    terminated (log s') =
      terminated (log s) ++
      (if negb (truthy (runnerId r)) || judgedOrphan answer then [instanceId r] else []) /\
    untagged (log s') =
      untagged (log s) ++
      (if negb (truthy (runnerId r)) || judgedOrphan answer then [] else [instanceId r]).
Proof.
  intros H. unfold terminateOrphanRunner.
  destruct (truthy (runnerId r)) eqn:Ht; simpl.
  - destruct (H eq_refl) as (Hc & Ha & Hk).
    destruct (lastChanceCheckOrphanRunner_run w r s answer (Hc s) (Ha _))
      as (s1 & new & E1 & L1 & F1).
    apply silent_none in F1 as (T1 & _ & U1).
    rewrite (bind_ok _ _ _ _ _ E1).
    destruct (judgedOrphan answer) eqn:Hj.
    + rewrite request_run, (Hk eq_refl). eexists. split; [reflexivity | ]. simpl.
      rewrite L1, !terminated_app, !untagged_app, T1, U1. simpl.
      now rewrite !app_nil_r.
    + rewrite unMarkOrphan_run. eexists. split; [reflexivity | ]. simpl.
      rewrite L1, !terminated_app, !untagged_app, T1, U1. simpl.
      now rewrite !app_nil_r.
  - unfold tryCatch. rewrite request_run.
    exists (withLog s (log s ++ [TerminateRunner (instanceId r)])). split.
    + now destruct (terminateRunner w (instanceId r)) as [[]|e].
    + simpl. rewrite terminated_app, untagged_app. simpl. now rewrite app_nil_r.
Qed.

Lemma forOf_terminateOrphanRunner w (answer : RunnerList -> option RunnerState) orphans :
  (forall r, In r orphans -> truthy (runnerId r) = true ->
     (forall s0, fst (getOrCreateOctokit w r s0) = Ok tt) /\
     (forall s0, fst (getGitHubSelfHostedRunnerState w r (lastChanceId r) s0) =
                 Ok (answer r)) /\
     (judgedOrphan (answer r) = true -> terminateRunner w (instanceId r) = Ok tt)) ->
  forall s, exists s',
    forOf orphans (terminateOrphanRunner w) s = (Ok tt, s') /\
    terminated (log s') =
      terminated (log s) ++
      map instanceId
        (List.filter (fun r => negb (truthy (runnerId r)) || judgedOrphan (answer r)) orphans) /\
    untagged (log s') =
      untagged (log s) ++
      map instanceId
        (List.filter (fun r => negb (negb (truthy (runnerId r)) || judgedOrphan (answer r)))
           orphans).
Proof.
  induction orphans as [|r orphans IH]; intros H s.
  - exists s. simpl. now rewrite !app_nil_r.
  - destruct (terminateOrphanRunner_run w r s (answer r)) as (s1 & E1 & T1 & U1);
      [apply H; now left | ].
    destruct (IH (fun r' Hr' => H r' (or_intror Hr')) s1) as (s2 & E2 & T2 & U2).
    exists s2. simpl forOf. rewrite (bind_ok _ _ _ _ _ E1). split; [exact E2 | ].
    rewrite T2, U2, T1, U1. simpl.
    destruct (negb (truthy (runnerId r)) || judgedOrphan (answer r)); simpl;
      now rewrite <- ?app_assoc, ?app_nil_r.
Qed.
End ScaleDownOrphans.

Lemma getOrCreateOctokit_answer w r :
  clientAnswer w r = Ok tt -> forall s, fst (ScaleDown.getOrCreateOctokit w r s) = Ok tt.
Proof.
  intros Hc s. destruct (decide (ScaleDown.owner r ∈ ScaleDown.clients s)) as [Hin|Hout].
  - now rewrite getOrCreateOctokit_hit.
  - destruct (getOrCreateOctokit_miss w r s Hout) as (new & _ & ->). exact Hc.
Qed.

(** C5.  The loop of Phase 1 over the instances that carry the orphan tag.
    In one iteration: an instance without an upstream runner id is
    terminated, with no lookup, whatever the termination answers; for an
    instance with one, once the client is there and the last-chance lookup
    has answered, a 404 answer ([None]) or a state that is offline and busy
    leads to the termination call and leaves the orphan tag, and any other
    state leads to the orphan tag being cleared and no termination call.
    In a whole pass in which no client, lookup or termination fails, the
    instances terminated are the orphans without a runner id and those the
    lookup confirms, and the instances whose tag is cleared are the
    others, both in inventory order. *)
Theorem terminateOrphan_last_chance_decides :
  forall (w : ScaleDown.Services),
    (forall r s,
       truthy (ScaleDown.runnerId r) = false ->
       fst (ScaleDown.terminateOrphanRunner w r s) = Ok tt /\
       ScaleDown.log (snd (ScaleDown.terminateOrphanRunner w r s)) =
         ScaleDown.log s ++ [ScaleDown.TerminateRunner (ScaleDown.instanceId r)]) /\
    (forall r s answer,
       truthy (ScaleDown.runnerId r) = true ->
       fst (ScaleDown.getOrCreateOctokit w r s) = Ok tt ->
       fst (ScaleDown.getGitHubSelfHostedRunnerState w r
              (parseInt (default "0" (ScaleDown.runnerId r)))
              (snd (ScaleDown.getOrCreateOctokit w r s))) = Ok answer ->
       (answer = None \/
        (exists state, answer = Some state /\
                       ScaleDown.status state = "offline" /\ ScaleDown.busy state = true) ->
        ScaleDown.terminated (ScaleDown.log (snd (ScaleDown.terminateOrphanRunner w r s))) =
          ScaleDown.terminated (ScaleDown.log s) ++ [ScaleDown.instanceId r] /\
        ScaleDown.untagged (ScaleDown.log (snd (ScaleDown.terminateOrphanRunner w r s))) =
          ScaleDown.untagged (ScaleDown.log s)) /\
       (forall state,
          answer = Some state ->
          ScaleDown.status state <> "offline" \/ ScaleDown.busy state = false ->
          fst (ScaleDown.terminateOrphanRunner w r s) = Ok tt /\
          ScaleDown.terminated (ScaleDown.log (snd (ScaleDown.terminateOrphanRunner w r s))) =
            ScaleDown.terminated (ScaleDown.log s) /\
          ScaleDown.untagged (ScaleDown.log (snd (ScaleDown.terminateOrphanRunner w r s))) =
            ScaleDown.untagged (ScaleDown.log s) ++ [ScaleDown.instanceId r])) /\
    (forall environment orphans (answer : ScaleDown.RunnerList -> option ScaleDown.RunnerState) s,
       ScaleDown.listEC2Runners w environment (Some true) = Ok orphans ->
       (forall r, In r orphans -> truthy (ScaleDown.runnerId r) = true ->
          (forall s0, fst (ScaleDown.getOrCreateOctokit w r s0) = Ok tt) /\
          (forall s0, fst (ScaleDown.getGitHubSelfHostedRunnerState w r (lastChanceId r) s0) =
                      Ok (answer r)) /\
          (judgedOrphan (answer r) = true ->
           ScaleDown.terminateRunner w (ScaleDown.instanceId r) = Ok tt)) ->
       fst (ScaleDown.terminateOrphan w environment s) = Ok tt /\
       ScaleDown.terminated (ScaleDown.log (snd (ScaleDown.terminateOrphan w environment s))) =
         ScaleDown.terminated (ScaleDown.log s) ++
         map ScaleDown.instanceId
           (List.filter (fun r => negb (truthy (ScaleDown.runnerId r)) ||
                                  judgedOrphan (answer r)) orphans) /\
       ScaleDown.untagged (ScaleDown.log (snd (ScaleDown.terminateOrphan w environment s))) =
         ScaleDown.untagged (ScaleDown.log s) ++
         map ScaleDown.instanceId
           (List.filter (fun r => negb (negb (truthy (ScaleDown.runnerId r)) ||
                                        judgedOrphan (answer r))) orphans)).
Proof.
  intros w. split; [ | split ].
  - intros r s Ht. unfold ScaleDown.terminateOrphanRunner, tryCatch. rewrite Ht.
    rewrite request_run.
    now destruct (ScaleDown.terminateRunner w (ScaleDown.instanceId r)) as [[]|e].
  - intros r s answer Ht Hc Ha.
    assert (Hid : lastChanceId r = parseInt (default "0" (ScaleDown.runnerId r)))
      by (unfold lastChanceId; now rewrite Ht).
    rewrite <- Hid in Ha.
    destruct (lastChanceCheckOrphanRunner_run w r s answer Hc Ha)
      as (s1 & new & E1 & L1 & F1).
    apply silent_none in F1 as (T1 & _ & U1).
    unfold ScaleDown.terminateOrphanRunner. rewrite Ht, (bind_ok _ _ _ _ _ E1).
    split.
    + intros Hj.
      assert (Hv : judgedOrphan answer = true).
      { destruct Hj as [-> | (state & -> & Hs & Hb)]; [reflexivity | ].
        simpl. now rewrite Hs, Hb. }
      rewrite Hv, request_run. simpl.
      rewrite L1, !terminated_app, !untagged_app, T1, U1. simpl.
      now rewrite !app_nil_r.
    + intros state -> Hn.
      assert (Hv : judgedOrphan (Some state) = false).
      { simpl. destruct Hn as [Hs | Hb]; [ | rewrite Hb; apply andb_false_r ].
        apply String.eqb_neq in Hs. now rewrite Hs. }
      rewrite Hv, unMarkOrphan_run. simpl.
      rewrite L1, !terminated_app, !untagged_app, T1, U1. simpl.
      now rewrite !app_nil_r.
  - intros environment orphans answer s Hl H.
    unfold ScaleDown.terminateOrphan, tryCatch, bind. rewrite request_run, Hl.
    destruct (forOf_terminateOrphanRunner w answer orphans H
                (withLog s (ScaleDown.log s ++
                              [ScaleDown.ListEC2Runners environment (Some true)])))
      as (s' & E & T & U).
    rewrite E. simpl. rewrite T, U. simpl.
    rewrite terminated_app, untagged_app. simpl.
    now rewrite !app_nil_r.
Qed.

(** C5, on three orphans: "i-5" has no upstream runner id, "i-6" has the
    id of a runner that is online and idle, "i-7" an id that upstream
    answers with 404.  "i-5" and "i-7" are terminated and the tag of "i-6"
    is cleared. *)
Lemma terminateOrphan_last_chance_decides_witness :
  ScaleDown.listEC2Runners Scenarios.orphanServices "unit-test-environment" (Some true) =
    Ok Scenarios.threeOrphans /\
  fst (ScaleDown.terminateOrphan Scenarios.orphanServices "unit-test-environment"
         ScaleDown.reset) = Ok tt /\
  ScaleDown.terminated
    (ScaleDown.log (snd (ScaleDown.terminateOrphan Scenarios.orphanServices
                           "unit-test-environment" ScaleDown.reset))) = ["i-5"; "i-7"] /\
  ScaleDown.untagged
    (ScaleDown.log (snd (ScaleDown.terminateOrphan Scenarios.orphanServices
                           "unit-test-environment" ScaleDown.reset))) = ["i-6"].
Proof.
  split; [reflexivity | ].
  destruct (terminateOrphan_last_chance_decides Scenarios.orphanServices)
    as (_ & _ & Hpass).
  apply (Hpass "unit-test-environment" Scenarios.threeOrphans
           (fun r => if String.eqb (ScaleDown.instanceId r) "i-6"
                     then Some (Scenarios.upstreamRunner 1) else None)
           ScaleDown.reset).
  - reflexivity.
  - intros r Hr Ht. simpl in Hr. decompose [or] Hr; try contradiction; subst r;
      (split; [ | split ]);
      try (intros s0; apply getOrCreateOctokit_answer; reflexivity);
      try (intros s0; rewrite getGitHubSelfHostedRunnerState_answer; vm_compute; reflexivity);
      try (intros _; reflexivity).
Defined.

(** ** The pool top-up (pool/pool.ts) *)

Section PoolProperties.
Import Pool.

(** The upstream runner the status map holds for a name: the last one of
    that name in the list. *)
Definition upstreamOf (runners : list GhRunner) (n : string) : option GhRunner :=
  find (fun r => String.eqb (name r) n) (rev runners).

Lemma runnerStatusOf_lookup runners n :
  runnerStatusOf runners !! n =
  (fun r => {| busy := gh_busy r; status := gh_status r |}) <$> upstreamOf runners n.
Proof.
  unfold runnerStatusOf, upstreamOf.
  induction runners as [|r runners IH] using rev_ind; [apply lookup_empty | ].
  rewrite fold_left_app, rev_app_distr. simpl.
  destruct (String.eqb (name r) n) eqn:E.
  - apply String.eqb_eq in E as ->. now rewrite lookup_insert_eq.
  - apply String.eqb_neq in E. now rewrite lookup_insert_ne.
Qed.

Lemma numberOfRunnersInPool_from env rs ec2runners (n : Z) :
  fold_left (fun n ec2Instance => if inPool env rs ec2Instance then (n + 1)%Z else n)
    ec2runners n =
  (n + Z.of_nat (length (List.filter (inPool env rs) ec2runners)))%Z.
Proof.
  revert n. induction ec2runners as [|i l IH]; intros n; simpl; [lia | ].
  rewrite IH. destruct (inPool env rs i); simpl; lia.
Qed.

(** The calls of [adjust] that ask for runners ask for a positive
    number. *)
Definition positiveTopUp (c : Call) : Prop :=
  match c with
  | CreateRunners _ ec2 => (0 < numberOfRunners ec2)%Z
  | _ => True
  end.

Lemma adjust_positiveTopUp env w event : emits (fun l => l) positiveTopUp (adjust env w event).
Proof.
  unfold adjust, getInstallationId.
  repeat (apply emits_bind; [ | intros ? ]);
    try (apply emits_call; exact I).
  destruct (0 <? _)%Z eqn:E; [ | apply emits_ret ].
  apply emits_call. simpl. now apply Z.ltb_lt.
Qed.

Lemma provisioned_positive new :
  Forall positiveTopUp new -> Forall (fun n => 0 < n)%Z (provisioned new).
Proof.
  induction 1 as [|c new Hc _ IH]; [constructor | ].
  destruct c; simpl in *; try exact IH. now constructor.
Qed.
End PoolProperties.

(** C8.  A pool top-up with target size [poolSize event].  An instance is
    counted as in the pool exactly when the status map has a runner of its
    name that is online and not busy, or has none and the boot time of the
    instance has not passed; the pool is the number of such instances;
    once the lookups have answered, the provisioning call is made, once
    and with [numberOfRunners] = max(0, N - pool), exactly when that
    amount is positive; and whatever the lookups answer, a provisioning
    call asks for a positive number. *)
Theorem adjust_tops_up_the_shortfall :
  forall (env : Pool.Env) (w : Pool.Services) (event : Pool.PoolEvent) (log : list Pool.Call),
    (forall runners ec2Instance,
       Pool.inPool env (Pool.runnerStatusOf runners) ec2Instance = true <->
       (exists r, upstreamOf runners (Pool.instanceId ec2Instance) = Some r /\
                  Pool.gh_status r = "online" /\ Pool.gh_busy r = false) \/
       (upstreamOf runners (Pool.instanceId ec2Instance) = None /\
        Pool.bootTimeExceeded env ec2Instance = false)) /\
    (forall runnerStatus ec2runners,
       Pool.numberOfRunnersInPool env runnerStatus ec2runners =
       Z.of_nat (length (List.filter (Pool.inPool env runnerStatus) ec2runners))) /\
    (forall installationId runners ec2runners,
       Pool.createAppClient w = Ok tt ->
       Pool.getOrgInstallation w (Pool.RUNNER_OWNER env) = Ok installationId ->
       Pool.createInstallationClient w installationId = Ok tt ->
       Pool.listSelfHostedRunnersForOrg w (Pool.RUNNER_OWNER env) = Ok runners ->
       Pool.listEC2Runners w (Pool.ENVIRONMENT env) (Pool.RUNNER_OWNER env) "Org" ["running"] =
         Ok ec2runners ->
       let pool :=
         Pool.numberOfRunnersInPool env (Pool.runnerStatusOf runners) ec2runners in
       let topUp := Z.max 0 (Pool.poolSize event - pool) in
       Pool.provisioned (snd (Pool.adjust env w event log)) =
       Pool.provisioned log ++ (if (0 <? topUp)%Z then [topUp] else [])) /\
    (exists new,
       snd (Pool.adjust env w event log) = log ++ new /\
       Forall (fun n => 0 < n)%Z (Pool.provisioned new)).
Proof.
  intros env w event log. split; [ | split; [ | split ] ].
  - intros runners i. unfold Pool.inPool. rewrite runnerStatusOf_lookup.
    destruct (upstreamOf runners (Pool.instanceId i)) as [r| ]; simpl.
    + destruct (Pool.gh_busy r) eqn:Hb; simpl.
      * split; [discriminate | ].
        intros [(r' & [= <-] & _ & Hb') | (Hn & _)]; congruence.
      * destruct (String.eqb (Pool.gh_status r) "online") eqn:Hs.
        -- apply String.eqb_eq in Hs. split; [ | reflexivity ].
           intros _. left. now exists r.
        -- apply String.eqb_neq in Hs. split; [discriminate | ].
           intros [(r' & [= <-] & Hs' & _) | (Hn & _)]; congruence.
    + destruct (Pool.bootTimeExceeded env i); simpl.
      * split; [discriminate | ].
        intros [(r' & Hn & _) | (_ & Hn)]; discriminate.
      * split; [ | reflexivity ]. intros _. now right.
  - intros rs ec2runners. unfold Pool.numberOfRunnersInPool.
    now rewrite numberOfRunnersInPool_from.
  - intros installationId runners ec2runners H1 H2 H3 H4 H5 pool topUp.
    subst topUp pool.
    unfold Pool.adjust, Pool.getInstallationId, bind, call.
    rewrite H1, H2, H3, H4, H5.
    set (pool := Pool.numberOfRunnersInPool env (Pool.runnerStatusOf runners) ec2runners).
    destruct (0 <? Pool.poolSize event - pool)%Z eqn:E.
    + apply Z.ltb_lt in E. rewrite Z.max_r by lia.
      apply Z.ltb_lt in E. rewrite E. simpl.
      unfold Pool.provisioned. rewrite !omap_app. simpl. now rewrite !app_nil_r.
    + apply Z.ltb_ge in E. rewrite Z.max_l by lia. simpl.
      unfold Pool.provisioned. rewrite !omap_app. simpl. now rewrite !app_nil_r.
  - destruct (adjust_positiveTopUp env w event log) as (new & E & F).
    exists new. split; [exact E | now apply provisioned_positive].
Qed.

(** C8, on a pool of target size 5 over four running instances: "i-1"
    (online and idle upstream) and "i-3" (not registered, still booting)
    are in the pool, "i-2" (busy) and "i-4" (not registered, past its boot
    time) are not, and three runners are asked for. *)
Lemma adjust_tops_up_the_shortfall_witness :
  map (Pool.inPool Scenarios.poolEnv (Pool.runnerStatusOf Scenarios.poolUpstream))
    Scenarios.poolInstances = [true; false; true; false] /\
  Pool.numberOfRunnersInPool Scenarios.poolEnv (Pool.runnerStatusOf Scenarios.poolUpstream)
    Scenarios.poolInstances = 2%Z /\
  Pool.provisioned
    (snd (Pool.adjust Scenarios.poolEnv Scenarios.poolServices {| Pool.poolSize := 5 |} [])) =
    [3%Z].
Proof.
  split; [vm_compute; reflexivity | ]. split; [vm_compute; reflexivity | ].
  destruct (adjust_tops_up_the_shortfall Scenarios.poolEnv Scenarios.poolServices
              {| Pool.poolSize := 5 |} []) as (_ & _ & Hrun & _).
  rewrite (Hrun 2%Z Scenarios.poolUpstream Scenarios.poolInstances);
    try reflexivity.
Defined.

(** ** The retry layer (job-retry.ts, through its test) *)

(** The table of job-retry.test.ts: the rows that publish, with the
    counter and the delay the test expects, and the rows that do not. *)
Lemma publishRetryMessage_test_table :
  JobRetry.publishRetryMessage (Some (Scenarios.jobRetryConfig true (Some 2%Z) 10))
    (Scenarios.retryMessage None) =
    [ {| JobRetry.message := Scenarios.retryMessage (Some 0%Z);
         JobRetry.toQueue := Scenarios.retryQueue; JobRetry.delay := Some 10%Z |} ] /\
  JobRetry.publishRetryMessage (Some (Scenarios.jobRetryConfig true (Some 2%Z) 10))
    (Scenarios.retryMessage (Some 0%Z)) =
    [ {| JobRetry.message := Scenarios.retryMessage (Some 1%Z);
         JobRetry.toQueue := Scenarios.retryQueue; JobRetry.delay := Some 20%Z |} ] /\
  JobRetry.publishRetryMessage (Some (Scenarios.jobRetryConfig true (Some 2%Z) 1000))
    (Scenarios.retryMessage (Some 0%Z)) =
    [ {| JobRetry.message := Scenarios.retryMessage (Some 1%Z);
         JobRetry.toQueue := Scenarios.retryQueue; JobRetry.delay := Some 900%Z |} ] /\
  JobRetry.publishRetryMessage (Some (Scenarios.jobRetryConfig true None 1000))
    (Scenarios.retryMessage (Some 0%Z)) = [] /\
  JobRetry.publishRetryMessage (Some (Scenarios.jobRetryConfig false None 0))
    (Scenarios.retryMessage None) = [] /\
  JobRetry.publishRetryMessage None (Scenarios.retryMessage None) = [].
Proof. repeat split. Qed.

(** The tests of [checkAndRetryJob] and of the handler in
    job-retry.test.ts: a queued job has its message published again
    unchanged and without delay; a job that is running or completed has
    not; of three records of which the second fails, two are published. *)
Lemma checkAndRetryJob_tests :
  JobRetry.checkAndRetryJob Scenarios.retryQueue (fun _ => Ok true)
    (Scenarios.retryMessage (Some 1%Z)) =
    Ok [ {| JobRetry.message := Scenarios.retryMessage (Some 1%Z);
            JobRetry.toQueue := Scenarios.retryQueue; JobRetry.delay := None |} ] /\
  JobRetry.checkAndRetryJob Scenarios.retryQueue (fun _ => Ok false)
    (Scenarios.retryMessage (Some 0%Z)) = Ok [] /\
  length
    (JobRetry.jobRetryCheck
       (JobRetry.checkAndRetryJob Scenarios.retryQueue
          (fun p => if (ScaleUp.id p =? 2)%Z then Throw (Error "API error") else Ok true))
       [Scenarios.retryJob 1; Scenarios.retryJob 2; Scenarios.retryJob 3]) = 2%nat.
Proof. repeat split. Qed.

(** C9 (as amended).  The two functions of the retry layer.
    [publishRetryMessage], for a message with counter k: when the retry is
    configured and enabled and the new counter (k + 1, or 0 when the
    counter was absent) is below [maxAttempts], exactly one message is
    published, on the retry queue, with the new counter and a delay of
    min(900, delayInSeconds * delayBackoff ^ new counter); when the retry
    is not configured or not enabled, or the new counter is not below
    [maxAttempts], nothing is published; the status of the job plays no
    part.  [checkAndRetryJob]: a message whose job is still queued is
    published again exactly once, unchanged (with the counter it came
    with) and without delay, on the scale-up queue; a message whose job is
    not queued is not published. *)
Theorem retryLayer_republishes_once :
  forall (config : option JobRetry.JobRetryConfig) (scaleUpQueueUrl : string)
         (isQueued : ScaleUp.ActionRequestMessage -> result exn bool)
         (payload : ScaleUp.ActionRequestMessage),
    JobRetry.newRetryCounter payload =
      match ScaleUp.retryCounter payload with Some k => (k + 1)%Z | None => 0%Z end /\
    (forall c m,
       config = Some c ->
       JobRetry.enable c = true ->
       JobRetry.maxAttempts c = Some m ->
       (JobRetry.newRetryCounter payload < m)%Z ->
       JobRetry.publishRetryMessage config payload =
       [ {| JobRetry.message :=
              JobRetry.withRetryCounter payload (JobRetry.newRetryCounter payload);
            JobRetry.toQueue := JobRetry.queueUrl c;
            JobRetry.delay :=
              Some (Z.min 900 (JobRetry.delayInSeconds c *
                               JobRetry.delayBackoff c ^
                               JobRetry.newRetryCounter payload)) |} ]) /\
    (config = None \/
     (exists c, config = Some c /\
                (JobRetry.enable c = false \/
                 JobRetry.maxAttempts c = None \/
                 exists m, JobRetry.maxAttempts c = Some m /\
                           (m <= JobRetry.newRetryCounter payload)%Z)) ->
     JobRetry.publishRetryMessage config payload = []) /\
    (isQueued payload = Ok true ->
     JobRetry.checkAndRetryJob scaleUpQueueUrl isQueued payload =
     Ok [ {| JobRetry.message := payload;
             JobRetry.toQueue := scaleUpQueueUrl;
             JobRetry.delay := None |} ]) /\
    (isQueued payload = Ok false ->
     JobRetry.checkAndRetryJob scaleUpQueueUrl isQueued payload = Ok []).
Proof.
  intros config url isQueued payload. split; [ | split; [ | split; [ | split ] ] ].
  - unfold JobRetry.newRetryCounter. destruct (ScaleUp.retryCounter payload); simpl; lia.
  - intros c m -> He Hm Hlt.
    unfold JobRetry.publishRetryMessage, JobRetry.belowMaxAttempts.
    rewrite He, Hm. simpl.
    apply Z.ltb_lt in Hlt. now rewrite Hlt.
  - intros [-> | (c & -> & Hc)]; [reflexivity | ].
    unfold JobRetry.publishRetryMessage, JobRetry.belowMaxAttempts.
    destruct Hc as [-> | [-> | (m & -> & Hm)]];
      [reflexivity | now rewrite andb_false_r | ].
    apply Z.ltb_ge in Hm. rewrite Hm. now rewrite andb_false_r.
  - intros Hq. unfold JobRetry.checkAndRetryJob. now rewrite Hq.
  - intros Hq. unfold JobRetry.checkAndRetryJob. now rewrite Hq.
Qed.

(** C9 (as amended), on the second row of the table of job-retry.test.ts:
    a message with counter 0, an initial delay of 10, a back-off of 2 and
    2 attempts at most is published once, with counter 1 and a delay of
    20. *)
Lemma retryLayer_republishes_once_witness :
  JobRetry.publishRetryMessage (Some (Scenarios.jobRetryConfig true (Some 2%Z) 10))
    (Scenarios.retryMessage (Some 0%Z)) =
  [ {| JobRetry.message := Scenarios.retryMessage (Some 1%Z);
       JobRetry.toQueue := Scenarios.retryQueue; JobRetry.delay := Some 20%Z |} ].
Proof.
  destruct (retryLayer_republishes_once
              (Some (Scenarios.jobRetryConfig true (Some 2%Z) 10)) Scenarios.retryQueue
              (fun _ => Ok true) (Scenarios.retryMessage (Some 0%Z)))
    as (_ & Hpub & _).
  rewrite (Hpub (Scenarios.jobRetryConfig true (Some 2%Z) 10) 2%Z);
    try reflexivity.
Defined.

(** C9 as stated fails on the message of the tests with counter k = 0,
    whose job is still queued, with an initial delay of 10, a back-off of
    2 and 2 attempts at most.  The claim has one republish with counter 1
    and a delay of min(900, 10 * 2 ^ 0) = 10.  [publishRetryMessage]
    publishes counter 1 with a delay of 20 (second row of the table of
    job-retry.test.ts), and [checkAndRetryJob], the function that asks for
    the status of the job, publishes the message with its counter 0 and no
    delay. *)
Lemma retryLayer_delay_uses_the_new_counter :
  ScaleUp.retryCounter (Scenarios.retryMessage (Some 0%Z)) = Some 0%Z /\
  JobRetry.delayOfReceivedCounter (Scenarios.jobRetryConfig true (Some 2%Z) 10) 0 = 10%Z /\
  map (fun p => (ScaleUp.retryCounter (JobRetry.message p), JobRetry.delay p))
    (JobRetry.publishRetryMessage (Some (Scenarios.jobRetryConfig true (Some 2%Z) 10))
       (Scenarios.retryMessage (Some 0%Z))) = [(Some 1%Z, Some 20%Z)] /\
  JobRetry.checkAndRetryJob Scenarios.retryQueue (fun _ => Ok true)
    (Scenarios.retryMessage (Some 0%Z)) =
    Ok [ {| JobRetry.message := Scenarios.retryMessage (Some 0%Z);
            JobRetry.toQueue := Scenarios.retryQueue; JobRetry.delay := None |} ].
Proof. repeat split. Qed.

(** ** The just-in-time configuration (scale-up.ts, [createJitConfig]) *)

Section JitProperties.
Import ScaleUp.

(** The secrets a log writes to the parameter store (name and value of
    the secure parameters), and the tag calls it makes with an upstream
    runner id (instance and id), both in call order. *)
Definition secrets (log : list Call) : list (string * string) :=
  omap (fun c => match c with
                 | PutParameter name value true _ => Some (name, value)
                 | _ => None
                 end) log.

Definition runnerIdTags (log : list Call) : list (string * string) :=
  omap (fun c => match c with
                 | TagInstance instance [ {| Key := "ghr:github_runner_id"; Value := v |} ] =>
                     Some (instance, v)
                 | _ => None
                 end) log.

Lemma secrets_app l l' : secrets (l ++ l') = secrets l ++ secrets l'.
Proof. apply omap_app. Qed.

Lemma runnerIdTags_app l l' : runnerIdTags (l ++ l') = runnerIdTags l ++ runnerIdTags l'.
Proof. apply omap_app. Qed.

Lemma call_run {A} (c : Call) (r : result exn A) l : call c r l = (r, l ++ [c]).
Proof. reflexivity. Qed.

Lemma tagRunnerId_run w instanceId runnerId l :
  tagRunnerId w instanceId runnerId l =
  (Ok tt, l ++ [TagInstance instanceId
                  [{| Key := "ghr:github_runner_id"; Value := runnerId |}]]).
Proof.
  unfold tagRunnerId, tryCatch. rewrite call_run.
  now destruct (tag w instanceId _) as [[]|e].
Qed.

Lemma generateJit_run w c runnerName runnerGroupId labels l :
  exists g,
    snd (generateJit w c runnerName runnerGroupId labels l) = l ++ [g] /\
    secrets [g] = [] /\ runnerIdTags [g] = [].
Proof.
  unfold generateJit. destruct (runnerType c); rewrite call_run; eexists;
    (split; [reflexivity | split; reflexivity]).
Qed.

Lemma delayIf_run b l :
  exists rest, delayIf b l = (Ok tt, l ++ rest) /\ secrets rest = [] /\ runnerIdTags rest = [].
Proof.
  destruct b; simpl.
  - exists [Delay 25]. now rewrite call_run.
  - exists []. unfold ret. now rewrite app_nil_r.
Qed.

Lemma jitConfigFor_run w c runnerGroupId labels delay instance runnerConfig l :
  fst (generateJit w c (runnerNamePrefix c +:+ instance) runnerGroupId labels l) =
    Ok runnerConfig ->
  putParameter w (ssmTokenPath c +:+ "/" +:+ instance) (encoded_jit_config runnerConfig)
    true (instanceTags instance) = Ok tt ->
  exists l',
    jitConfigFor w c runnerGroupId labels delay instance l = (Ok tt, l') /\
    secrets l' =
      secrets l ++ [(ssmTokenPath c +:+ "/" +:+ instance, encoded_jit_config runnerConfig)] /\
    runnerIdTags l' = runnerIdTags l ++ [(instance, toString (runner_id runnerConfig))].
Proof.
  intros Hg Hp. unfold jitConfigFor.
  destruct (generateJit_run w c (runnerNamePrefix c +:+ instance) runnerGroupId labels l)
    as (g & Lg & Sg & Tg).
  destruct (generateJit w c (runnerNamePrefix c +:+ instance) runnerGroupId labels l)
    as [[cfg|e] l1] eqn:E1; simpl in Hg, Lg; [ | discriminate ].
  injection Hg as ->. subst l1.
  rewrite (bind_ok _ _ _ _ _ E1).
  rewrite (bind_ok _ _ _ _ _ (tagRunnerId_run w instance _ _)).
  unfold bind at 1. rewrite call_run, Hp.
  destruct (delayIf_run delay
              (((l ++ [g]) ++
                [TagInstance instance
                   [{| Key := "ghr:github_runner_id";
                       Value := toString (runner_id runnerConfig) |}]]) ++
               [PutParameter (ssmTokenPath c +:+ "/" +:+ instance)
                  (encoded_jit_config runnerConfig) true (instanceTags instance)]))
    as (rest & -> & Sr & Tr).
  eexists. split; [reflexivity | ].
  rewrite !secrets_app, !runnerIdTags_app, Sg, Tg, Sr, Tr. simpl.
  now rewrite !app_nil_r.
Qed.

Lemma forOf_jitConfigFor w c runnerGroupId labels delay (jit : string -> JitConfig)
    instances :
  (forall instance l,
     In instance instances ->
     fst (generateJit w c (runnerNamePrefix c +:+ instance) runnerGroupId labels l) =
       Ok (jit instance)) ->
  (forall instance,
     In instance instances ->
     putParameter w (ssmTokenPath c +:+ "/" +:+ instance)
       (encoded_jit_config (jit instance)) true (instanceTags instance) = Ok tt) ->
  forall l, exists l',
    forOf instances (jitConfigFor w c runnerGroupId labels delay) l = (Ok tt, l') /\
    secrets l' =
      secrets l ++
      map (fun instance =>
             (ssmTokenPath c +:+ "/" +:+ instance, encoded_jit_config (jit instance)))
          instances /\
    runnerIdTags l' =
      runnerIdTags l ++
      map (fun instance => (instance, toString (runner_id (jit instance)))) instances.
Proof.
  induction instances as [|i instances IH]; intros Hg Hp l.
  - exists l. simpl. now rewrite !app_nil_r.
  - destruct (jitConfigFor_run w c runnerGroupId labels delay i (jit i) l)
      as (l1 & E1 & S1 & T1); [apply Hg; now left | apply Hp; now left | ].
    destruct (IH (fun i' l' Hi' => Hg i' l' (or_intror Hi'))
                 (fun i' Hi' => Hp i' (or_intror Hi')) l1) as (l2 & E2 & S2 & T2).
    exists l2. simpl forOf. rewrite (bind_ok _ _ _ _ _ E1). split; [exact E2 | ].
    rewrite S2, T2, S1, T1. simpl. now rewrite <- !app_assoc.
Qed.
End JitProperties.

(** C10.  In the just-in-time path the tag call that records the upstream
    runner id never aborts the provisioning.  [tagRunnerId] returns
    normally whatever the tag call answers.  For one instance whose tag
    call fails: the secret is still written to the parameter path of the
    instance, right after the failed tag call, and the iteration ends as
    the write does.  And for a whole batch, whatever the tag calls answer
    (so also when all of them fail): once the runner group is resolved, if
    every JIT configuration is generated and every write succeeds, the
    function returns normally and a secret has been written for every
    instance, in order. *)
Theorem createJitConfig_survives_tag_failure :
  forall (w : ScaleUp.Services) (c : ScaleUp.CreateGitHubRunnerConfig),
    (forall instanceId runnerId l,
       fst (ScaleUp.tagRunnerId w instanceId runnerId l) = Ok tt) /\
    (forall runnerGroupId labels delay instance runnerConfig e l l1,
       ScaleUp.generateJit w c (ScaleUp.runnerNamePrefix c +:+ instance) runnerGroupId labels l =
         (Ok runnerConfig, l1) ->
       ScaleUp.tag w instance
         [ {| ScaleUp.Key := "ghr:github_runner_id";
              ScaleUp.Value := toString (ScaleUp.runner_id runnerConfig) |} ] = Throw e ->
       fst (ScaleUp.jitConfigFor w c runnerGroupId labels delay instance l) =
         ScaleUp.putParameter w (ScaleUp.ssmTokenPath c +:+ "/" +:+ instance)
           (ScaleUp.encoded_jit_config runnerConfig) true (ScaleUp.instanceTags instance) /\
       exists rest,
         snd (ScaleUp.jitConfigFor w c runnerGroupId labels delay instance l) =
         l1 ++
         ScaleUp.TagInstance instance
           [ {| ScaleUp.Key := "ghr:github_runner_id";
                ScaleUp.Value := toString (ScaleUp.runner_id runnerConfig) |} ] ::
         ScaleUp.PutParameter (ScaleUp.ssmTokenPath c +:+ "/" +:+ instance)
           (ScaleUp.encoded_jit_config runnerConfig) true (ScaleUp.instanceTags instance) ::
         rest) /\
    (forall instances l runnerGroupId l1 (jit : string -> ScaleUp.JitConfig),
       ScaleUp.getRunnerGroupId w c l = (Ok runnerGroupId, l1) ->
       (forall instance l0,
          In instance instances ->
          fst (ScaleUp.generateJit w c (ScaleUp.runnerNamePrefix c +:+ instance)
                 runnerGroupId (split "," (ScaleUp.runnerLabels c)) l0) =
            Ok (jit instance)) ->
       (forall instance,
          In instance instances ->
          ScaleUp.putParameter w (ScaleUp.ssmTokenPath c +:+ "/" +:+ instance)
            (ScaleUp.encoded_jit_config (jit instance)) true
            (ScaleUp.instanceTags instance) = Ok tt) ->
       fst (ScaleUp.createJitConfig w c instances l) = Ok tt /\
       secrets (snd (ScaleUp.createJitConfig w c instances l)) =
         secrets l1 ++
         map (fun instance =>
                (ScaleUp.ssmTokenPath c +:+ "/" +:+ instance,
                 ScaleUp.encoded_jit_config (jit instance)))
             instances).
Proof.
  intros w c. split; [ | split ].
  - intros i r l. now rewrite tagRunnerId_run.
  - intros gid labels delay i cfg e l l1 Hg Ht.
    unfold ScaleUp.jitConfigFor.
    rewrite (bind_ok _ _ _ _ _ Hg).
    rewrite (bind_ok _ _ _ _ _ (tagRunnerId_run w i _ _)).
    unfold bind. rewrite call_run.
    destruct (ScaleUp.putParameter w _ _ true _) as [[]|e'].
    + destruct (delayIf_run delay
                  ((l1 ++
                    [ScaleUp.TagInstance i
                       [{| ScaleUp.Key := "ghr:github_runner_id";
                           ScaleUp.Value := toString (ScaleUp.runner_id cfg) |}]]) ++
                   [ScaleUp.PutParameter (ScaleUp.ssmTokenPath c +:+ "/" +:+ i)
                      (ScaleUp.encoded_jit_config cfg) true (ScaleUp.instanceTags i)]))
        as (rest & -> & _).
      split; [reflexivity | ]. exists rest. simpl. now rewrite <- !app_assoc.
    + split; [reflexivity | ]. exists []. simpl. now rewrite <- !app_assoc.
  - intros instances l gid l1 jit Hgid Hg Hp.
    unfold ScaleUp.createJitConfig. rewrite (bind_ok _ _ _ _ _ Hgid).
    destruct (forOf_jitConfigFor w c gid (split "," (ScaleUp.runnerLabels c))
                (ScaleUp.isDelay instances) jit instances
                (fun i l0 Hi => Hg i l0 Hi) Hp l1) as (l' & -> & S & _).
    split; [reflexivity | exact S].
Qed.

(** C10, on two instances of an organisation with every tag call failing:
    [createJitConfig] returns normally and the JIT secret of each instance
    is written to its parameter path. *)
Lemma createJitConfig_survives_tag_failure_witness :
  ScaleUp.tag (Scenarios.testServices 0 [] (Throw (Error "tag failed"))) "i-1"
    [ {| ScaleUp.Key := "ghr:github_runner_id"; ScaleUp.Value := "9876543210" |} ] =
    Throw (Error "tag failed") /\
  fst (ScaleUp.createJitConfig (Scenarios.testServices 0 [] (Throw (Error "tag failed")))
         (ScaleUp.githubRunnerConfig (Scenarios.testEnv true 10) "Codertocat")
         ["i-1"; "i-2"] []) = Ok tt /\
  secrets
    (snd (ScaleUp.createJitConfig (Scenarios.testServices 0 [] (Throw (Error "tag failed")))
            (ScaleUp.githubRunnerConfig (Scenarios.testEnv true 10) "Codertocat")
            ["i-1"; "i-2"] [])) =
    [ ("/github-action-runners/default/runners/config/i-1", "TEST_JIT_CONFIG_ORG");
      ("/github-action-runners/default/runners/config/i-2", "TEST_JIT_CONFIG_ORG") ].
Proof.
  split; [reflexivity | ].
  destruct (createJitConfig_survives_tag_failure
              (Scenarios.testServices 0 [] (Throw (Error "tag failed")))
              (ScaleUp.githubRunnerConfig (Scenarios.testEnv true 10) "Codertocat"))
    as (_ & _ & Hbatch).
  apply (Hbatch ["i-1"; "i-2"] [] (Some 1%Z)
           (snd (ScaleUp.getRunnerGroupId
                   (Scenarios.testServices 0 [] (Throw (Error "tag failed")))
                   (ScaleUp.githubRunnerConfig (Scenarios.testEnv true 10) "Codertocat") []))
           (fun _ => {| ScaleUp.runner_id := 9876543210;
                        ScaleUp.encoded_jit_config := "TEST_JIT_CONFIG_ORG" |})).
  - vm_compute. reflexivity.
  - intros instance l0 _. reflexivity.
  - intros instance _. reflexivity.
Defined.

(* ================================================================== *)
(** * Further properties of the code                                   *)
(* ================================================================== *)

(** ** What a computation returns *)

Section Returns.
Context {S E : Type}.

(** [returns m P]: whenever [m] ends normally, its value satisfies [P]. *)
Definition returns {A} (m : M S E A) (P : A -> Prop) : Prop :=
  forall s a s', m s = (Ok a, s') -> P a.

Lemma returns_ret {A} (a : A) (P : A -> Prop) : P a -> returns (ret a) P.
Proof. intros Ha s a' s' [= <- _]. exact Ha. Qed.

Lemma returns_throw {A} (e : E) (P : A -> Prop) : returns (@throw S E A e) P.
Proof. intros s a s' [=]. Qed.

Lemma returns_bind {A B} (m : M S E A) (k : A -> M S E B) (P : A -> Prop) (Q : B -> Prop) :
  returns m P -> (forall a, P a -> returns (k a) Q) -> returns (bind m k) Q.
Proof.
  intros Hm Hk s b s' H. unfold bind in H.
  destruct (m s) as [[a|e] s1] eqn:E1; [ | discriminate ].
  exact (Hk a (Hm _ _ _ E1) _ _ _ H).
Qed.

Lemma returns_any {A} (m : M S E A) : returns m (fun _ => True).
Proof. intros s a s' _. exact I. Qed.

Lemma returns_weaken {A} (m : M S E A) (P Q : A -> Prop) :
  returns m P -> (forall a, P a -> Q a) -> returns m Q.
Proof. intros Hm HPQ s a s' H. exact (HPQ _ (Hm _ _ _ H)). Qed.
End Returns.

(** ** The array helpers, continued *)

Lemma firstn_incl {A} (n : nat) (l : list A) : incl (firstn n l) l.
Proof.
  intros x Hx. rewrite <- (firstn_skipn n l). apply in_or_app. now left.
Qed.

Lemma skipn_incl {A} (n : nat) (l : list A) : incl (skipn n l) l.
Proof.
  intros x Hx. rewrite <- (firstn_skipn n l). apply in_or_app. now right.
Qed.

Lemma splice0_removed_incl {A} (n : Z) (l : list A) : incl (fst (splice0 n l)) l.
Proof. apply firstn_incl. Qed.

Lemma splice0_left_incl {A} (n : Z) (l : list A) : incl (snd (splice0 n l)) l.
Proof. apply skipn_incl. Qed.

Lemma slice_incl {A} (start stop : Z) (l : list A) : incl (slice start stop l) l.
Proof.
  intros x Hx. unfold slice in Hx. eapply skipn_incl, firstn_incl, Hx.
Qed.

(** ** The reject list of the scale-up dispatcher *)

Section ScaleUpRejects.
Import ScaleUp.

Lemma pushTo_incl key p (m : MessageMap) (all : list ActionRequestMessageSQS) :
  In p all ->
  (forall k ms, In (k, ms) m -> incl ms all) ->
  forall k ms, In (k, ms) (pushTo key p m) -> incl ms all.
Proof.
  intros Hp. induction m as [|[k0 ms0] m IH]; intros Hm k ms Hin; simpl in Hin.
  - destruct Hin as [[= <- <-] | []]. intros x [<- | []]. exact Hp.
  - destruct (String.eqb k0 key).
    + destruct Hin as [[= <- <-] | Hin].
      * apply incl_app; [apply (Hm k0); now left | ]. intros x [<- | []]. exact Hp.
      * apply (Hm k). now right.
    + destruct Hin as [[= <- <-] | Hin].
      * apply (Hm k0). now left.
      * apply (IH (fun k' ms' H' => Hm k' ms' (or_intror H')) k ms Hin).
Qed.

(** The groups and the reject list that the validation loop hands on hold
    messages of the batch only. *)
Definition ofBatch (all : list ActionRequestMessageSQS)
    (grouped : MessageMap * list string) : Prop :=
  (forall k ms, In (k, ms) (fst grouped) -> incl ms all) /\
  incl (snd grouped) (map messageId all).

Lemma validate_ofBatch env w all payloads validMessages invalidMessages :
  incl payloads all ->
  ofBatch all (validMessages, invalidMessages) ->
  returns (validate env w payloads validMessages invalidMessages) (ofBatch all).
Proof.
  revert validMessages invalidMessages.
  induction payloads as [|p rest IH]; intros vm inv Hin Hof; simpl.
  - now apply returns_ret.
  - assert (Hp : In p all) by (apply Hin; now left).
    assert (Hrest : incl rest all) by (intros x Hx; apply Hin; now right).
    assert (Hskip : returns (validate env w rest vm (inv ++ [messageId p])) (ofBatch all)).
    { apply IH; [exact Hrest | ]. destruct Hof as (Hg & Hi). split; [exact Hg | ].
      apply incl_app; [exact Hi | ]. intros x [<- | []]. now apply in_map. }
    assert (Hgo : returns
                    (if negb (isValidRepoOwnerTypeIfOrgLevelEnabled (payload p)
                                (enableOrgLevel env))
                     then validate env w rest vm inv
                     else
                       bind (if hasKey (scopeKey env (payload p)) vm then ret tt
                             else bind (getInstallationId w (enableOrgLevel env) (payload p))
                                    (fun installationId =>
                                       call (CreateInstallationClient installationId)
                                         (createInstallationClient w installationId)))
                         (fun _ => validate env w rest
                                     (pushTo (scopeKey env (payload p)) p vm) inv))
                    (ofBatch all)).
    { destruct (negb _); [now apply IH | ].
      eapply returns_bind; [apply returns_any | intros _ _ ].
      apply IH; [exact Hrest | ]. destruct Hof as (Hg & Hi). split; [ | exact Hi ].
      simpl. now apply pushTo_incl. }
    destruct (ephemeralEnabled env), (eventType (payload p)); assumption.
Qed.

Lemma scaleUpGroup_rejects env w group messages invalidMessages :
  returns (scaleUpGroup env w group messages invalidMessages)
    (fun rejected => incl rejected (invalidMessages ++ map messageId messages)).
Proof.
  unfold scaleUpGroup.
  eapply returns_bind; [apply returns_any | intros want _ ].
  destruct (want =? 0)%Z; [apply returns_ret, incl_appl, incl_refl | ].
  eapply returns_bind; [apply returns_any | intros current _ ].
  set (missing := Z.max 0 (want - newRunners env want current)).
  assert (Hinv : incl (if (0 <? missing)%Z && ephemeralEnabled env
                       then invalidMessages ++
                            map messageId (fst (splice0 missing messages))
                       else invalidMessages)
                      (invalidMessages ++ map messageId messages)).
  { destruct (_ && _); [ | apply incl_appl, incl_refl ].
    apply incl_app; [apply incl_appl, incl_refl | ].
    apply incl_appr, incl_map, splice0_removed_incl. }
  destruct ((0 <? missing)%Z && (missing =? want)%Z); [now apply returns_ret | ].
  eapply returns_bind; [apply returns_any | intros instances _ ].
  destruct (negb _); [ | now apply returns_ret ].
  apply returns_ret, incl_app; [exact Hinv | ].
  apply incl_appr, incl_map. eapply incl_tran; [apply slice_incl | ].
  destruct (_ && _); [apply splice0_left_incl | apply incl_refl].
Qed.

Lemma scaleUpGroups_rejects env w all groups invalidMessages :
  ofBatch all (groups, invalidMessages) ->
  returns (scaleUpGroups env w groups invalidMessages)
    (fun rejected => incl rejected (map messageId all)).
Proof.
  revert invalidMessages.
  induction groups as [|[group messages] groups IH]; intros inv (Hg & Hi); simpl.
  - now apply returns_ret.
  - eapply returns_bind; [apply scaleUpGroup_rejects | ].
    intros rejected Hr. apply IH. split.
    + intros k ms Hin. apply (Hg k). now right.
    + eapply incl_tran; [exact Hr | ]. apply incl_app; [exact Hi | ].
      apply incl_map, (Hg group). now left.
Qed.

Lemma scaleUp_rejects env w payloads :
  returns (scaleUp env w payloads)
    (fun rejected => incl rejected (map messageId payloads)).
Proof.
  unfold scaleUp.
  eapply returns_bind; [apply returns_any | intros _ _ ].
  eapply returns_bind.
  - apply (validate_ofBatch env w payloads payloads [] []); [apply incl_refl | ].
    split; [intros k ms [] | intros x []].
  - intros [groups inv] Hof. now apply scaleUpGroups_rejects.
Qed.
End ScaleUpRejects.

(** X1.  [scaleUp] rejects messages of its batch only: when it returns,
    every identifier of the reject list is the identifier of a message it
    was given. *)
Theorem scaleUp_rejects_only_batch_messages :
  forall (env : ScaleUp.Env) (w : ScaleUp.Services)
         (payloads : list ScaleUp.ActionRequestMessageSQS)
         (log log' : list ScaleUp.Call) (rejected : list string),
    ScaleUp.scaleUp env w payloads log = (Ok rejected, log') ->
    forall i, In i rejected ->
              exists m, In m payloads /\ ScaleUp.messageId m = i.
Proof.
  intros env w payloads log log' rejected H i Hi.
  apply (scaleUp_rejects env w payloads _ _ _ H) in Hi.
  apply in_map_iff in Hi as (m & Hm & Hin). now exists m.
Qed.

(** X1, on seed scenario 2 with ephemeral runners: the three messages
    rejected are messages of the batch. *)
Lemma scaleUp_rejects_only_batch_messages_witness :
  fst (ScaleUp.scaleUp (Scenarios.testEnv true 1) (Scenarios.testServices 1 [] (Ok tt))
         (Scenarios.testMessages 3) []) = Ok ["message-0"; "message-1"; "message-2"] /\
  exists m, In m (Scenarios.testMessages 3) /\ ScaleUp.messageId m = "message-2".
Proof.
  split; [vm_compute; reflexivity | ].
  apply (scaleUp_rejects_only_batch_messages
           (Scenarios.testEnv true 1) (Scenarios.testServices 1 [] (Ok tt))
           (Scenarios.testMessages 3) []
           (snd (ScaleUp.scaleUp (Scenarios.testEnv true 1)
                   (Scenarios.testServices 1 [] (Ok tt)) (Scenarios.testMessages 3) []))
           ["message-0"; "message-1"; "message-2"]).
  - vm_compute. reflexivity.
  - simpl. auto.
Defined.

(** X2.  Whatever the event holds and whatever [scaleUp] does, every batch
    item failure that [scaleUpHandler] reports names a record of the event
    that came from the queue. *)
Theorem scaleUpHandler_reports_only_queue_records :
  forall (env : ScaleUp.Env) (w : ScaleUp.Services) (records : list Lambda.SQSRecord),
    Forall (fun f => exists r, In r records /\
                               Lambda.eventSource r = "aws:sqs" /\
                               Lambda.recordMessageId r = Lambda.itemIdentifier f)
      (Lambda.batchItemFailures
         (Lambda.scaleUpHandler (fun messages => fst (ScaleUp.scaleUp env w messages []))
            records)).
Proof.
  intros env w records.
  assert (Hid : forall i, In i (map ScaleUp.messageId (Lambda.sqsMessages records)) ->
                exists r, In r records /\ Lambda.eventSource r = "aws:sqs" /\
                          Lambda.recordMessageId r = i).
  { intros i Hi. apply in_map_iff in Hi as (m & <- & Hm).
    unfold Lambda.sqsMessages in Hm.
    apply (Permutation_in _ (Permutation_sym (sortBy_perm _ _))) in Hm.
    unfold Lambda.collect in Hm. apply in_map_iff in Hm as (r & <- & Hr).
    apply filter_In in Hr as (Hr & Hs). apply String.eqb_eq in Hs. now exists r. }
  apply List.Forall_forall. intros f Hf. unfold Lambda.scaleUpHandler in Hf.
  destruct (ScaleUp.scaleUp env w (Lambda.sqsMessages records) []) as [[rejected|e] log']
    eqn:E; simpl in Hf.
  - apply in_map_iff in Hf as (i & <- & Hi). apply Hid.
    exact (scaleUp_rejects env w _ _ _ _ E i Hi).
  - destruct e as [n|status|m]; simpl in Hf; try contradiction.
    unfold Lambda.toBatchItemFailures in Hf.
    apply in_map_iff in Hf as (m & <- & Hm). simpl. apply Hid, in_map.
    exact (slice_incl _ _ _ _ Hm).
Qed.

(** ** The groups of the validation loop *)

Section ScaleUpGroups.
Import ScaleUp.

(** The event is refused because ephemeral runners only serve
    [workflow_job] events. *)
Definition unsupported (env : Env) (m : ActionRequestMessageSQS) : bool :=
  ephemeralEnabled env &&
  match eventType (payload m) with check_run => true | workflow_job => false end.

(** The message passes the two tests of the validation loop. *)
Definition accepted (env : Env) (m : ActionRequestMessageSQS) : bool :=
  negb (unsupported env m) &&
  isValidRepoOwnerTypeIfOrgLevelEnabled (payload m) (enableOrgLevel env).

Definition inGroup (env : Env) (key : string) (m : ActionRequestMessageSQS) : bool :=
  accepted env m && String.eqb (scopeKey env (payload m)) key.

Lemma hasKey_In key (m : MessageMap) : hasKey key m = true <-> In key (map fst m).
Proof.
  unfold hasKey. rewrite existsb_exists. split.
  - intros ([k ms] & Hin & Heq). apply String.eqb_eq in Heq. simpl in Heq. subst k.
    apply in_map_iff. now exists (key, ms).
  - intros Hin. apply in_map_iff in Hin as ([k ms] & <- & Hin).
    exists (k, ms). split; [exact Hin | apply String.eqb_refl].
Qed.

Lemma hasKey_false key (m : MessageMap) : hasKey key m = false <-> ~ In key (map fst m).
Proof.
  rewrite <- hasKey_In. destruct (hasKey key m); split; intros H; congruence.
Qed.

Lemma pushTo_keys key p (m : MessageMap) :
  map fst (pushTo key p m) = if hasKey key m then map fst m else map fst m ++ [key].
Proof.
  induction m as [|[k0 ms0] m IH]; [reflexivity | ]. simpl.
  unfold hasKey in *. simpl. destruct (String.eqb k0 key) eqn:E; simpl; [reflexivity | ].
  rewrite IH. now destruct (existsb _ m).
Qed.

Lemma pushTo_In key p (m : MessageMap) k ms :
  List.NoDup (map fst m) ->
  In (k, ms) (pushTo key p m) ->
  (k <> key /\ In (k, ms) m) \/
  (k = key /\ exists ms0, In (key, ms0) m /\ ms = ms0 ++ [p]) \/
  (k = key /\ hasKey key m = false /\ ms = [p]).
Proof.
  induction m as [|[k0 ms0] m IH]; intros Hnd Hin; simpl in Hin.
  - destruct Hin as [[= <- <-] | []]. right. right. repeat split.
  - inversion Hnd as [|? ? Hk0 Hnd']; subst.
    destruct (String.eqb k0 key) eqn:E.
    + apply String.eqb_eq in E. subst k0. destruct Hin as [[= <- <-] | Hin].
      * right. left. split; [reflexivity | ]. exists ms0. split; [now left | reflexivity].
      * left. split; [ | now right ]. intros ->. apply Hk0.
        apply in_map_iff. now exists (key, ms).
    + apply String.eqb_neq in E. destruct Hin as [[= <- <-] | Hin].
      * left. split; [exact E | now left].
      * destruct (IH Hnd' Hin) as [(Hne & H) | [(-> & ms1 & H & ->) | (-> & Hk & ->)]].
        -- left. split; [exact Hne | now right].
        -- right. left. split; [reflexivity | ]. exists ms1. split; [now right | reflexivity].
        -- right. right. repeat split. unfold hasKey in *. simpl.
           apply String.eqb_neq in E. now rewrite E.
Qed.

(** The groups built from the messages [done]: one entry per scope key,
    holding the accepted messages of that scope in the order of [done]. *)
Definition groupedUpTo (env : Env) (done : list ActionRequestMessageSQS)
    (m : MessageMap) : Prop :=
  List.NoDup (map fst m) /\
  (forall k ms, In (k, ms) m -> ms <> [] /\ ms = List.filter (inGroup env k) done) /\
  (forall k, hasKey k m = false -> List.filter (inGroup env k) done = []).

Lemma groupedUpTo_skip env done m p :
  accepted env p = false -> groupedUpTo env done m -> groupedUpTo env (done ++ [p]) m.
Proof.
  intros Hp (Hnd & Hin & Hout).
  assert (Hf : forall k, List.filter (inGroup env k) (done ++ [p]) =
                         List.filter (inGroup env k) done).
  { intros k. rewrite List.filter_app. simpl. unfold inGroup at 2. rewrite Hp. simpl.
    apply app_nil_r. }
  split; [exact Hnd | split ].
  - intros k ms H. rewrite Hf. now apply Hin.
  - intros k H. rewrite Hf. now apply Hout.
Qed.

Lemma groupedUpTo_push env done m p :
  accepted env p = true -> groupedUpTo env done m ->
  groupedUpTo env (done ++ [p]) (pushTo (scopeKey env (payload p)) p m).
Proof.
  intros Hp (Hnd & Hin & Hout). set (key := scopeKey env (payload p)).
  assert (Hf : forall k, List.filter (inGroup env k) (done ++ [p]) =
                         List.filter (inGroup env k) done ++
                         (if String.eqb key k then [p] else [])).
  { intros k. rewrite List.filter_app. simpl. unfold inGroup at 2. rewrite Hp. simpl.
    fold key. now destruct (String.eqb key k). }
  split; [ | split ].
  - rewrite pushTo_keys. destruct (hasKey key m) eqn:Hk; [exact Hnd | ].
    apply hasKey_false in Hk. apply List.NoDup_app; [exact Hnd | constructor; [intros [] | constructor] | ].
    intros x Hx [<- | []]. contradiction.
  - intros k ms H. rewrite Hf.
    destruct (pushTo_In key p m k ms Hnd H)
      as [(Hne & H') | [(-> & ms0 & H' & ->) | (-> & Hk & ->)]].
    + destruct (Hin k ms H') as (Hn & Heq). split; [exact Hn | ].
      assert (E : String.eqb key k = false) by (apply String.eqb_neq; congruence).
      rewrite E, app_nil_r. exact Heq.
    + destruct (Hin key ms0 H') as (Hn & Heq). rewrite String.eqb_refl.
      split; [now destruct ms0 | now rewrite <- Heq].
    + rewrite String.eqb_refl, (Hout key Hk). split; [discriminate | reflexivity].
  - intros k Hk. rewrite Hf.
    apply hasKey_false in Hk. rewrite pushTo_keys in Hk.
    assert (Hm : ~ In k (map fst m) /\ key <> k).
    { destruct (hasKey key m) eqn:Hkey.
      - split; [exact Hk | ]. intros <-. apply Hk. now apply hasKey_In.
      - split; [intros Hx; apply Hk, in_or_app; now left | ].
        intros <-. apply Hk, in_or_app. right. now left. }
    destruct Hm as (Hm & Hne). apply hasKey_false in Hm.
    apply String.eqb_neq in Hne. rewrite Hne, app_nil_r. now apply Hout.
Qed.

Lemma validate_grouped env w rest :
  forall done validMessages invalidMessages,
    groupedUpTo env done validMessages ->
    returns (validate env w rest validMessages invalidMessages)
      (fun grouped =>
         groupedUpTo env (done ++ rest) (fst grouped) /\
         snd grouped =
           invalidMessages ++ map messageId (List.filter (unsupported env) rest)).
Proof.
  induction rest as [|p rest IH]; intros done vm inv Hg; simpl validate.
  - apply returns_ret. simpl. now rewrite !app_nil_r.
  - assert (Hcons : forall l : list ActionRequestMessageSQS,
                      done ++ p :: l = (done ++ [p]) ++ l)
      by (intros l; now rewrite <- app_assoc).
    rewrite Hcons.
    destruct (unsupported env p) eqn:Hu.
    + assert (Hacc : accepted env p = false) by (unfold accepted; now rewrite Hu).
      unfold unsupported in Hu. apply andb_prop in Hu as (He & Hc). rewrite He.
      destruct (eventType (payload p)) eqn:Hev; [ | discriminate ].
      eapply returns_weaken; [apply (IH (done ++ [p])); now apply groupedUpTo_skip | ].
      intros g (H1 & H2). split; [exact H1 | ].
      rewrite H2. simpl. unfold unsupported at 2. rewrite He, Hev. simpl.
      now rewrite <- app_assoc.
    + assert (Hgo : returns
                (if negb (isValidRepoOwnerTypeIfOrgLevelEnabled (payload p)
                            (enableOrgLevel env))
                 then validate env w rest vm inv
                 else
                   bind (if hasKey (scopeKey env (payload p)) vm then ret tt
                         else bind (getInstallationId w (enableOrgLevel env) (payload p))
                                (fun installationId =>
                                   call (CreateInstallationClient installationId)
                                     (createInstallationClient w installationId)))
                     (fun _ => validate env w rest
                                 (pushTo (scopeKey env (payload p)) p vm) inv))
                (fun grouped =>
                   groupedUpTo env ((done ++ [p]) ++ rest) (fst grouped) /\
                   snd grouped =
                     inv ++ map messageId (List.filter (unsupported env) (p :: rest)))).
      { simpl List.filter. rewrite Hu.
        destruct (isValidRepoOwnerTypeIfOrgLevelEnabled (payload p) (enableOrgLevel env))
          eqn:Hv; simpl negb; cbv iota.
        - eapply returns_bind; [apply returns_any | intros _ _ ].
          apply IH, groupedUpTo_push; [ | exact Hg ].
          unfold accepted. now rewrite Hu, Hv.
        - apply IH, groupedUpTo_skip; [ | exact Hg ].
          unfold accepted. now rewrite Hv, andb_false_r. }
      unfold unsupported in Hu.
      destruct (ephemeralEnabled env), (eventType (payload p)); try exact Hgo.
      discriminate.
Qed.
End ScaleUpGroups.

(** X3.  The validation loop of [scaleUp] groups the batch by scope.  When
    it ends normally: the keys of the groups are distinct; every group is
    not empty and holds exactly the accepted messages of its scope, in
    batch order; every accepted message has a group; and the reject list
    holds, in batch order, the messages refused because ephemeral runners
    only serve [workflow_job] events.  (A message is accepted when it is
    not refused so and, with organisation runners, belongs to an
    organisation.) *)
Theorem validate_groups_by_scope :
  forall (env : ScaleUp.Env) (w : ScaleUp.Services)
         (payloads : list ScaleUp.ActionRequestMessageSQS)
         (log log' : list ScaleUp.Call) (groups : ScaleUp.MessageMap)
         (invalidMessages : list string),
    ScaleUp.validate env w payloads [] [] log = (Ok (groups, invalidMessages), log') ->
    List.NoDup (map fst groups) /\
    (forall k ms, In (k, ms) groups ->
       ms <> [] /\
       ms = List.filter (fun m => accepted env m &&
                                  String.eqb (ScaleUp.scopeKey env (ScaleUp.payload m)) k)
              payloads) /\
    (forall m, In m payloads -> accepted env m = true ->
       exists ms, In (ScaleUp.scopeKey env (ScaleUp.payload m), ms) groups) /\
    invalidMessages = map ScaleUp.messageId (List.filter (unsupported env) payloads).
Proof.
  intros env w payloads log log' groups inv H.
  assert (H0 : groupedUpTo env [] []).
  { split; [constructor | split; [intros k ms [] | reflexivity] ]. }
  destruct (validate_grouped env w payloads [] [] [] H0 _ _ _ H) as ((Hnd & Hin & Hout) & Hinv).
  simpl in *. split; [exact Hnd | split; [exact Hin | split; [ | exact Hinv ] ] ].
  intros m Hm Hacc.
  destruct (ScaleUp.hasKey (ScaleUp.scopeKey env (ScaleUp.payload m)) groups) eqn:Hk.
  - apply hasKey_In, in_map_iff in Hk as ([k ms] & Hfst & Hk). simpl in Hfst. subst k.
    now exists ms.
  - apply Hout in Hk.
    assert (Hx : In m (List.filter (inGroup env (ScaleUp.scopeKey env (ScaleUp.payload m)))
                         payloads)).
    { apply filter_In. split; [exact Hm | ]. unfold inGroup.
      now rewrite Hacc, String.eqb_refl. }
    rewrite Hk in Hx. destruct Hx.
Qed.

(** X3, on three messages of one organisation: one group, keyed by the
    organisation, holds the three messages. *)
Lemma validate_groups_by_scope_witness :
  fst (ScaleUp.validate (Scenarios.testEnv false 3) (Scenarios.testServices 0 [] (Ok tt))
         (Scenarios.testMessages 3) [] [] []) =
    Ok ([("Codertocat", Scenarios.testMessages 3)], []) /\
  List.NoDup (map fst [("Codertocat", Scenarios.testMessages 3)]) /\
  (forall k ms, In (k, ms) [("Codertocat", Scenarios.testMessages 3)] ->
     ms <> [] /\
     ms = List.filter
            (fun m => accepted (Scenarios.testEnv false 3) m &&
                      String.eqb (ScaleUp.scopeKey (Scenarios.testEnv false 3)
                                    (ScaleUp.payload m)) k)
            (Scenarios.testMessages 3)).
Proof.
  split; [vm_compute; reflexivity | ].
  destruct (validate_groups_by_scope
              (Scenarios.testEnv false 3) (Scenarios.testServices 0 [] (Ok tt))
              (Scenarios.testMessages 3) []
              (snd (ScaleUp.validate (Scenarios.testEnv false 3)
                      (Scenarios.testServices 0 [] (Ok tt))
                      (Scenarios.testMessages 3) [] [] []))
              [("Codertocat", Scenarios.testMessages 3)] [])
    as (Hnd & Hin & _).
  - vm_compute. reflexivity.
  - split; [exact Hnd | exact Hin].
Defined.

(** X4.  Partial creation.  For a scope in which [want] messages ask for a
    runner and the cap does not bind (the number to create is [want]):
    when the bulk creation and the start configuration end with fewer
    instances than asked, the scope rejects exactly the first
    [want - created] messages of its group, after the identifiers
    rejected before; with all of them created it rejects nothing. *)
Theorem scaleUpGroup_rejects_the_shortfall :
  forall (env : ScaleUp.Env) (w : ScaleUp.Services) (group : string)
         (messages : list ScaleUp.ActionRequestMessageSQS) (invalidMessages : list string)
         (log log1 log2 log3 : list ScaleUp.Call) (want current : Z)
         (instances : list string),
    ScaleUp.countQueued env w messages 0 log = (Ok want, log1) ->
    (0 < want)%Z ->
    ScaleUp.currentRunners env w group log1 = (Ok current, log2) ->
    ScaleUp.newRunners env want current = want ->
    ScaleUp.createRunners env w (ScaleUp.githubRunnerConfig env group)
      (ScaleUp.ec2RunnerConfig env) want log2 = (Ok instances, log3) ->
    (Z.of_nat (length instances) <= want)%Z ->
    ScaleUp.scaleUpGroup env w group messages invalidMessages log =
    (Ok (invalidMessages ++
         map ScaleUp.messageId
           (firstn (Z.to_nat (want - Z.of_nat (length instances))) messages)),
     log3).
Proof.
  intros env w group messages inv log log1 log2 log3 want current instances
    Hcount Hpos Hcur Hnew Hcreate Hle.
  pose proof (countQueued_bounds env w messages 0 log want log1 Hcount) as Hb.
  unfold ScaleUp.scaleUpGroup. rewrite (bind_ok _ _ _ _ _ Hcount).
  destruct (Z.eqb_spec want 0) as [-> | _]; [lia | ].
  rewrite (bind_ok _ _ _ _ _ Hcur). rewrite Hnew, Z.sub_diag. simpl.
  rewrite (bind_ok _ _ _ _ _ Hcreate).
  destruct (Z.eqb_spec (Z.of_nat (length instances)) want) as [Heq | Hne]; simpl.
  - rewrite Heq, Z.sub_diag. simpl. unfold ret. now rewrite app_nil_r.
  - unfold ret. rewrite slice_0_firstn by lia. reflexivity.
Qed.

(** X4, on seed scenario 3: three queued messages of one scope, no cap
    reached, and a bulk creation that returns one instance.  The first two
    messages are rejected. *)
Lemma scaleUpGroup_rejects_the_shortfall_witness :
  fst (ScaleUp.scaleUpGroup (Scenarios.testEnv false 10)
         (Scenarios.testServices 0 ["i-1"] (Ok tt)) "Codertocat"
         (Scenarios.testMessages 3) [] []) = Ok ["message-0"; "message-1"].
Proof.
  rewrite (scaleUpGroup_rejects_the_shortfall
             (Scenarios.testEnv false 10) (Scenarios.testServices 0 ["i-1"] (Ok tt))
             "Codertocat" (Scenarios.testMessages 3) [] []
             (snd (ScaleUp.countQueued (Scenarios.testEnv false 10)
                     (Scenarios.testServices 0 ["i-1"] (Ok tt))
                     (Scenarios.testMessages 3) 0 []))
             (snd (ScaleUp.currentRunners (Scenarios.testEnv false 10)
                     (Scenarios.testServices 0 ["i-1"] (Ok tt)) "Codertocat"
                     (snd (ScaleUp.countQueued (Scenarios.testEnv false 10)
                             (Scenarios.testServices 0 ["i-1"] (Ok tt))
                             (Scenarios.testMessages 3) 0 []))))
             (snd (ScaleUp.createRunners (Scenarios.testEnv false 10)
                     (Scenarios.testServices 0 ["i-1"] (Ok tt))
                     (ScaleUp.githubRunnerConfig (Scenarios.testEnv false 10) "Codertocat")
                     (ScaleUp.ec2RunnerConfig (Scenarios.testEnv false 10)) 3
                     (snd (ScaleUp.currentRunners (Scenarios.testEnv false 10)
                             (Scenarios.testServices 0 ["i-1"] (Ok tt)) "Codertocat"
                             (snd (ScaleUp.countQueued (Scenarios.testEnv false 10)
                                     (Scenarios.testServices 0 ["i-1"] (Ok tt))
                                     (Scenarios.testMessages 3) 0 []))))))
             3%Z 0%Z ["i-1"]);
    try (vm_compute; reflexivity).
  vm_compute. discriminate.
Defined.

(** ** The runner service configuration and its logging *)

Lemma trimEnd_cons (c : ascii) (s : string) :
  isSpace c = false -> trimEnd (String c s) = String c (trimEnd s).
Proof. intros Hc. simpl. rewrite Hc. now destruct (trimEnd s). Qed.

Lemma trimStart_cons (c : ascii) (s : string) :
  isSpace c = false -> trimStart (String c s) = String c s.
Proof. intros Hc. simpl. now rewrite Hc. Qed.

Lemma labels_not_token (labels : string) :
  startsWith (trim ("--labels " +:+ labels)) "--token" = false.
Proof.
  unfold trim.
  change ("--labels " +:+ labels)
    with (String "-" (String "-" (String "l" ("abels " +:+ labels)))).
  rewrite trimStart_cons by reflexivity. rewrite !trimEnd_cons by reflexivity.
  reflexivity.
Qed.

(** X5.  The logged form of a runner service configuration does not
    depend on the registration token: for labels in ASCII, redacting the
    configuration generated for a token gives the configuration generated
    for the text "<REDACTED>". *)
Theorem removeTokenFromLogging_hides_the_token :
  forall (c : ScaleUp.CreateGitHubRunnerConfig) (token : string),
    isAscii (ScaleUp.runnerLabels c) = true ->
    ScaleUp.removeTokenFromLogging (ScaleUp.generateRunnerServiceConfig c token) =
    ScaleUp.generateRunnerServiceConfig c "<REDACTED>".
Proof.
  intros c token _. unfold ScaleUp.generateRunnerServiceConfig, ScaleUp.removeTokenFromLogging.
  destruct (negb (String.eqb (ScaleUp.runnerLabels c) "")),
    (ScaleUp.disableAutoUpdate c), (ScaleUp.runnerType c), (ScaleUp.runnerGroup c),
    (ScaleUp.ephemeral c);
    rewrite ?map_app; simpl; rewrite ?labels_not_token; reflexivity.
Qed.

(** X5, on the organisation of the tests: the token "1234abcd" does not
    show in the logged configuration. *)
Lemma removeTokenFromLogging_hides_the_token_witness :
  ScaleUp.removeTokenFromLogging
    (ScaleUp.generateRunnerServiceConfig
       (ScaleUp.githubRunnerConfig (Scenarios.testEnv true 3) "Codertocat") "1234abcd") =
  ScaleUp.generateRunnerServiceConfig
    (ScaleUp.githubRunnerConfig (Scenarios.testEnv true 3) "Codertocat") "<REDACTED>".
Proof.
  apply (removeTokenFromLogging_hides_the_token
           (ScaleUp.githubRunnerConfig (Scenarios.testEnv true 3) "Codertocat") "1234abcd").
  reflexivity.
Defined.

(** ** Numbers written and read back *)

Section NumberRoundTrip.
Import DecimalString.
Local Open Scope Z_scope.

Lemma digitsFrom_acc (u : Decimal.uint) (a : positive) :
  digitsFrom 10 (NilEmpty.string_of_uint u) (Some (Z.pos a)) =
  Some (Z.pos (Pos.of_uint_acc u a)).
Proof.
  revert a. induction u as [|u IH|u IH|u IH|u IH|u IH|u IH|u IH|u IH|u IH|u IH]; intros a;
    [reflexivity | .. ];
    cbn [NilEmpty.string_of_uint digitsFrom Pos.of_uint_acc];
    match goal with |- context [digitOf 10 ?c] =>
      let d := eval vm_compute in (digitOf 10 c) in change (digitOf 10 c) with d
    end;
    cbv iota beta; rewrite <- IH; do 2 f_equal; simpl default; lia.
Qed.

Lemma digitsFrom_zero (u : Decimal.uint) :
  digitsFrom 10 (NilEmpty.string_of_uint u) (Some 0) = Some (Z.of_N (Pos.of_uint u)).
Proof.
  induction u as [|u IH|u IH|u IH|u IH|u IH|u IH|u IH|u IH|u IH|u IH];
    [reflexivity | exact IH | .. ];
    cbn [NilEmpty.string_of_uint digitsFrom Pos.of_uint];
    apply (digitsFrom_acc u).
Qed.

Lemma digitsFrom_none (u : Decimal.uint) :
  u <> Decimal.Nil ->
  digitsFrom 10 (NilEmpty.string_of_uint u) None = Some (Z.of_N (Pos.of_uint u)).
Proof.
  destruct u as [|u|u|u|u|u|u|u|u|u|u]; intros Hu; [contradiction | .. ];
    cbn [NilEmpty.string_of_uint digitsFrom Pos.of_uint];
    first [apply (digitsFrom_zero u) | apply (digitsFrom_acc u)].
Qed.

Lemma unsignedFrom_digits (u : Decimal.uint) :
  unsignedFrom (NilEmpty.string_of_uint u) = digitsFrom 10 (NilEmpty.string_of_uint u) None.
Proof.
  destruct u as [|u|u|u|u|u|u|u|u|u|u]; try reflexivity.
  destruct u; reflexivity.
Qed.

Lemma parseInt_digits (u : Decimal.uint) :
  u <> Decimal.Nil ->
  parseInt (NilEmpty.string_of_uint u) = Some (Z.of_N (Pos.of_uint u)).
Proof.
  intros Hu. rewrite <- (digitsFrom_none u Hu), <- unsignedFrom_digits.
  destruct u; [contradiction | reflexivity ..].
Qed.

Lemma to_uint_not_nil (p : positive) : Pos.to_uint p <> Decimal.Nil.
Proof.
  intros H. pose proof (DecimalPos.Unsigned.of_to p) as E. rewrite H in E. discriminate.
Qed.

Lemma string_of_uint_to_uint (p : positive) :
  NilZero.string_of_uint (Pos.to_uint p) = NilEmpty.string_of_uint (Pos.to_uint p).
Proof.
  pose proof (to_uint_not_nil p) as H. now destruct (Pos.to_uint p).
Qed.

(** What [parseInt] reads from the decimal text of an integer is that
    integer. *)
Lemma parseInt_toString (z : Z) : parseInt (toString z) = Some z.
Proof.
  destruct z as [|p|p]; [reflexivity | | ]; unfold toString; simpl Z.to_int;
    unfold NilZero.string_of_int; rewrite string_of_uint_to_uint.
  - rewrite parseInt_digits by apply to_uint_not_nil.
    now rewrite DecimalPos.Unsigned.of_to.
  - unfold parseInt.
    change (trimStart (String "-" (NilEmpty.string_of_uint (Pos.to_uint p))))
      with (String "-" (NilEmpty.string_of_uint (Pos.to_uint p))).
    cbv iota beta.
    rewrite unsignedFrom_digits, digitsFrom_none by apply to_uint_not_nil.
    now rewrite DecimalPos.Unsigned.of_to.
Qed.
End NumberRoundTrip.

(** X6.  [getRunnerGroupId] keeps the id of the runner group in the
    parameter store.  For an organisation with a runner group: when the
    parameter is there, its value is parsed and upstream is not asked;
    when reading it fails, the group is looked up by name upstream and
    its id is stored as a plain parameter; and a later call that reads the
    value stored gets the same id, with the one read as its only call.
    When upstream has no group of that name the call throws and stores
    nothing.  The value read is an ASCII text and the numbers are safe
    integers. *)
Theorem getRunnerGroupId_stores_and_reads_back :
  forall (w : ScaleUp.Services) (c : ScaleUp.CreateGitHubRunnerConfig) (g : string)
         (log : list ScaleUp.Call),
    ScaleUp.runnerType c = ScaleUp.Org ->
    ScaleUp.runnerGroup c = Some g ->
    (forall v,
       ScaleUp.getParameter w (ScaleUp.runnerGroupPath c g) = Ok v ->
       isAscii v = true ->
       from_option isSafeInteger true (parseInt v) = true ->
       ScaleUp.getRunnerGroupId w c log =
       (Ok (parseInt v), log ++ [ScaleUp.GetParameter (ScaleUp.runnerGroupPath c g)])) /\
    (forall e runnerGroups found,
       isSafeInteger (ScaleUp.group_id found) = true ->
       ScaleUp.getParameter w (ScaleUp.runnerGroupPath c g) = Throw e ->
       ScaleUp.listRunnerGroups w (ScaleUp.runnerOwner c) = Ok runnerGroups ->
       find (fun r => bool_decide (Some (ScaleUp.name r) = ScaleUp.runnerGroup c))
         runnerGroups = Some found ->
       ScaleUp.putParameter w (ScaleUp.runnerGroupPath c g)
         (toString (ScaleUp.group_id found)) false [] = Ok tt ->
       ScaleUp.getRunnerGroupId w c log =
       (Ok (Some (ScaleUp.group_id found)),
        log ++ [ScaleUp.GetParameter (ScaleUp.runnerGroupPath c g);
                ScaleUp.ListRunnerGroups (ScaleUp.runnerOwner c);
                ScaleUp.PutParameter (ScaleUp.runnerGroupPath c g)
                  (toString (ScaleUp.group_id found)) false []]) /\
       forall w' log',
         ScaleUp.getParameter w' (ScaleUp.runnerGroupPath c g) =
           Ok (toString (ScaleUp.group_id found)) ->
         ScaleUp.getRunnerGroupId w' c log' =
         (Ok (Some (ScaleUp.group_id found)),
          log' ++ [ScaleUp.GetParameter (ScaleUp.runnerGroupPath c g)])) /\
    (forall e runnerGroups,
       ScaleUp.getParameter w (ScaleUp.runnerGroupPath c g) = Throw e ->
       ScaleUp.listRunnerGroups w (ScaleUp.runnerOwner c) = Ok runnerGroups ->
       find (fun r => bool_decide (Some (ScaleUp.name r) = ScaleUp.runnerGroup c))
         runnerGroups = None ->
       ScaleUp.getRunnerGroupId w c log =
       (Throw (Error ("Runner group " +:+ g +:+ " does not exist")),
        log ++ [ScaleUp.GetParameter (ScaleUp.runnerGroupPath c g);
                ScaleUp.ListRunnerGroups (ScaleUp.runnerOwner c)])).
Proof.
  intros w c g log Ht Hg.
  assert (Hhit : forall w' log' v,
            ScaleUp.getParameter w' (ScaleUp.runnerGroupPath c g) = Ok v ->
            ScaleUp.getRunnerGroupId w' c log' =
            (Ok (parseInt v), log' ++ [ScaleUp.GetParameter (ScaleUp.runnerGroupPath c g)])).
  { intros w' log' v Hv. unfold ScaleUp.getRunnerGroupId. rewrite Ht, Hg.
    unfold bind, tryCatch, call. now rewrite Hv. }
  split; [intros v Hv _ _; now apply Hhit | split ].
  - intros e runnerGroups found _ He Hl Hf Hp. split.
    + rewrite Hg in Hf.
      unfold ScaleUp.getRunnerGroupId, ScaleUp.getRunnerGroupByName. rewrite Ht, Hg.
      unfold bind, tryCatch, call, ret. rewrite He. simpl. rewrite Hl, Hf. simpl.
      rewrite Hp. now rewrite <- !app_assoc.
    + intros w' log' Hv. rewrite (Hhit w' log' _ Hv). now rewrite parseInt_toString.
  - intros e runnerGroups He Hl Hf. rewrite Hg in Hf.
    unfold ScaleUp.getRunnerGroupId, ScaleUp.getRunnerGroupByName. rewrite Ht, Hg.
    unfold bind, tryCatch, call, ret, throw. rewrite He. simpl. rewrite Hl, Hf. simpl.
    now rewrite <- !app_assoc.
Qed.

(** X6, on the organisation of the tests: the group "Default" has id 1
    upstream; a store that holds "1" gives the id 1 with one read. *)
Lemma getRunnerGroupId_stores_and_reads_back_witness :
  ScaleUp.getRunnerGroupId (Scenarios.testServices 0 [] (Ok tt))
    (ScaleUp.githubRunnerConfig (Scenarios.testEnv true 3) "Codertocat") [] =
  (Ok (Some 1%Z),
   [ScaleUp.GetParameter "/github-action-runners/default/runners/config/runner-group/Default"]).
Proof.
  destruct (getRunnerGroupId_stores_and_reads_back
              (Scenarios.testServices 0 [] (Ok tt))
              (ScaleUp.githubRunnerConfig (Scenarios.testEnv true 3) "Codertocat")
              "Default" []) as (Hhit & _).
  - reflexivity.
  - reflexivity.
  - apply (Hhit "1"); reflexivity.
Defined.

(** ** The registration token path *)

Section RegistrationToken.
Import ScaleUp.

(** The pauses of a log, in milliseconds. *)
Definition pauses (log : list Call) : list Z :=
  omap (fun c => match c with Delay ms => Some ms | _ => None end) log.

Lemma pauses_app l l' : pauses (l ++ l') = pauses l ++ pauses l'.
Proof. apply omap_app. Qed.

Lemma forOf_putParameter w (name : string -> string) (value : string) (delay : bool)
    instances :
  (forall i, In i instances -> putParameter w (name i) value true (instanceTags i) = Ok tt) ->
  forall l, exists l',
    forOf instances
      (fun instance =>
         bind (call (PutParameter (name instance) value true (instanceTags instance))
                 (putParameter w (name instance) value true (instanceTags instance)))
              (fun _ => delayIf delay)) l = (Ok tt, l') /\
    secrets l' = secrets l ++ map (fun i => (name i, value)) instances /\
    pauses l' = pauses l ++ (if delay then repeat 25%Z (length instances) else []).
Proof.
  induction instances as [|i instances IH]; intros Hp l.
  - exists l. simpl. destruct delay; now rewrite !app_nil_r.
  - destruct (IH (fun i' Hi' => Hp i' (or_intror Hi'))
                (if delay
                 then (l ++ [PutParameter (name i) value true (instanceTags i)]) ++ [Delay 25]
                 else l ++ [PutParameter (name i) value true (instanceTags i)]))
      as (l' & E & S & P).
    exists l'. split.
    + simpl forOf. unfold bind at 1. unfold bind at 1. rewrite call_run.
      rewrite (Hp i (or_introl eq_refl)).
      destruct delay; [unfold delayIf; rewrite call_run | ]; exact E.
    + rewrite S, P. destruct delay; rewrite ?secrets_app, ?pauses_app; simpl;
        rewrite <- ?app_assoc; simpl; now rewrite ?app_nil_r.
Qed.
End RegistrationToken.

(** X7.  The registration token path.  Once the registration token is
    there, if every write succeeds, [createRegistrationTokenConfig] ends
    normally having written one secure parameter per instance, in order,
    under the token path of the instance, each holding the same service
    configuration; it pauses 25 ms after every write when there are 40
    instances or more, and never otherwise. *)
Theorem createRegistrationTokenConfig_writes_each_instance :
  forall (env : ScaleUp.Env) (w : ScaleUp.Services) (c : ScaleUp.CreateGitHubRunnerConfig)
         (instances : list string) (log log1 : list ScaleUp.Call) (token : string),
    ScaleUp.getGithubRunnerRegistrationToken env w c log = (Ok token, log1) ->
    (forall i, In i instances ->
       ScaleUp.putParameter w (ScaleUp.ssmTokenPath c +:+ "/" +:+ i)
         (String.concat " " (ScaleUp.generateRunnerServiceConfig c token)) true
         (ScaleUp.instanceTags i) = Ok tt) ->
    fst (ScaleUp.createRegistrationTokenConfig env w c instances log) = Ok tt /\
    secrets (snd (ScaleUp.createRegistrationTokenConfig env w c instances log)) =
      secrets log1 ++
      map (fun i => (ScaleUp.ssmTokenPath c +:+ "/" +:+ i,
                     String.concat " " (ScaleUp.generateRunnerServiceConfig c token)))
          instances /\
    pauses (snd (ScaleUp.createRegistrationTokenConfig env w c instances log)) =
      pauses log1 ++
      (if (40 <=? length instances)%nat then repeat 25%Z (length instances) else []).
Proof.
  intros env w c instances log log1 token Ht Hp.
  unfold ScaleUp.createRegistrationTokenConfig. rewrite (bind_ok _ _ _ _ _ Ht).
  destruct (forOf_putParameter w (fun i => ScaleUp.ssmTokenPath c +:+ "/" +:+ i)
              (String.concat " " (ScaleUp.generateRunnerServiceConfig c token))
              (ScaleUp.isDelay instances) instances Hp log1) as (l' & E & S & P).
  cbv zeta. rewrite E. split; [reflexivity | split; [exact S | exact P] ].
Qed.

(** X7, on two instances of a repository: two secrets, no pause. *)
Lemma createRegistrationTokenConfig_writes_each_instance_witness :
  secrets
    (snd (ScaleUp.createRegistrationTokenConfig (Scenarios.testEnv false 3)
            (Scenarios.testServices 0 [] (Ok tt))
            (ScaleUp.githubRunnerConfig (Scenarios.testEnv false 3) "Codertocat")
            ["i-1"; "i-2"] [])) =
    [ ("/github-action-runners/default/runners/config/i-1",
       "--url https://github.com/Codertocat --token 1234abcd --runnergroup Default");
      ("/github-action-runners/default/runners/config/i-2",
       "--url https://github.com/Codertocat --token 1234abcd --runnergroup Default") ] /\
  pauses
    (snd (ScaleUp.createRegistrationTokenConfig (Scenarios.testEnv false 3)
            (Scenarios.testServices 0 [] (Ok tt))
            (ScaleUp.githubRunnerConfig (Scenarios.testEnv false 3) "Codertocat")
            ["i-1"; "i-2"] [])) = [].
Proof.
  destruct (createRegistrationTokenConfig_writes_each_instance
              (Scenarios.testEnv false 3) (Scenarios.testServices 0 [] (Ok tt))
              (ScaleUp.githubRunnerConfig (Scenarios.testEnv false 3) "Codertocat")
              ["i-1"; "i-2"] []
              (snd (ScaleUp.getGithubRunnerRegistrationToken (Scenarios.testEnv false 3)
                      (Scenarios.testServices 0 [] (Ok tt))
                      (ScaleUp.githubRunnerConfig (Scenarios.testEnv false 3) "Codertocat")
                      []))
              "1234abcd") as (_ & Hs & Hp).
  - reflexivity.
  - intros i _. reflexivity.
  - split; [exact Hs | exact Hp].
Defined.

(** ** The queued check *)

Section QueuedCheck.
Import ScaleUp.
Local Open Scope Z_scope.

(** What upstream answers for the job of a message. *)
Definition jobStatus (w : Services) (m : ActionRequestMessageSQS) : result exn string :=
  getJobForWorkflowRun w (id (payload m)) (repositoryOwner (payload m))
    (repositoryName (payload m)).

Definition stillQueued (w : Services) (m : ActionRequestMessageSQS) : bool :=
  match jobStatus w m with
  | Ok status => String.eqb status "queued"
  | Throw _ => false
  end.

Definition statusCall (m : ActionRequestMessageSQS) : Call :=
  GetJobForWorkflowRun (id (payload m)) (repositoryOwner (payload m))
    (repositoryName (payload m)).

Lemma countQueued_checked env w messages :
  enableJobQueuedCheck env = true ->
  (forall m, In m messages ->
     eventType (payload m) = workflow_job /\ isOk (jobStatus w m) = true) ->
  forall n log,
    countQueued env w messages n log =
    (Ok (n + Z.of_nat (length (List.filter (stillQueued w) messages))),
     log ++ map statusCall messages).
Proof.
  intros He. induction messages as [|m messages IH]; intros Hm n log.
  - simpl. unfold ret. now rewrite Z.add_0_r, app_nil_r.
  - destruct (Hm m (or_introl eq_refl)) as (Hev & Hok).
    simpl countQueued. rewrite He. unfold isJobQueued. rewrite Hev.
    unfold bind, call, ret. fold (jobStatus w m). fold (statusCall m).
    destruct (jobStatus w m) as [status|e] eqn:Ej; [ | discriminate ].
    assert (Hs : stillQueued w m = String.eqb status "queued")
      by (unfold stillQueued; now rewrite Ej).
    simpl List.filter. rewrite Hs.
    destruct (String.eqb status "queued");
      rewrite (IH (fun m' H' => Hm m' (or_intror H'))); simpl length; simpl map;
      rewrite <- app_assoc; simpl; do 2 f_equal; lia.
Qed.

Lemma countQueued_unchecked env w messages :
  enableJobQueuedCheck env = false ->
  forall n log,
    countQueued env w messages n log = (Ok (n + Z.of_nat (length messages)), log).
Proof.
  intros He. induction messages as [|m messages IH]; intros n log.
  - simpl. unfold ret. now rewrite Z.add_0_r.
  - simpl countQueued. rewrite He, IH. simpl length. do 2 f_equal. lia.
Qed.
End QueuedCheck.

(** X8.  How many runners a scope asks for.  Without the queued check,
    every message of the group counts and upstream is not asked.  With
    it, when the status of every job can be read, the count is the number
    of messages whose job is still queued, and the status of each job is
    read once, in group order. *)
Theorem countQueued_counts_the_queued_jobs :
  forall (env : ScaleUp.Env) (w : ScaleUp.Services)
         (messages : list ScaleUp.ActionRequestMessageSQS) (log : list ScaleUp.Call),
    (ScaleUp.enableJobQueuedCheck env = false ->
     ScaleUp.countQueued env w messages 0 log = (Ok (Z.of_nat (length messages)), log)) /\
    (ScaleUp.enableJobQueuedCheck env = true ->
     (forall m, In m messages ->
        ScaleUp.eventType (ScaleUp.payload m) = ScaleUp.workflow_job /\
        isOk (jobStatus w m) = true) ->
     ScaleUp.countQueued env w messages 0 log =
     (Ok (Z.of_nat (length (List.filter (stillQueued w) messages))),
      log ++ map statusCall messages)).
Proof.
  intros env w messages log. split.
  - intros He. now rewrite countQueued_unchecked.
  - intros He Hm. now rewrite countQueued_checked.
Qed.

(** ** The order of the batch *)

Section BatchOrder.
Import ScaleUp Lambda.
Local Open Scope Z_scope.

Lemma insertBy_byRetryCount_filter (k : Z) x l :
  List.filter (fun m => retryCount m =? k) (insertBy byRetryCount x l) =
  if retryCount x =? k then x :: List.filter (fun m => retryCount m =? k) l
  else List.filter (fun m => retryCount m =? k) l.
Proof.
  induction l as [|y l IH]; simpl; [now destruct (retryCount x =? k) | ].
  unfold byRetryCount at 1.
  destruct (Z.leb_spec (retryCount x - retryCount y) 0) as [Hle | Hgt]; simpl.
  - now destruct (retryCount x =? k).
  - rewrite IH.
    destruct (Z.eqb_spec (retryCount x) k) as [Hx | Hx],
             (Z.eqb_spec (retryCount y) k) as [Hy | Hy]; try reflexivity.
    lia.
Qed.

Lemma sortBy_byRetryCount_filter (k : Z) l :
  List.filter (fun m => retryCount m =? k) (sortBy byRetryCount l) =
  List.filter (fun m => retryCount m =? k) l.
Proof.
  induction l as [|x l IH]; [reflexivity | ].
  change (sortBy byRetryCount (x :: l)) with (insertBy byRetryCount x (sortBy byRetryCount l)).
  rewrite insertBy_byRetryCount_filter, IH. simpl.
  now destruct (retryCount x =? k).
Qed.
End BatchOrder.

(** X9.  The sort of the batch is stable: the messages that [scaleUp]
    receives with a given retry count are the queue records of the event
    with that retry count, in the order of the event. *)
Theorem sqsMessages_keeps_the_event_order :
  forall (records : list Lambda.SQSRecord) (k : Z),
    List.filter (fun m => (Lambda.retryCount m =? k)%Z) (Lambda.sqsMessages records) =
    List.filter (fun m => (Lambda.retryCount m =? k)%Z) (Lambda.collect records).
Proof.
  intros records k. unfold Lambda.sqsMessages. apply sortBy_byRetryCount_filter.
Qed.

(** ** The caches of a scale-down pass *)

Section ScaleDownCacheUse.
Import ScaleDown.

Lemma listGitHubRunners_caches w r s gh s1 :
  listGitHubRunners w r s = (Ok gh, s1) -> runners s1 !! owner r = Some gh.
Proof.
  unfold listGitHubRunners.
  destruct (runners s !! owner r) as [cached| ] eqn:Hc.
  - intros [= <- <-]. exact Hc.
  - unfold bind. destruct (getOrCreateOctokit w r s) as [[[]|e] s2]; [ | discriminate ].
    destruct (isOrg r).
    + unfold request, modify, ret.
      destruct (listSelfHostedRunnersForOrg w (owner r)) as [gh'|e]; [ | discriminate ].
      intros [= <- <-]. simpl. apply lookup_insert_eq.
    + unfold liftResult. destruct (repoScope (owner r)) as [scope|e]; [ | discriminate ].
      unfold request, modify, ret.
      destruct (listSelfHostedRunnersForRepo w (fst scope) (snd scope)) as [gh'|e];
        [ | discriminate ].
      intros [= <- <-]. simpl. apply lookup_insert_eq.
Qed.
End ScaleDownCacheUse.

(** X10.  The upstream runners of a scope are fetched once.  After
    [listGitHubRunners] has answered for an instance, in whatever state of
    the caches, asking again for an instance of the same owner gives the
    same list, calls nothing and leaves the caches as they are. *)
Theorem listGitHubRunners_answers_from_the_cache :
  forall (w : ScaleDown.Services) (r r' : ScaleDown.RunnerList) (s s1 : ScaleDown.State)
         (ghRunners : list ScaleDown.RunnerState),
    ScaleDown.listGitHubRunners w r s = (Ok ghRunners, s1) ->
    ScaleDown.owner r' = ScaleDown.owner r ->
    ScaleDown.listGitHubRunners w r' s1 = (Ok ghRunners, s1).
Proof.
  intros w r r' s s1 gh H Ho.
  apply listGitHubRunners_hit. rewrite Ho. exact (listGitHubRunners_caches w r s gh s1 H).
Qed.

(** X10, on seed scenario 6: the list fetched for "i-1" on empty caches
    answers for "i-2" with no further call. *)
Lemma listGitHubRunners_answers_from_the_cache_witness :
  ScaleDown.log
    (snd (ScaleDown.listGitHubRunners (Scenarios.reaperServices 204) (Scenarios.instance 2)
            (snd (ScaleDown.listGitHubRunners (Scenarios.reaperServices 204)
                    (Scenarios.instance 1) ScaleDown.reset)))) =
  ScaleDown.log
    (snd (ScaleDown.listGitHubRunners (Scenarios.reaperServices 204)
            (Scenarios.instance 1) ScaleDown.reset)).
Proof.
  rewrite (listGitHubRunners_answers_from_the_cache
             (Scenarios.reaperServices 204) (Scenarios.instance 1) (Scenarios.instance 2)
             ScaleDown.reset
             (snd (ScaleDown.listGitHubRunners (Scenarios.reaperServices 204)
                     (Scenarios.instance 1) ScaleDown.reset))
             Scenarios.fourUpstream).
  - reflexivity.
  - vm_compute. reflexivity.
  - reflexivity.
Defined.

(** ** The instances a pass evaluates *)

Section EvictionGroups.
Import ScaleDown.

Lemma ownerTags_In (l : list RunnerList) o :
  In o (ownerTags l) <-> exists r, In r l /\ owner r = o.
Proof.
  induction l as [|x l IH]; simpl.
  - split; [intros [] | intros (r & [] & _)].
  - rewrite filter_In, IH. split.
    + intros [<- | ((r & Hr & <-) & _)]; [exists x | exists r]; auto.
    + intros (r & [<- | Hr] & <-); [now left | ].
      destruct (decide (owner x = owner r)) as [E | E]; [now left | right].
      split; [now exists r | now rewrite bool_decide_eq_false_2].
Qed.

Lemma ownerTags_NoDup (l : list RunnerList) : List.NoDup (ownerTags l).
Proof.
  induction l as [|x l IH]; simpl; constructor.
  - rewrite filter_In. intros (_ & H). now rewrite bool_decide_eq_true_2 in H.
  - now apply List.NoDup_filter.
Qed.

Lemma filter_other (x : option string) (os : list (option string)) :
  ~ In x os -> List.filter (fun o => negb (bool_decide (x = o))) os = os.
Proof.
  induction os as [|y os IH]; intros Hx; [reflexivity | ]. simpl.
  rewrite bool_decide_eq_false_2 by (intros ->; apply Hx; now left).
  simpl. f_equal. apply IH. intros H. apply Hx. now right.
Qed.

(** Taking the group of [x] out of the groups of distinct keys [os]. *)
Lemma concat_groups_split {A} (F : option string -> list A) (x : option string)
    (os : list (option string)) :
  List.NoDup os -> In x os ->
  Permutation (concat (map F os))
    (F x ++ concat (map F (List.filter (fun o => negb (bool_decide (x = o))) os))).
Proof.
  induction os as [|y os IH]; intros Hnd Hin; [destruct Hin | ]. simpl.
  inversion Hnd as [|? ? Hy Hnd']; subst.
  destruct (decide (x = y)) as [<- | Hne].
  - rewrite (bool_decide_eq_true_2 (x = x)) by reflexivity. simpl.
    now rewrite (filter_other x os Hy).
  - rewrite (bool_decide_eq_false_2 (x = y)) by exact Hne. simpl.
    destruct Hin as [E | Hin]; [congruence | ].
    rewrite (IH Hnd' Hin).
    rewrite !app_assoc. apply Permutation_app_tail, Permutation_app_comm.
Qed.

Lemma groups_perm (l : list RunnerList) :
  Permutation
    (concat (map (fun o => List.filter (fun r => bool_decide (owner r = o)) l)
               (ownerTags l))) l.
Proof.
  induction l as [|x l IH]; [reflexivity | ].
  simpl ownerTags. simpl map. simpl concat.
  rewrite (bool_decide_eq_true_2 (owner x = owner x)) by reflexivity.
  simpl. apply perm_skip.
  assert (Hrest : map (fun o => if bool_decide (owner x = o)
                               then x :: List.filter (fun r => bool_decide (owner r = o)) l
                               else List.filter (fun r => bool_decide (owner r = o)) l)
                    (List.filter (fun o => negb (bool_decide (owner x = o))) (ownerTags l)) =
                  map (fun o => List.filter (fun r => bool_decide (owner r = o)) l)
                    (List.filter (fun o => negb (bool_decide (owner x = o))) (ownerTags l))).
  { apply map_ext_in. intros o Ho. apply filter_In in Ho as (_ & Ho).
    destruct (bool_decide (owner x = o)); [discriminate | reflexivity]. }
  rewrite Hrest.
  destruct (decide (owner x ∈ ownerTags l)) as [Hin | Hout].
  - apply list_elem_of_In in Hin.
    eapply Permutation_trans; [ | exact IH ]. symmetry.
    exact (concat_groups_split
             (fun o => List.filter (fun r => bool_decide (owner r = o)) l)
             (owner x) (ownerTags l) (ownerTags_NoDup l) Hin).
  - rewrite list_elem_of_In in Hout. rewrite (filter_other _ _ Hout).
    assert (Hnone : forall r, In r l -> bool_decide (owner r = owner x) = false).
    { intros r Hr. apply bool_decide_eq_false_2. intros E. apply Hout.
      apply ownerTags_In. now exists r. }
    assert (Hempty : List.filter (fun r => bool_decide (owner r = owner x)) l = []).
    { clear -Hnone. induction l as [|r l IHl]; [reflexivity | ]. simpl.
      rewrite (Hnone r (or_introl eq_refl)). apply IHl. intros r' Hr'. apply Hnone.
      now right. }
    rewrite Hempty. exact IH.
Qed.

Lemma evictionOrder_perm env (l : list RunnerList) : Permutation (evictionOrder env l) l.
Proof.
  unfold evictionOrder. eapply Permutation_trans; [ | apply groups_perm ].
  generalize (ownerTags l) as os. intros os.
  induction os as [|o os IH]; simpl; [reflexivity | ].
  apply Permutation_app; [ | exact IH ].
  unfold ec2RunnersFiltered. symmetry. apply sortBy_perm.
Qed.
End EvictionGroups.

(** X11.  The two loops of Phase 2 evaluate every instance they are given
    exactly once: they are one loop over a rearrangement of the
    inventory. *)
Theorem evaluateAndRemoveRunners_visits_each_instance_once :
  forall (env : ScaleDown.Env) (w : ScaleDown.Services)
         (ec2Runners : list ScaleDown.RunnerList),
    exists order,
      Permutation order ec2Runners /\
      forall c s,
        ScaleDown.evaluateFrom env w ec2Runners c s =
        foldM (ScaleDown.evaluateRunner env w) order c s.
Proof.
  intros env w ec2Runners. exists (evictionOrder env ec2Runners).
  split; [apply evictionOrder_perm | ]. intros c s. apply evaluateFrom_flat.
Qed.

(** ** The idle quota *)

Section IdleQuota.
Import ScaleDown.
Local Open Scope Z_scope.

Lemma evaluateRunner_counter env w c r s c' s' :
  evaluateRunner env w c r s = (Ok c', s') ->
  c' = c \/ (0 < c /\ c' = c - 1).
Proof.
  unfold evaluateRunner, bind.
  destruct (listGitHubRunners w r s) as [[gh|e] s1]; [ | discriminate ].
  destruct (negb (length (matching r gh) =? 0)%nat).
  - destruct (runnerMinimumTimeExceeded env r).
    + destruct (Z.ltb_spec 0 c) as [Hc | Hc].
      * intros [= <- _]. right. now split.
      * destruct (removeRunner w r (map id (matching r gh)) s1) as [[[]|e] s2];
          [ | discriminate ].
        intros [= <- _]. now left.
    + intros [= <- _]. now left.
  - destruct (bootTimeExceeded env r).
    + destruct (markOrphan w (instanceId r) s1) as [[[]|e] s2]; [ | discriminate ].
      intros [= <- _]. now left.
    + intros [= <- _]. now left.
Qed.

Lemma removes_exhausted env w c r s : removes env w c r s = true -> c <= 0.
Proof.
  intros H. apply removes_spec in H as (gh & s' & _ & _ & _ & Hc & _). exact Hc.
Qed.

Lemma foldM_quota env w l :
  forall c s,
    Z.of_nat (length (terminated (log (snd (foldM (evaluateRunner env w) l c s))))) <=
    Z.of_nat (length (terminated (log s))) +
    Z.max 0 (Z.of_nat (length l) - Z.max 0 c).
Proof.
  induction l as [|x l IH]; intros c s; [simpl; lia | ].
  simpl foldM. unfold bind.
  pose proof (evaluateRunner_terminated env w c x s) as Ht.
  pose proof (removes_exhausted env w c x s) as Hc.
  destruct (evaluateRunner env w c x s) as [[c'|e] s1] eqn:E; simpl in Ht.
  - apply evaluateRunner_counter in E. specialize (IH c' s1).
    rewrite Ht in IH. rewrite length_app in IH. simpl length.
    destruct (removes env w c x s); simpl in IH.
    + specialize (Hc eq_refl). lia.
    + lia.
  - simpl. rewrite Ht, length_app. simpl length.
    destruct (removes env w c x s); simpl.
    + specialize (Hc eq_refl). lia.
    + lia.
Qed.
End IdleQuota.

(** X12.  The idle quota bounds what a Phase 2 pass terminates: over [n]
    instances and with an idle quota of [q], a pass terminates at most
    [max 0 (n - max 0 q)] instances, whatever upstream answers. *)
Theorem evaluateAndRemoveRunners_respects_the_idle_quota :
  forall (env : ScaleDown.Env) (w : ScaleDown.Services)
         (ec2Runners : list ScaleDown.RunnerList) (s : ScaleDown.State),
    (Z.of_nat
       (length (ScaleDown.terminated
                  (ScaleDown.log
                     (snd (ScaleDown.evaluateAndRemoveRunners env w ec2Runners s))))) <=
     Z.of_nat (length (ScaleDown.terminated (ScaleDown.log s))) +
     Z.max 0 (Z.of_nat (length ec2Runners) - Z.max 0 (ScaleDown.getIdleRunnerCount env)))%Z.
Proof.
  intros env w ec2Runners s. unfold ScaleDown.evaluateAndRemoveRunners.
  rewrite bind_ret_snd, evaluateFrom_flat.
  rewrite <- (Permutation_length (evictionOrder_perm env ec2Runners)).
  apply foldM_quota.
Qed.

(** ** Instances that are kept *)

Section KeptInstances.
Import ScaleDown.

Lemma removeRunner_not_idle w r ids s :
  allIdle w r ids = false ->
  exists new, log (snd (removeRunner w r ids s)) = log s ++ new /\ Forall silent new.
Proof.
  intros Hidle. unfold removeRunner, bind at 1.
  destruct (emits_getOrCreateOctokit w r s) as (n0 & E0 & F0).
  destruct (getOrCreateOctokit w r s) as [[[]|e] s1]; simpl in E0; [ | now exists n0 ].
  destruct (promiseAll_run silent (fun i => getGitHubRunnerBusyState w r (Some i))
              (fun i => busyAnswer w r (Some i)) ids s1) as (n1 & E1 & F1).
  { intros; apply steady_getGitHubRunnerBusyState. }
  { intros; apply getGitHubRunnerBusyState_answer. }
  exists (n0 ++ n1). split; [ | now apply Forall_app ].
  unfold tryCatch, bind. rewrite E1.
  destruct (allOk (map (fun i => busyAnswer w r (Some i)) ids)) as [states|e] eqn:Hstates.
  - rewrite (allOk_forallb _ negb ids states Hstates). fold (allIdle w r ids).
    rewrite Hidle. simpl. now rewrite E0, app_assoc.
  - simpl. now rewrite E0, app_assoc.
Qed.

Lemma busy_not_allIdle w r ids i :
  In i ids ->
  (forall s0, fst (getGitHubRunnerBusyState w r (Some i) s0) = Ok true) ->
  allIdle w r ids = false.
Proof.
  intros Hi Hb. apply not_true_is_false. intros H.
  unfold allIdle in H. rewrite forallb_forall in H. specialize (H i Hi).
  specialize (Hb reset). rewrite getGitHubRunnerBusyState_answer in Hb.
  rewrite Hb in H. discriminate.
Qed.
End KeptInstances.

(** X13.  A busy runner protects its instance.  When one of the runners
    matched to an instance answers busy = true to the direct query,
    [removeRunner] de-registers no runner and does not terminate the
    instance, whatever the other runners answer. *)
Theorem removeRunner_keeps_a_busy_instance :
  forall (w : ScaleDown.Services) (r : ScaleDown.RunnerList) (ghRunnerIds : list Z)
         (s : ScaleDown.State) (i : Z),
    In i ghRunnerIds ->
    (forall s0, fst (ScaleDown.getGitHubRunnerBusyState w r (Some i) s0) = Ok true) ->
    ScaleDown.deregistered (ScaleDown.log (snd (ScaleDown.removeRunner w r ghRunnerIds s))) =
      ScaleDown.deregistered (ScaleDown.log s) /\
    ScaleDown.terminated (ScaleDown.log (snd (ScaleDown.removeRunner w r ghRunnerIds s))) =
      ScaleDown.terminated (ScaleDown.log s).
Proof.
  intros w r ids s i Hi Hb.
  destruct (removeRunner_not_idle w r ids s (busy_not_allIdle w r ids i Hi Hb))
    as (new & -> & F).
  apply silent_none in F as (T & D & _).
  rewrite deregistered_app, terminated_app, T, D. now rewrite !app_nil_r.
Qed.

(** X13, on seed scenario 6 with the runner of "i-2" busy: the instance
    "i-2" is not terminated and its runner stays registered. *)
Lemma removeRunner_keeps_a_busy_instance_witness :
  ScaleDown.deregistered
    (ScaleDown.log (snd (ScaleDown.removeRunner Scenarios.busyServices
                           (Scenarios.instance 2) [102%Z] ScaleDown.reset))) = [] /\
  ScaleDown.terminated
    (ScaleDown.log (snd (ScaleDown.removeRunner Scenarios.busyServices
                           (Scenarios.instance 2) [102%Z] ScaleDown.reset))) = [].
Proof.
  apply (removeRunner_keeps_a_busy_instance Scenarios.busyServices (Scenarios.instance 2)
           [102%Z] ScaleDown.reset 102%Z).
  - left. reflexivity.
  - intros s0. rewrite getGitHubRunnerBusyState_answer. reflexivity.
Defined.

(** X14.  An instance that no upstream runner matches is not removed by
    Phase 2: once the upstream list is there, its iteration leaves the
    idle counter as it is and makes one call at most, the tag call that
    marks it as orphan, made exactly when its boot time has passed; a
    failure of that call is swallowed. *)
Theorem evaluateRunner_marks_the_unregistered :
  forall (env : ScaleDown.Env) (w : ScaleDown.Services) (idleCounter : Z)
         (r : ScaleDown.RunnerList) (s s1 : ScaleDown.State)
         (ghRunners : list ScaleDown.RunnerState),
    ScaleDown.listGitHubRunners w r s = (Ok ghRunners, s1) ->
    ScaleDown.matching r ghRunners = [] ->
    ScaleDown.evaluateRunner env w idleCounter r s =
    (Ok idleCounter,
     if ScaleDown.bootTimeExceeded env r
     then withLog s1 (ScaleDown.log s1 ++
                      [ScaleDown.TagInstance (ScaleDown.instanceId r) ScaleDown.orphanTag])
     else s1).
Proof.
  intros env w c r s s1 gh Hl Hm. unfold ScaleDown.evaluateRunner.
  rewrite (bind_ok _ _ _ _ _ Hl), Hm. simpl.
  destruct (ScaleDown.bootTimeExceeded env r); [ | reflexivity ].
  unfold bind, ScaleDown.markOrphan, tryCatch. rewrite request_run.
  now destruct (ScaleDown.tag w (ScaleDown.instanceId r) ScaleDown.orphanTag) as [[]|e].
Qed.

(** X14, on an instance "i-9" that upstream does not list and that was
    launched 91 minutes ago: it gets the orphan tag and is not
    terminated. *)
Lemma evaluateRunner_marks_the_unregistered_witness :
  fst (ScaleDown.evaluateRunner (Scenarios.reaperEnv 0 "oldest_first")
         (Scenarios.reaperServices 204) 0%Z (Scenarios.instance 9) ScaleDown.reset) = Ok 0%Z /\
  ScaleDown.terminated
    (ScaleDown.log
       (snd (ScaleDown.evaluateRunner (Scenarios.reaperEnv 0 "oldest_first")
               (Scenarios.reaperServices 204) 0%Z (Scenarios.instance 9)
               ScaleDown.reset))) = [].
Proof.
  rewrite (evaluateRunner_marks_the_unregistered
             (Scenarios.reaperEnv 0 "oldest_first") (Scenarios.reaperServices 204) 0%Z
             (Scenarios.instance 9) ScaleDown.reset
             (snd (ScaleDown.listGitHubRunners (Scenarios.reaperServices 204)
                     (Scenarios.instance 9) ScaleDown.reset))
             Scenarios.fourUpstream).
  - split; reflexivity.
  - vm_compute. reflexivity.
  - reflexivity.
Defined.

(** ** The fleet request *)

Section FleetRequest.
Import Runners.

Lemma generateFleetOverrides_In subnetIds instancesTypes amiId o :
  In o (generateFleetOverrides subnetIds instancesTypes amiId) <->
  exists s i, In s subnetIds /\ In i instancesTypes /\
              o = {| SubnetId := s; InstanceType := i; ImageId := amiId |}.
Proof.
  unfold generateFleetOverrides. rewrite in_flat_map. split.
  - intros (s & Hs & Ho). apply in_map_iff in Ho as (i & <- & Hi). now exists s, i.
  - intros (s & i & Hs & Hi & ->). exists s. split; [exact Hs | ].
    apply in_map_iff. now exists i.
Qed.

Lemma generateFleetOverrides_length subnetIds instancesTypes amiId :
  length (generateFleetOverrides subnetIds instancesTypes amiId) =
  (length subnetIds * length instancesTypes)%nat.
Proof.
  unfold generateFleetOverrides. induction subnetIds as [|s l IH]; [reflexivity | ].
  simpl. now rewrite length_app, length_map, IH.
Qed.
End FleetRequest.

(** X15.  The overrides of the fleet request are the pairs of a subnet
    and an instance type: there is one override for every subnet and
    every instance type given, each with the AMI override, and no
    other. *)
Theorem generateFleetOverrides_pairs :
  forall (subnetIds instancesTypes : list string) (amiId : option string),
    (forall o,
       In o (Runners.generateFleetOverrides subnetIds instancesTypes amiId) <->
       exists s i, In s subnetIds /\ In i instancesTypes /\
                   o = {| Runners.SubnetId := s; Runners.InstanceType := i;
                          Runners.ImageId := amiId |}) /\
    length (Runners.generateFleetOverrides subnetIds instancesTypes amiId) =
      (length subnetIds * length instancesTypes)%nat.
Proof.
  intros subnetIds instancesTypes amiId. split.
  - intros o. apply generateFleetOverrides_In.
  - apply generateFleetOverrides_length.
Qed.

(** X16.  The AMI override of [createRunner].  When a parameter name is
    configured for it: if reading the parameter fails, [createRunner]
    throws that error having sent no fleet request; if it is read, the
    fleet request that is sent has the value read as the image of every
    override. *)
Theorem createRunner_reads_the_ami_override :
  forall (cloud : Runners.Cloud) (p : Runners.RunnerInputParameters) (name : string)
         (log : list Runners.Call),
    Runners.amiIdSsmParameterName p = Some name ->
    name <> "" ->
    (forall e,
       Runners.getParameter cloud name = Throw e ->
       Runners.createRunner cloud p log = (Throw e, log ++ [Runners.GetParameter name])) /\
    (forall ami,
       Runners.getParameter cloud name = Ok ami ->
       exists rest,
         snd (Runners.createRunner cloud p log) =
           log ++ Runners.GetParameter name ::
                  Runners.CreateFleet (Runners.createFleetCommand p ami) :: rest /\
         Forall notCreateFleet rest /\
         forall o, In o (Runners.Overrides (Runners.createFleetCommand p ami)) ->
                   Runners.ImageId o = ami).
Proof.
  intros cloud p name log Hn Hne.
  assert (Hlook : Runners.lookupAmiIdOverride cloud p log =
                  (Runners.getParameter cloud name, log ++ [Runners.GetParameter name])).
  { unfold Runners.lookupAmiIdOverride. rewrite Hn.
    apply String.eqb_neq in Hne. now rewrite Hne. }
  split.
  - intros e He. unfold Runners.createRunner, bind. now rewrite Hlook, He.
  - intros ami Ha. rewrite Ha in Hlook.
    unfold Runners.createRunner. rewrite (bind_ok _ _ _ _ _ Hlook).
    unfold bind at 1, call.
    destruct (Runners.send cloud (Runners.createFleetCommand p ami)) as [fleet|e].
    + destruct (storeTokens_no_fleet cloud p (Runners.instancesOf fleet)
                  ((log ++ [Runners.GetParameter name]) ++
                   [Runners.CreateFleet (Runners.createFleetCommand p ami)]))
        as (new & Hnew & F).
      unfold bind, liftResult.
      destruct (Runners.createdInstances fleet) as [instances|e] eqn:Hc.
      * assert (instances = Runners.instancesOf fleet) as ->.
        { unfold Runners.createdInstances in Hc.
          destruct (length (Runners.instancesOf fleet) =? 0)%nat;
            [destruct (existsb _ _); discriminate | congruence]. }
        exists new. rewrite Hnew. split; [now rewrite <- !app_assoc | ].
        split; [exact F | ].
        intros o Ho. apply generateFleetOverrides_In in Ho as (s & i & _ & _ & ->).
        reflexivity.
      * exists []. simpl. split; [now rewrite <- !app_assoc | ].
        split; [constructor | ].
        intros o Ho. apply generateFleetOverrides_In in Ho as (s & i & _ & _ & ->).
        reflexivity.
    + exists []. simpl. split; [now rewrite <- !app_assoc | ].
      split; [constructor | ].
      intros o Ho. apply generateFleetOverrides_In in Ho as (s & i & _ & _ & ->).
      reflexivity.
Qed.

(** X16, on the configuration of the tests with the image parameter
    "my-ami-id-param" holding "ami-123": the fleet request follows the
    read, and every override asks for that image. *)
Lemma createRunner_reads_the_ami_override_witness :
  exists rest,
    snd (Runners.createRunner (Scenarios.cloudWithAmi (Ok (Some "ami-123")))
           Scenarios.runnerConfigWithAmi []) =
      [] ++ Runners.GetParameter "my-ami-id-param" ::
            Runners.CreateFleet
              (Runners.createFleetCommand Scenarios.runnerConfigWithAmi (Some "ami-123")) ::
            rest /\
    Forall notCreateFleet rest /\
    forall o,
      In o (Runners.Overrides
              (Runners.createFleetCommand Scenarios.runnerConfigWithAmi (Some "ami-123"))) ->
      Runners.ImageId o = Some "ami-123".
Proof.
  apply (createRunner_reads_the_ami_override
           (Scenarios.cloudWithAmi (Ok (Some "ami-123"))) Scenarios.runnerConfigWithAmi
           "my-ami-id-param" []).
  - reflexivity.
  - discriminate.
  - reflexivity.
Defined.
